(** * The LDA-on-SageMaker notebook: data pipeline and remote-job orchestration

    A shallow embedding of the code cells of [lda-sagemaker-demo.ipynb]:
    the corpus parsing loop, the train/test split, the upload /
    hyperparameter / training cells, the model download cell and the endpoint
    deletion cell.  Python values are modelled as the notebook has them:
    [int] as [Z], [str] as [string] (characters are code points below 256),
    the float64 array [bags_of_words] as rows of integer-valued doubles,
    exceptions as values of [exn], and everything the notebook delegates to
    boto3, the SageMaker SDK, MXNet or the file system as operations of an
    [sdk] record that the cells are polymorphic in. *)

From Stdlib Require Import ZArith Lia Bool Ascii String.
From stdpp Require Import base tactics option list.

#[local] Open Scope Z_scope.

(** ** Python: exceptions, results, strings *)

Module Py.

(** The exception classes the cells can meet.  [RuntimeError] stands for
    that class and its subclasses (what [except RuntimeError] catches);
    [OtherException] for any class outside the ones listed, named by its
    class name. *)
Inductive exn :=
| IndexError
| ValueError
| OverflowError
| AttributeError
| RuntimeError (message : string)
| OtherException (class_name message : string).

(** A Python expression either yields a value or raises. *)
Inductive result (A : Type) :=
| Ok (a : A)
| Raise (e : exn).
Arguments Ok {A} a.
Arguments Raise {A} e.

Definition bind {A B} (r : result A) (k : A -> result B) : result B :=
  match r with
  | Ok a => k a
  | Raise e => Raise e
  end.

Definition is_Ok {A} (r : result A) : bool :=
  match r with Ok _ => true | Raise _ => false end.

(** What [except RuntimeError] catches. *)
Definition is_RuntimeError (e : exn) : bool :=
  match e with RuntimeError _ => true | _ => false end.

(** [s.split(sep)] for a one-character separator: the fields between the
    occurrences of [sep]; never empty ([''.split(',') == ['']]). *)
Fixpoint split (sep : ascii) (s : string) : list string :=
  match s with
  | EmptyString => [EmptyString]
  | String c s' =>
      if Ascii.eqb c sep then EmptyString :: split sep s'
      else match split sep s' with
           | f :: fs => String c f :: fs
           | [] => [String c EmptyString]
           end
  end.

(** [l[i]] for a non-negative literal index [i]. *)
Definition getitem {A} (l : list A) (i : nat) : result A :=
  match l !! i with
  | Some a => Ok a
  | None => Raise IndexError
  end.

(** [s.startswith(p)] *)
Definition startswith (p s : string) : bool := String.prefix p s.

(** *** [int(str)], base 10

    CPython converts the Unicode white space and decimal digits above code
    point 127 to ASCII first (below 256 these are NEL and NBSP), then skips
    leading C-locale white space, reads an optional sign and a run of digits
    in which single underscores may separate digits, skips trailing white
    space and requires the end of the string.  (The notebook's kernel is
    Python 3.7, which puts no limit on the number of digits.) *)
Definition is_space (c : ascii) : bool :=
  let n := Z.of_nat (nat_of_ascii c) in
  ((9 <=? n) && (n <=? 13)) || (n =? 32) || (n =? 133) || (n =? 160).

Definition is_digit (c : ascii) : bool :=
  let n := Z.of_nat (nat_of_ascii c) in (48 <=? n) && (n <=? 57).

Definition digit_value (c : ascii) : Z := Z.of_nat (nat_of_ascii c) - 48.

Definition underscore : ascii := "_"%char.

Fixpoint skip_spaces (s : string) : string :=
  match s with
  | String c s' => if is_space c then skip_spaces s' else s
  | EmptyString => EmptyString
  end.

(** The digit scan of [PyLong_FromString]: [prev] is the previous character
    of the run ([None] at its start).  A leading, doubled or trailing
    underscore and an empty run are errors ([None]); otherwise the value and
    the unread rest. *)
Fixpoint scan_digits (acc : Z) (prev : option ascii) (s : string)
  : option (Z * string) :=
  let finish :=
    match prev with
    | None => None
    | Some p => if Ascii.eqb p underscore then None else Some (acc, s)
    end in
  match s with
  | String c s' =>
      if is_digit c then scan_digits (10 * acc + digit_value c) (Some c) s'
      else if Ascii.eqb c underscore then
        match prev with
        | None => None
        | Some p =>
            if Ascii.eqb p underscore then None
            else scan_digits acc (Some c) s'
        end
      else finish
  | EmptyString => finish
  end.

Definition int (s : string) : result Z :=
  let s1 := skip_spaces s in
  let '(sign, s2) :=
    match s1 with
    | String "+"%char r => (1, r)
    | String "-"%char r => (-1, r)
    | _ => (1, s1)
    end in
  match scan_digits 0 None s2 with
  | None => Raise ValueError
  | Some (v, rest) =>
      match skip_spaces rest with
      | EmptyString => Ok (sign * v)
      | String _ _ => Raise ValueError
      end
  end.

(** [l[lo:hi]] with explicit integer bounds: negative bounds count from the
    end and both are clamped to the length. *)
Definition slice_bound (len i : Z) : Z :=
  let j := if i <? 0 then i + len else i in
  Z.max 0 (Z.min len j).

Definition slice {A} (l : list A) (lo hi : Z) : list A :=
  let len := Z.of_nat (length l) in
  let a := slice_bound len lo in
  let b := slice_bound len hi in
  take (Z.to_nat (b - a)) (drop (Z.to_nat a) l).

(** [os.path.join] on POSIX. *)
Definition endswith_slash (s : string) : bool :=
  match String.get (String.length s - 1) s with
  | Some c => Ascii.eqb c "/"%char
  | None => false
  end.

Definition path_join2 (path b : string) : string :=
  if startswith "/" b then b
  else if (String.eqb path "" || endswith_slash path)%bool then String.append path b
  else String.append path (String "/"%char b).

Definition path_join (a : string) (ps : list string) : string :=
  fold_left path_join2 ps a.

(** *** State and exceptions

    Code that mutates an object in place (the matrix being filled) is a
    function from the state to the new state and a result; the state reached
    when an exception is raised is kept, as the kernel keeps the partly
    filled matrix. *)
Definition St (S A : Type) : Type := S -> S * result A.

Definition ret {S A} (a : A) : St S A := fun s => (s, Ok a).

Definition lift {S A} (r : result A) : St S A := fun s => (s, r).

Definition bindS {S A B} (m : St S A) (k : A -> St S B) : St S B :=
  fun s =>
    match m s with
    | (s', Ok a) => k a s'
    | (s', Raise e) => (s', Raise e)
    end.

Declare Scope py_scope.
Delimit Scope py_scope with py.
Notation "'let*' x ':=' m 'in' k" := (bindS m (fun x => k))
  (at level 10, x pattern, m at level 100, k at level 200) : py_scope.

(** [for x in l: body] *)
Fixpoint for_each {S A} (l : list A) (body : A -> St S unit) : St S unit :=
  match l with
  | [] => ret tt
  | x :: l' => bindS (body x) (fun _ => for_each l' body)
  end.

(** ** binary64 arithmetic on the values the notebook computes

    A finite double is written [(m, e)] for [m * 2^e], [|m| <= 2^53].  The
    exponent range matters only for the conversion from [int], where it is
    checked; the products of the split stay far inside it. *)
Module Float64.

Definition float : Type := Z * Z.

(** [m / 2^s] rounded to the nearest integer, ties to even; [0 <= m], [0 < s]. *)
Definition round_half_even (m s : Z) : Z :=
  let q := m / 2 ^ s in
  let r := m mod 2 ^ s in
  let half := 2 ^ (s - 1) in
  if r <? half then q
  else if half <? r then q + 1
  else if Z.even q then q else q + 1.

(** The double nearest to [m * 2^e]: at most 53 significant bits are kept. *)
Definition round53 (m e : Z) : float :=
  let s := Z.log2 (Z.abs m) + 1 - 53 in
  if s <=? 0 then (m, e)
  else (Z.sgn m * round_half_even (Z.abs m) s, e + s).

(** [float(n)] for a Python [int], as the integer the double equals:
    correctly rounded, [OverflowError] from [2^1024] on. *)
Definition value_of_int (n : Z) : result Z :=
  let '(m, e) := round53 n 0 in
  let v := m * 2 ^ e in
  if 2 ^ 1024 <=? Z.abs v then Raise OverflowError else Ok v.

Definition of_int (n : Z) : result float :=
  bind (value_of_int n) (fun v => Ok (round53 v 0)).

(** [a * b] *)
Definition mul (a b : float) : float :=
  round53 (fst a * fst b) (snd a + snd b).

(** [int(x)]: truncation towards zero. *)
Definition to_int (x : float) : Z :=
  let '(m, e) := x in
  if 0 <=? e then m * 2 ^ e else Z.quot m (2 ^ (- e)).

(** The literal [0.95]: the double [0x1.e666666666666p-1]. *)
Definition lit_0_95 : float := (8556839292003942, -53).

End Float64.

(** ** NumPy: the two-dimensional float64 array *)

Module Np.

(** Rows of cells; a cell holds an integer-valued double, written as the
    integer it equals. *)
Abbreviation ndarray2 := (list (list Z)) (only parsing).

(** [np.zeros([rows, cols])] *)
Definition zeros (rows cols : nat) : ndarray2 := replicate rows (replicate cols 0).

(** [a.shape[0]] *)
Definition shape0 (a : ndarray2) : Z := Z.of_nat (length a).

(** An integer index on an axis of length [n]: negative indices count from
    the end, anything outside [-n, n) is an [IndexError]. *)
Definition normalize_index (n : nat) (k : Z) : result nat :=
  let k' := if k <? 0 then k + Z.of_nat n else k in
  if (0 <=? k') && (k' <? Z.of_nat n) then Ok (Z.to_nat k') else Raise IndexError.

(** [a[row, k] = v] for a Python int [v]: the index is resolved first, then
    the value converted to float64 and stored. *)
Definition setitem (row : nat) (k : Z) (v : Z) : St ndarray2 unit := fun a =>
  match a !! row with
  | None => (a, Raise IndexError)
  | Some r =>
      match normalize_index (length r) k with
      | Raise e => (a, Raise e)
      | Ok j =>
          match Float64.value_of_int v with
          | Raise e => (a, Raise e)
          | Ok x => (<[row := <[j := x]> r]> a, Ok tt)
          end
      end
  end.

End Np.

End Py.

Import Py.
#[local] Open Scope py_scope.

(** ** CorpusParser: the cell that translates the bags of words into a matrix *)

Module CorpusParser.

(** The body of the inner loop,
    [bags_of_words[row, int(col.split(':')[0])-1] = int(col.split(':')[1])]:
    the right-hand side is evaluated first, then the subscript, then the
    store is made. *)
Definition assign (row : nat) (col : string) : St Np.ndarray2 unit :=
  let* rhs := lift (bind (getitem (split ":" col) 1) int) in
  let* idx := lift (bind (getitem (split ":" col) 0) int) in
  Np.setitem row (idx - 1) rhs.

(** [for row in range(len(word_counts)): for col in word_counts[row].split(','): ...] *)
Definition fill (word_counts : list string) : St Np.ndarray2 unit :=
  for_each (seq 0 (length word_counts)) (fun row =>
    let* line := lift (getitem word_counts row) in
    for_each (split "," line) (assign row)).

(** The whole cell: the matrix [bags_of_words] as the cell leaves it, and
    whether the cell completed or raised. *)
Definition bags_of_words (word_counts : list string) (vocabulary_size : nat)
  : Np.ndarray2 * result unit :=
  fill word_counts (Np.zeros (length word_counts) vocabulary_size).

End CorpusParser.

(** ** DatasetSplitter: the train/test split cell *)

Module DatasetSplitter.

(** The variables the cell defines. *)
Record split := {
  nbags_of_words : Z;
  ntopics : Z;
  nbags_of_words_training : Z;
  nbags_of_words_test : Z;
  bags_of_words_training : Np.ndarray2;
  bags_of_words_test : Np.ndarray2;
}.

(** [int(0.95*n)]: [n] is converted to a double, multiplied by the double
    [0.95] and the product truncated. *)
Definition training_count (n : Z) : result Z :=
  bind (Float64.of_int n) (fun x => Ok (Float64.to_int (Float64.mul Float64.lit_0_95 x))).

Definition split_cell (bags_of_words : Np.ndarray2) : result split :=
  let nbags_of_words := Z.min (Np.shape0 bags_of_words) 10000 in
  let ntopics := 10 in
  bind (training_count nbags_of_words) (fun nbags_of_words_training =>
  let nbags_of_words_test := nbags_of_words - nbags_of_words_training in
  Ok {| nbags_of_words := nbags_of_words;
        ntopics := ntopics;
        nbags_of_words_training := nbags_of_words_training;
        nbags_of_words_test := nbags_of_words_test;
        bags_of_words_training := slice bags_of_words 0 nbags_of_words_training;
        bags_of_words_test := slice bags_of_words nbags_of_words_training nbags_of_words |}).

End DatasetSplitter.

(** ** The remote side

    What the notebook calls but does not define: boto3 (S3), the SageMaker
    SDK (serializer, estimator, endpoint), MXNet's loader and the working
    directory.  A call takes the state [R] of that outside world to a new
    state and either a value or an exception. *)

Module Remote.

Record hyperparameters := {
  num_topics : Z;
  feature_dim : Z;
  mini_batch_size : Z;
  alpha0 : Float64.float;
}.

(** A decoded MXNet array: its shape and its entries, row-major. *)
Record ndarray := {
  shape : list nat;
  entries : list Float64.float;
}.

(** [mx.ndarray.load] returns a list of arrays or a dict from names to arrays. *)
Inductive loaded :=
| LoadedList (arrays : list ndarray)
| LoadedDict (named : list (string * ndarray)).

Record sdk (R : Type) := {
  buffer : Type;
  response : Type;
  numpy_to_record_serializer : Np.ndarray2 -> R -> R * result buffer;
  upload_fileobj : string -> string -> buffer -> R -> R * result unit;
  get_image_uri : R -> R * result string;
  new_estimator : string -> string -> string -> R -> R * result unit;
  set_hyperparameters : hyperparameters -> R -> R * result unit;
  fit : string -> R -> R * result unit;
  latest_training_job_name : R -> R * result string;
  download_file : string -> string -> string -> R -> R * result unit;
  extractall : string -> R -> R * result unit;
  listdir : R -> R * result (list string);
  ndarray_load : string -> R -> R * result loaded;
  deploy : R -> R * result string;
  predict : string -> Np.ndarray2 -> R -> R * result response;
  delete_endpoint : string -> R -> R * result unit;
}.
Arguments buffer {R} _.
Arguments response {R} _.
Arguments numpy_to_record_serializer {R} _ _ _.
Arguments upload_fileobj {R} _ _ _ _ _.
Arguments get_image_uri {R} _ _.
Arguments new_estimator {R} _ _ _ _ _.
Arguments set_hyperparameters {R} _ _ _.
Arguments fit {R} _ _ _.
Arguments latest_training_job_name {R} _ _.
Arguments download_file {R} _ _ _ _ _.
Arguments extractall {R} _ _ _.
Arguments listdir {R} _ _.
Arguments ndarray_load {R} _ _ _.
Arguments deploy {R} _ _.
Arguments predict {R} _ _ _ _.
Arguments delete_endpoint {R} _ _ _.

(** What an observer of a run sees, in order: the calls that leave the
    notebook and the text of [print(e)].  (The informational prints of the
    cells and their readings of the clock are not part of the model.) *)
Inductive event :=
| Serialize (rows : Np.ndarray2)
| Upload (bucket key : string)
| GetImageUri
| NewEstimator (container role output_path : string)
| SetHyperparameters (hp : hyperparameters)
| Fit (train : string)
| Printed (text : string)
| JobName
| Download (bucket key filename : string)
| Untar (filename : string)
| ListDir
| NdarrayLoad (filename : string)
| Deploy
| Predict (endpoint : string) (rows : Np.ndarray2)
| DeleteEndpoint (endpoint : string).

(** What running a cell from a state of the outside world gives: the state
    it leaves, the events it caused (oldest first) and its result. *)
Record run (R A : Type) := {
  final : R;
  trace : list event;
  outcome : result A;
}.
Arguments final {R A} _.
Arguments trace {R A} _.
Arguments outcome {R A} _.

Definition cell (R A : Type) : Type := R -> run R A.

Definition pure {R A} (a : A) : cell R A :=
  fun r => {| final := r; trace := []; outcome := Ok a |}.

(** A computation of the notebook's own, which touches nothing outside. *)
Definition local_ {R A} (x : result A) : cell R A :=
  fun r => {| final := r; trace := []; outcome := x |}.

(** Sequencing: an exception ends the run. *)
Definition then_ {R A B} (m : cell R A) (k : A -> cell R B) : cell R B :=
  fun r =>
    let x := m r in
    match outcome x with
    | Ok a =>
        let y := k a (final x) in
        {| final := final y; trace := trace x ++ trace y; outcome := outcome y |}
    | Raise e => {| final := final x; trace := trace x; outcome := Raise e |}
    end.

(** An outside call. *)
Definition call {R A} (ev : event) (op : R -> R * result A) : cell R A :=
  fun r => {| final := fst (op r); trace := [ev]; outcome := snd (op r) |}.

Definition emit {R} (ev : event) : cell R unit :=
  fun r => {| final := r; trace := [ev]; outcome := Ok tt |}.

(** [try: body  except RuntimeError as e: handler(e)] *)
Definition try_except_RuntimeError {R} (body : cell R unit) (handler : string -> cell R unit)
  : cell R unit :=
  fun r =>
    let x := body r in
    match outcome x with
    | Raise (RuntimeError message) =>
        let y := handler message (final x) in
        {| final := final y; trace := trace x ++ trace y; outcome := outcome y |}
    | _ => x
    end.

Notation "'let!' x ':=' m 'in' k" := (then_ m (fun x => k))
  (at level 10, x pattern, m at level 100, k at level 200) : py_scope.

(** An event that, if it sets hyperparameters, sets the batch size [n]. *)
Definition batch_is (n : Z) (ev : event) : Prop :=
  forall hp, ev = SetHyperparameters hp -> mini_batch_size hp = n.

End Remote.

Import Remote.

(** ** The cells of the notebook

    A cell is a function of the variables it reads; the variables it defines
    are its result.  Cells that reach outside are of type [cell R]. *)

Module Notebook.

(** [credentials.json] *)
Record credentials := {
  role : string;
  bucket : string;
  prefix : string;
}.

(** [str.strip()]: white space as [str.isspace] has it below code point 256. *)
Definition isspace (c : ascii) : bool :=
  let n := Z.of_nat (nat_of_ascii c) in
  ((9 <=? n) && (n <=? 13)) || ((28 <=? n) && (n <=? 32)) || (n =? 133) || (n =? 160).

Fixpoint lstrip (s : string) : string :=
  match s with
  | String c s' => if isspace c then lstrip s' else s
  | EmptyString => EmptyString
  end.

Fixpoint rstrip (s : string) : string :=
  match s with
  | String c s' =>
      let r := rstrip s' in
      if (String.eqb r "" && isspace c)%bool then EmptyString else String c r
  | EmptyString => EmptyString
  end.

Definition strip (s : string) : string := rstrip (lstrip s).

(** The data preparation cell: [word_counts] and [vocabulary_size] from the
    lines of [nyt_data.txt] and [nyt_vocab.dat]. *)
Definition load_cell (nyt_data nyt_vocab : list string) : list string * nat :=
  (map strip nyt_data, length nyt_vocab).

Section Cells.

Context {R : Type} (k : sdk R).

(** The upload cell; defines [fname] and [s3_train_data]. *)
Definition upload_cell (cred : credentials) (bags_of_words_training : Np.ndarray2)
  : cell R (string * string) :=
  let! fbuffer := call (Serialize bags_of_words_training)
                       (numpy_to_record_serializer k bags_of_words_training) in
  let fname := "lda.data"%string in
  let s3_object := path_join (prefix cred) ["train"%string; fname] in
  let! _ := call (Upload (bucket cred) s3_object)
                 (upload_fileobj k (bucket cred) s3_object fbuffer) in
  let s3_train_data :=
    String.append "s3://" (String.append (bucket cred) (String.append "/" s3_object)) in
  pure (fname, s3_train_data).

(** The container cell; defines [container]. *)
Definition container_cell : cell R string :=
  call GetImageUri (get_image_uri k).

(** The session cell: the estimator [lda] and its hyperparameters. *)
Definition estimator_cell (cred : credentials) (container : string)
    (ntopics : Z) (vocabulary_size : nat) (nbags_of_words_training : Z)
  : cell R unit :=
  let output_path :=
    String.append "s3://" (String.append (bucket cred)
      (String.append "/" (String.append (prefix cred) "/output"))) in
  let! _ := call (NewEstimator container (role cred) output_path)
                 (new_estimator k container (role cred) output_path) in
  let hp := {| num_topics := ntopics;
               feature_dim := Z.of_nat vocabulary_size;
               mini_batch_size := nbags_of_words_training;
               alpha0 := (1, 0) |} in
  call (SetHyperparameters hp) (set_hyperparameters k hp).

(** The training cell. *)
Definition training_cell (s3_train_data : string) : cell R unit :=
  try_except_RuntimeError
    (call (Fit s3_train_data) (fit k s3_train_data))
    (fun e => emit (Printed e)).

(** The cell that prints the training job's name. *)
Definition job_name_cell : cell R unit :=
  let! _ := call JobName (latest_training_job_name k) in pure tt.

(** [model_list = [fname for fname in os.listdir('.') if fname.startswith('model_')]] *)
Definition model_list (names : list string) : list string :=
  List.filter (fun fname => startswith "model_" fname) names.

(** [alpha, beta = mx.ndarray.load(model_fname)] followed by the two
    [.asnumpy()] calls: unpacking wants exactly two items, and the items of
    a dict are its keys, which have no [asnumpy]. *)
Definition unpack (l : loaded) : result (ndarray * ndarray) :=
  match l with
  | LoadedList [alpha; beta] => Ok (alpha, beta)
  | LoadedList _ => Raise ValueError
  | LoadedDict [_; _] => Raise AttributeError
  | LoadedDict _ => Raise ValueError
  end.

(** The model download cell; defines [learned_alpha] and [learned_beta].
    The tarball is saved under the name still held by [fname]. *)
Definition download_cell (cred : credentials) (fname : string)
  : cell R (ndarray * ndarray) :=
  let! job_name := call JobName (latest_training_job_name k) in
  let model_fname := "model.tar.gz"%string in
  let model_object :=
    path_join (prefix cred) ["output"%string; job_name; "output"%string; model_fname] in
  let! _ := call (Download (bucket cred) model_object fname)
                 (download_file k (bucket cred) model_object fname) in
  let! _ := call (Untar fname) (extractall k fname) in
  let! names := call ListDir (listdir k) in
  let! model_fname := local_ (getitem (model_list names) 0) in
  let! arrays := call (NdarrayLoad model_fname) (ndarray_load k model_fname) in
  local_ (unpack arrays).

(** The deployment cell; defines the endpoint [lda_inference]. *)
Definition deploy_cell : cell R string :=
  call Deploy (deploy k).

(** The two query cells. *)
Definition predict_cells (endpoint : string) (bags_of_words_test : Np.ndarray2)
  : cell R (response k) :=
  let! _ := call (Predict endpoint (slice bags_of_words_test 0 3))
                 (predict k endpoint (slice bags_of_words_test 0 3)) in
  call (Predict endpoint bags_of_words_test) (predict k endpoint bags_of_words_test).

(** The cell that deletes the endpoint. *)
Definition delete_endpoint_cell (endpoint : string) : cell R unit :=
  call (DeleteEndpoint endpoint) (delete_endpoint k endpoint).

(** The section "Training the Model": upload, container, estimator and
    hyperparameters, training, job name. *)
Definition train (cred : credentials) (vocabulary_size : nat) (s : DatasetSplitter.split)
  : cell R string :=
  let! (fname, s3_train_data) :=
    upload_cell cred (DatasetSplitter.bags_of_words_training s) in
  let! container := container_cell in
  let! _ := estimator_cell cred container (DatasetSplitter.ntopics s) vocabulary_size
                           (DatasetSplitter.nbags_of_words_training s) in
  let! _ := training_cell s3_train_data in
  let! _ := job_name_cell in
  pure fname.

(** The cells that build the data and the cells that reach outside, in
    document order, from the two data files to the deletion of the endpoint;
    a cell that raises ends the run.  The cells that only look at the data
    lie between these and are left out: the heatmaps and line plot, the
    frequency cell (see [frequency_cell]), the document lengths, the reading
    of the credentials, the topic words, the printing of the results.  They
    make no outside call and can only end a run before the next cell, so the
    trace of a run of the whole notebook is a prefix of the trace of the run
    given here, and a run of the whole notebook raises whenever this one
    does.  What is proved of this definition is therefore proved of every
    event of a trace, not of a run's reaching some cell. *)
Definition pipeline (cred : credentials) (nyt_data nyt_vocab : list string)
  : cell R unit :=
  let '(word_counts, vocabulary_size) := load_cell nyt_data nyt_vocab in
  let! _ := local_ (snd (CorpusParser.bags_of_words word_counts vocabulary_size)) in
  let bags_of_words := fst (CorpusParser.bags_of_words word_counts vocabulary_size) in
  let! s := local_ (DatasetSplitter.split_cell bags_of_words) in
  let! fname := train cred vocabulary_size s in
  let! _ := download_cell cred fname in
  let! endpoint := deploy_cell in
  let! _ := predict_cells endpoint (DatasetSplitter.bags_of_words_test s) in
  delete_endpoint_cell endpoint.

End Cells.

(** [s.strip(chars)]: the characters of [chars] are removed from both ends. *)
Definition among (chars : string) (c : ascii) : bool :=
  existsb (Ascii.eqb c) (list_ascii_of_string chars).

Fixpoint lstrip_by (p : ascii -> bool) (s : string) : string :=
  match s with
  | String c s' => if p c then lstrip_by p s' else s
  | EmptyString => EmptyString
  end.

Fixpoint rstrip_by (p : ascii -> bool) (s : string) : string :=
  match s with
  | String c s' =>
      let r := rstrip_by p s' in
      if (String.eqb r "" && p c)%bool then EmptyString else String c r
  | EmptyString => EmptyString
  end.

Definition strip_chars (chars s : string) : string :=
  rstrip_by (among chars) (lstrip_by (among chars) s).

(** The value of [x.strip().strip('\n').strip("'")] for a line [x] of
    [nyt_vocab.dat], before [np.array] stores it. *)
Definition vocabulary_entry (x : string) : string :=
  strip_chars "'" (strip_chars (String "010"%char EmptyString) (strip x)).

(** An item read from a NumPy array of strings: the array has a fixed
    width, shorter strings are padded with NUL characters, and the NUL
    characters at the end of an item are dropped when it is read. *)
Definition unicode_item (s : string) : string :=
  rstrip_by (Ascii.eqb "000"%char) s.

(** [word = np.array([x.strip().strip('\n').strip("'") for x in word])], as
    the items read from it. *)
Definition word (nyt_vocab : list string) : list string :=
  map (fun x => unicode_item (vocabulary_entry x)) nyt_vocab.

(** The cell "frequency of words in document 3",
    [for i in range(10): print("{:10} {}".format(word[i], int(bags_of_words[3][i])))]:
    the arguments of [format] are evaluated from the left.  The state is
    what has been printed so far, a line being its word and its count (the
    closing [print("...")] is left out). *)
Definition frequency_cell (word : list string) (bags_of_words : Np.ndarray2)
  : St (list (string * Z)) unit :=
  for_each (seq 0 10) (fun i =>
    let* w := lift (getitem word i) in
    let* document := lift (getitem bags_of_words 3) in
    let* n := lift (getitem document i) in
    fun printed => (printed ++ [(w, n)], Ok tt)).

(** [idx[:stop:-1]]: the missing start is the last position; a negative
    [stop] is taken from the end, and is -1 when it is still negative; a
    [stop] past the end is the last position; the slice walks down from the
    start to just above the stop. *)
Definition slice_backwards {A} (l : list A) (stop : Z) : list A :=
  let len := Z.of_nat (length l) in
  let start := len - 1 in
  let stop := if stop <? 0 then Z.max (-1) (stop + len) else Z.min (len - 1) stop in
  let slicelength := if stop <? start then start - stop else 0 in
  omap (fun i => l !! Z.to_nat (start - Z.of_nat i)) (seq 0 (Z.to_nat slicelength)).

(** The positions the topic cell prints, [idx[:-11:-1]]. *)
Definition top_indices (idx : list nat) : list nat := slice_backwards idx (-11).

End Notebook.

(** ** The sparse corpus format

    The documents the parser is meant for, written the way the data file
    writes them: a document is a list of tokens, a token an index field and
    a count field, both unsigned decimal numerals. *)

Module Corpus.

Definition token : Type := string * string.

Definition all_digits (s : string) : bool :=
  forallb is_digit (list_ascii_of_string s).

(** No character of [s] is [sep]. *)
Definition free_of (sep : ascii) (s : string) : bool :=
  negb (existsb (Ascii.eqb sep) (list_ascii_of_string s)).

(** A non-empty run of the digits [0]..[9]. *)
Definition numeral (s : string) : Prop :=
  s <> EmptyString /\ all_digits s = true.

Fixpoint value_from (acc : Z) (s : string) : Z :=
  match s with
  | EmptyString => acc
  | String c s' => value_from (10 * acc + digit_value c) s'
  end.

(** The number a numeral denotes. *)
Definition value (s : string) : Z := value_from 0 s.

Definition index (t : token) : Z := value (fst t).
Definition count (t : token) : Z := value (snd t).

Definition render_token (t : token) : string :=
  String.append (fst t) (String ":"%char (snd t)).

(** [sep.join(fields)] *)
Fixpoint join (sep : ascii) (fields : list string) : string :=
  match fields with
  | [] => EmptyString
  | [f] => f
  | f :: fs => String.append f (String sep (join sep fs))
  end.

Definition render_line (doc : list token) : string :=
  join ","%char (map render_token doc).

Definition well_formed (t : token) : Prop :=
  numeral (fst t) /\ numeral (snd t).

(** A valid sparse document for a vocabulary of [V] words: index:count
    tokens, the indices unique and within [1, V]. *)
Definition sparse_document (V : nat) (doc : list token) : Prop :=
  Forall well_formed doc /\
  Forall (fun t => 1 <= index t <= Z.of_nat V) doc /\
  List.NoDup (map index doc).

(** The count a document gives for the 1-indexed vocabulary position
    [j + 1], 0 when it does not mention it. *)
Definition count_for (doc : list token) (j : nat) : Z :=
  match List.find (fun t => index t =? Z.of_nat j + 1) doc with
  | Some t => count t
  | None => 0
  end.

Definition dense_row (V : nat) (doc : list token) : list Z :=
  map (count_for doc) (seq 0 V).

Definition dense (V : nat) (docs : list (list token)) : Np.ndarray2 :=
  map (dense_row V) docs.

(** A count that a double holds exactly. *)
Definition exact (t : token) : Prop := count t <= 2 ^ 53.

(** Documents whose indices may also be 0. *)
Definition wrapping_document (V : nat) (doc : list token) : Prop :=
  doc <> [] /\
  Forall well_formed doc /\
  Forall exact doc /\
  Forall (fun t => 0 <= index t <= Z.of_nat V) doc.

(** The column a store with 1-indexed position [i] lands in: [i - 1], and
    from the end of the row when that is negative. *)
Definition column (V : nat) (i : Z) : nat :=
  Z.to_nat (if i - 1 <? 0 then i - 1 + Z.of_nat V else i - 1).

(** A row of [V] cells after the stores of a document, made in order. *)
Definition written_row (V : nat) (doc : list token) (r : list Z) : list Z :=
  fold_left (fun r t => <[column V (index t) := count t]> r) doc r.

(** The ways a token of a line can be malformed for a vocabulary of [V]
    words. *)
Inductive malformed (V : nat) (col : string) : Prop :=
| missing_separator :
    free_of ":" col = true ->
    malformed V col
| non_integer_field (i : nat) (f : string) :
    (i < 2)%nat -> split ":" col !! i = Some f -> int f = Raise ValueError ->
    malformed V col
| index_out_of_reach (f : string) (i : Z) :
    split ":" col !! 0%nat = Some f -> int f = Ok i ->
    (i < 1 - Z.of_nat V \/ Z.of_nat V < i) ->
    malformed V col.

(** The exceptions the parsing cell can end in. *)
Definition parse_error (e : exn) : Prop :=
  e = IndexError \/ e = ValueError \/ e = OverflowError.

(** A matrix all of whose rows have [V] cells. *)
Definition shaped (V : nat) (a : Np.ndarray2) : Prop :=
  Forall (fun r => length r = V) a.

End Corpus.

(** ** A provider to run the cells against

    An account in which uploads, estimator calls and downloads succeed, the
    training job ends as [fit_outcome] says, the working directory after
    extraction is [directory], every parameter file decodes to [artifact],
    and an endpoint can be deleted while it exists. *)

Module Account.

Record state := {
  endpoints : list string;
  directory : list string;
}.

Definition not_found : exn :=
  OtherException "ClientError" "Could not find endpoint".

Definition sagemaker (fit_outcome : result unit) (artifact : loaded) : sdk state := {|
  buffer := Np.ndarray2;
  response := nat;
  numpy_to_record_serializer := fun rows r => (r, Ok rows);
  upload_fileobj := fun _ _ _ r => (r, Ok tt);
  get_image_uri := fun r => (r, Ok "lda:1"%string);
  new_estimator := fun _ _ _ r => (r, Ok tt);
  set_hyperparameters := fun _ r => (r, Ok tt);
  fit := fun _ r => (r, fit_outcome);
  latest_training_job_name := fun r => (r, Ok "lda-job"%string);
  download_file := fun _ _ _ r => (r, Ok tt);
  extractall := fun _ r => (r, Ok tt);
  listdir := fun r => (r, Ok (directory r));
  ndarray_load := fun _ r => (r, Ok artifact);
  deploy := fun r =>
    ({| endpoints := "lda-endpoint"%string :: endpoints r; directory := directory r |},
     Ok "lda-endpoint"%string);
  predict := fun e rows r =>
    (r, if existsb (String.eqb e) (endpoints r) then Ok (length rows) else Raise not_found);
  delete_endpoint := fun e r =>
    if existsb (String.eqb e) (endpoints r)
    then ({| endpoints := List.filter (fun x => negb (String.eqb e x)) (endpoints r);
             directory := directory r |}, Ok tt)
    else (r, Raise not_found);
|}.

Definition start (directory : list string) : state :=
  {| endpoints := []; directory := directory |}.

Definition cred : Notebook.credentials :=
  {| Notebook.role := "arn:aws:iam::123456789012:role/sagemaker-topic-modeling";
     Notebook.bucket := "companyname-topic-modeling-test";
     Notebook.prefix := "sagemaker/lda-model" |}.

(** Kernel variables in which the batch size exceeds the training rows. *)
Definition oversized : DatasetSplitter.split :=
  {| DatasetSplitter.nbags_of_words := 1;
     DatasetSplitter.ntopics := 10;
     DatasetSplitter.nbags_of_words_training := 2;
     DatasetSplitter.nbags_of_words_test := 0;
     DatasetSplitter.bags_of_words_training := [[3; 1; 0; 0]];
     DatasetSplitter.bags_of_words_test := [] |}.

Definition deployed : state :=
  {| endpoints := ["lda-endpoint"%string]; directory := [] |}.

Definition alpha3 : ndarray := {| shape := [3%nat]; entries := [(1, 0); (1, 0); (1, 0)] |}.
Definition beta2x2 : ndarray := {| shape := [2%nat; 2%nat]; entries := [(1, 0); (0, 0); (0, 0); (1, 0)] |}.

(** What [fit] raises when the training job ends as Failed: the SDK's
    UnexpectedStatusException, a ValueError (earlier versions of the SDK
    raise ValueError itself), with the provider's reason in its message. *)
Definition job_failed : exn :=
  OtherException "UnexpectedStatusException"
    "Error for Training job lda-job: Failed. Reason: ClientError: No training data found".

(** A provider whose training job fails. *)
Definition failing : sdk state :=
  sagemaker (Raise job_failed) (LoadedList [alpha3; beta2x2]).

(** A data file of four documents for a vocabulary of ten words. *)
Definition newline : string := String "010"%char EmptyString.

Definition nyt_data : list string :=
  [String.append "1:3,2:1" newline; String.append "2:2,10:4" newline;
   String.append "4:1" newline; String.append "7:5,1:1" newline].

Definition nyt_vocab : list string :=
  map (fun w => String.append w newline)
    ["art"; "life"; "man"; "music"; "offer"; "play"; "program"; "write"; "young";
     "performance"]%string.

End Account.

(** ** Lines of the data file

    A line as [readlines] returns it (white space, the newline among it,
    around the tokens), and documents that name a position more than once. *)

Module Lines.

Definition all_space (s : string) : bool :=
  forallb Notebook.isspace (list_ascii_of_string s).

Record padded := {
  lead : string;
  document : list Corpus.token;
  trail : string;
}.

(** The text of a line: the rendered document between its white space. *)
Definition raw (p : padded) : string :=
  String.append (lead p) (String.append (Corpus.render_line (document p)) (trail p)).

(** A line that holds a valid sparse document for a vocabulary of [V]
    words: at least one token, counts that a double holds exactly, white
    space around. *)
Definition valid (V : nat) (p : padded) : Prop :=
  all_space (lead p) = true /\
  all_space (trail p) = true /\
  Corpus.sparse_document V (document p) /\
  document p <> [] /\
  Forall Corpus.exact (document p).

(** A character that neither [strip()] nor [strip("'")] removes. *)
Definition kept (c : ascii) : bool :=
  negb (Notebook.isspace c) && negb (Notebook.among "'" c).

Definition first_char (s : string) : option ascii :=
  match s with
  | String c _ => Some c
  | EmptyString => None
  end.

Fixpoint last_char (s : string) : option ascii :=
  match s with
  | EmptyString => None
  | String c EmptyString => Some c
  | String _ s' => last_char s'
  end.

(** A word whose first and last characters are kept, and which does not end
    in a NUL character. *)
Definition plain_word (w : string) : Prop :=
  (exists c, first_char w = Some c /\ kept c = true) /\
  (exists c, last_char w = Some c /\ kept c = true /\ Ascii.eqb "000"%char c = false).

Definition all_quotes (s : string) : bool :=
  forallb (Notebook.among "'") (list_ascii_of_string s).

(** A line of the vocabulary file: a word, apostrophes around it or not,
    white space around these or not. *)
Record entry := {
  before : string;
  opening : string;
  the_word : string;
  closing : string;
  after : string;
}.

Definition entry_line (e : entry) : string :=
  String.append (before e) (String.append (opening e)
    (String.append (the_word e) (String.append (closing e) (after e)))).

(** A line that holds a plain word, wrapped or not. *)
Definition wrapped (e : entry) : Prop :=
  all_space (before e) = true /\
  all_space (after e) = true /\
  all_quotes (opening e) = true /\
  all_quotes (closing e) = true /\
  plain_word (the_word e).

(** The count of the last token of a document that names the 1-indexed
    position [j + 1], 0 when none does. *)
Definition last_count_for (doc : list Corpus.token) (j : nat) : Z :=
  match List.find (fun t => Corpus.index t =? Z.of_nat j + 1) (rev doc) with
  | Some t => Corpus.count t
  | None => 0
  end.

(** Documents whose indices lie in [1, V] but may repeat. *)
Definition repeating_document (V : nat) (doc : list Corpus.token) : Prop :=
  doc <> [] /\
  Forall Corpus.well_formed doc /\
  Forall Corpus.exact doc /\
  Forall (fun t => 1 <= Corpus.index t <= Z.of_nat V) doc.

(** The decimal numeral of [10^n]. *)
Definition power_of_ten (n : nat) : string :=
  String "1"%char (string_of_list_ascii (repeat "0"%char n)).

End Lines.

(** ** Reading traces *)

Module Runs.

(** An event of the cells that come before the call of [fit]. *)
Definition early (ev : event) : Prop :=
  match ev with
  | Serialize _ | Upload _ _ | GetImageUri | NewEstimator _ _ _ | SetHyperparameters _ => True
  | _ => False
  end.

(** A run that raised without going past the call of [fit]: before that
    call only events of the earlier cells, and when [fit] was called it is
    the last thing the run did and the run raised [e]. *)
Definition failed_at_fit {R A} (e : exn) (x : run R A) : Prop :=
  is_Ok (outcome x) = false /\
  exists pre,
    Forall early pre /\
    (trace x = pre \/ exists uri, trace x = pre ++ [Fit uri] /\ outcome x = Raise e).

(** An event other than the deletion of an endpoint. *)
Definition not_delete (ev : event) : Prop :=
  forall endpoint, ev <> DeleteEndpoint endpoint.

(** A run that deletes an endpoint does so as its last step; a run that
    does not reach that step has raised. *)
Definition deleted_last {R A} (x : run R A) : Prop :=
  exists pre,
    Forall not_delete pre /\
    ((trace x = pre /\ is_Ok (outcome x) = false) \/
     exists endpoint, trace x = pre ++ [DeleteEndpoint endpoint]).

Definition is_fit (ev : event) : bool :=
  match ev with Fit _ => true | _ => false end.

Definition is_deploy (ev : event) : bool :=
  match ev with Deploy => true | _ => false end.

(** How many events of a trace satisfy [f]. *)
Definition count (f : event -> bool) (t : list event) : nat :=
  length (List.filter f t).

(** A cell that causes at most [n] events satisfying [f], from any state. *)
Definition at_most {R A} (f : event -> bool) (n : nat) (m : cell R A) : Prop :=
  forall r, (count f (trace (m r)) <= n)%nat.

(** The events of the training section, in the order of its cells. *)
Definition training_events (cred : Notebook.credentials) (rows : Np.ndarray2)
    (container : string) (hp : hyperparameters) : list event :=
  let key := path_join (Notebook.prefix cred) ["train"; "lda.data"]%string in
  [ Serialize rows;
    Upload (Notebook.bucket cred) key;
    GetImageUri;
    NewEstimator container (Notebook.role cred)
      (String.append "s3://" (String.append (Notebook.bucket cred)
         (String.append "/" (String.append (Notebook.prefix cred) "/output"))));
    SetHyperparameters hp;
    Fit (String.append "s3://" (String.append (Notebook.bucket cred) (String.append "/" key))) ].

(** What may follow the call of [fit] in the section. *)
Definition after_fit (rest : list event) : Prop :=
  rest = [] \/ rest = [JobName] \/ exists message, rest = [Printed message; JobName].

(** The rows that may leave the notebook: the training matrix to the
    serializer, the test matrix or its first three rows to the endpoint. *)
Definition rows_sent (training test : Np.ndarray2) (ev : event) : Prop :=
  match ev with
  | Serialize rows => rows = training
  | Predict _ rows => rows = take 3 test \/ rows = test
  | _ => True
  end.

(** The files the model download touches: the tarball of some job under
    the prefix, saved and unpacked as [lda.data]; parameter files by their
    [model_] names. *)
Definition fetches (cred : Notebook.credentials) (ev : event) : Prop :=
  match ev with
  | Download b key f =>
      b = Notebook.bucket cred /\ f = "lda.data"%string /\
      exists job_name,
        key = path_join (Notebook.prefix cred)
                ["output"; job_name; "output"; "model.tar.gz"]%string
  | Untar f => f = "lda.data"%string
  | NdarrayLoad name => startswith "model_" name = true
  | _ => True
  end.

(** A run that raised and deleted no endpoint. *)
Definition abandoned {R A} (x : run R A) : Prop :=
  Forall not_delete (trace x) /\ is_Ok (outcome x) = false.

(** A path segment that [os.path.join] appends after a single slash. *)
Definition plain_segment (s : string) : Prop :=
  s <> EmptyString /\ startswith "/" s = false /\ endswith_slash s = false.

End Runs.

(** A provider whose endpoint answers no query. *)
Module Outage.

Definition model_error : exn := OtherException "ModelError" "invocation failed".

Definition sagemaker : sdk Account.state :=
  let k := Account.sagemaker (Ok tt) (LoadedList [Account.alpha3; Account.beta2x2]) in
  {| buffer := buffer k;
     response := response k;
     numpy_to_record_serializer := numpy_to_record_serializer k;
     upload_fileobj := upload_fileobj k;
     get_image_uri := get_image_uri k;
     new_estimator := new_estimator k;
     set_hyperparameters := set_hyperparameters k;
     fit := fit k;
     latest_training_job_name := latest_training_job_name k;
     download_file := download_file k;
     extractall := extractall k;
     listdir := listdir k;
     ndarray_load := ndarray_load k;
     deploy := deploy k;
     predict := fun _ _ r => (r, Raise model_error);
     delete_endpoint := delete_endpoint k |}.

End Outage.

(** * Properties *)

(** ** Strings and numerals *)

Section Strings.

#[local] Abbreviation free_of := Corpus.free_of.

Lemma free_of_cons sep c s :
  free_of sep (String c s) = negb (Ascii.eqb c sep) && free_of sep s.
Proof.
  unfold Corpus.free_of. simpl. rewrite negb_orb, (Ascii.eqb_sym sep c). reflexivity.
Qed.

Lemma split_free sep s : free_of sep s = true -> split sep s = [s].
Proof.
  induction s as [|c s IH]; intros H; [reflexivity|].
  rewrite free_of_cons in H. apply andb_true_iff in H as [Hc Hs].
  simpl. apply negb_true_iff in Hc. rewrite Hc, (IH Hs). reflexivity.
Qed.

Lemma split_append sep s t :
  free_of sep s = true ->
  split sep (String.append s (String sep t)) = s :: split sep t.
Proof.
  induction s as [|c s IH]; intros H; simpl.
  - rewrite Ascii.eqb_refl. reflexivity.
  - rewrite free_of_cons in H. apply andb_true_iff in H as [Hc Hs].
    apply negb_true_iff in Hc. rewrite Hc, (IH Hs). reflexivity.
Qed.

Lemma free_of_append sep s t :
  free_of sep (String.append s t) = free_of sep s && free_of sep t.
Proof.
  induction s as [|c s IH]; simpl; [reflexivity|].
  rewrite !free_of_cons, IH, andb_assoc. reflexivity.
Qed.

Lemma digit_not_sep sep c :
  is_digit c = true -> is_digit sep = false -> Ascii.eqb c sep = false.
Proof.
  intros Hc Hsep. destruct (Ascii.eqb_spec c sep) as [->|]; congruence.
Qed.

Lemma all_digits_free sep s :
  is_digit sep = false -> Corpus.all_digits s = true -> free_of sep s = true.
Proof.
  intros Hsep. unfold Corpus.all_digits.
  induction s as [|c s IH]; simpl; intros H; [reflexivity|].
  apply andb_true_iff in H as [Hc Hs].
  rewrite free_of_cons, (digit_not_sep sep c Hc Hsep), (IH Hs). reflexivity.
Qed.

Lemma split_token (t : Corpus.token) :
  Corpus.well_formed t ->
  split ":" (Corpus.render_token t) = [fst t; snd t].
Proof.
  intros [[_ Ha] [_ Hb]]. unfold Corpus.render_token.
  rewrite split_append by (apply all_digits_free; [reflexivity|exact Ha]).
  rewrite split_free by (apply all_digits_free; [reflexivity|exact Hb]).
  reflexivity.
Qed.

Lemma token_free_of_comma (t : Corpus.token) :
  Corpus.well_formed t -> free_of "," (Corpus.render_token t) = true.
Proof.
  intros [[_ Ha] [_ Hb]]. unfold Corpus.render_token.
  rewrite free_of_append, free_of_cons.
  rewrite (all_digits_free "," _ eq_refl Ha), (all_digits_free "," _ eq_refl Hb).
  reflexivity.
Qed.

Lemma split_line (doc : list Corpus.token) :
  doc <> [] -> Forall Corpus.well_formed doc ->
  split "," (Corpus.render_line doc) = map Corpus.render_token doc.
Proof.
  unfold Corpus.render_line.
  induction doc as [|t doc IH]; intros Hne Hwf; [congruence|].
  inversion Hwf as [|? ? Ht Hdoc]; subst.
  destruct doc as [|t' doc'].
  - simpl. apply split_free, token_free_of_comma, Ht.
  - change (Corpus.join "," (map Corpus.render_token (t :: t' :: doc')))
      with (String.append (Corpus.render_token t)
              (String "," (Corpus.join "," (map Corpus.render_token (t' :: doc'))))).
    rewrite split_append by (apply token_free_of_comma, Ht).
    rewrite IH by (congruence || assumption). reflexivity.
Qed.

(** The digit scan on a run of digits reads all of it. *)
Lemma scan_all_digits s : forall acc c,
  is_digit c = true -> Corpus.all_digits s = true ->
  scan_digits acc (Some c) s = Some (Corpus.value_from acc s, EmptyString).
Proof.
  unfold Corpus.all_digits.
  induction s as [|d s IH]; intros acc c Hc H; simpl.
  - destruct (Ascii.eqb_spec c underscore) as [->|]; [discriminate|reflexivity].
  - simpl in H. apply andb_true_iff in H as [Hd Hs].
    rewrite Hd. apply IH; assumption.
Qed.

Lemma int_numeral s : Corpus.numeral s -> int s = Ok (Corpus.value s).
Proof.
  intros [Hne Hd]. destruct s as [|c s]; [congruence|].
  unfold Corpus.all_digits in Hd. simpl in Hd.
  apply andb_true_iff in Hd as [Hc Hs].
  assert (Hsp : is_space c = false).
  { destruct (is_space c) eqn:E; [|reflexivity].
    unfold is_space, is_digit in *. lia. }
  assert (Hplus : c <> "+"%char) by (intros ->; discriminate).
  assert (Hminus : c <> "-"%char) by (intros ->; discriminate).
  unfold int. simpl skip_spaces. rewrite Hsp.
  assert (Hsign :
    match String c s with
    | String "+"%char r => (1, r)
    | String "-"%char r => (-1, r)
    | _ => (1, String c s)
    end = (1, String c s)).
  { destruct c as [[] [] [] [] [] [] [] []]; try reflexivity; congruence. }
  rewrite Hsign. simpl scan_digits. rewrite Hc.
  rewrite (scan_all_digits s _ c Hc Hs). simpl.
  unfold Corpus.value. simpl. destruct (Corpus.value_from _ s); reflexivity.
Qed.

Lemma value_from_nonneg s : forall acc,
  Corpus.all_digits s = true -> 0 <= acc -> 0 <= Corpus.value_from acc s.
Proof.
  unfold Corpus.all_digits.
  induction s as [|c s IH]; intros acc H Hacc; simpl; [assumption|].
  simpl in H. apply andb_true_iff in H as [Hc Hs].
  apply IH; [assumption|]. unfold is_digit, digit_value in *. lia.
Qed.

Lemma value_nonneg s : Corpus.numeral s -> 0 <= Corpus.value s.
Proof. intros [_ H]. apply value_from_nonneg; [assumption|lia]. Qed.

End Strings.

(** ** Conversions to float64 *)

Section Floats.

Lemma value_of_int_exact v :
  0 <= v <= 2 ^ 53 -> Float64.value_of_int v = Ok v.
Proof.
  intros [H0 H53].
  destruct (Z.eq_dec v (2 ^ 53)) as [->|Hne]; [reflexivity|].
  assert (Hlog : Z.log2 v < 53).
  { destruct (Z.eq_dec v 0) as [->|Hv]; [reflexivity|].
    apply Z.log2_lt_pow2; lia. }
  unfold Float64.value_of_int, Float64.round53.
  rewrite (Z.abs_eq v H0).
  destruct (Z.log2 v + 1 - 53 <=? 0) eqn:E; [|lia].
  rewrite Z.pow_0_r, Z.mul_1_r, (Z.abs_eq v H0).
  assert (Hbig : v < 2 ^ 1024).
  { apply Z.le_lt_trans with (2 ^ 53); [exact H53|].
    apply Z.pow_lt_mono_r; lia. }
  destruct (2 ^ 1024 <=? v) eqn:E'; [|reflexivity].
  apply Z.leb_le in E'. lia.
Qed.

(** The literal is the double nearest to 95/100: it has 53 significant bits
    and lies within half a unit in the last place of it. *)
Lemma lit_0_95_nearest :
  let m := fst Float64.lit_0_95 in
  snd Float64.lit_0_95 = -53 /\
  2 ^ 52 <= m < 2 ^ 53 /\
  2 * Z.abs (100 * m - 95 * 2 ^ 53) < 100.
Proof. cbn. lia. Qed.

End Floats.

(** ** Loops *)

Section Loops.

Context {S A : Type}.

(** A loop whose body keeps an invariant and raises at one of the elements
    raises. *)
Lemma for_each_raises (Inv : S -> Prop) (body : A -> St S unit) (x : A) (l : list A) :
  In x l ->
  (forall y s, Inv s -> Inv (fst (body y s))) ->
  (forall s, Inv s -> exists e, snd (body x s) = Raise e) ->
  forall s, Inv s -> exists e, snd (for_each l body s) = Raise e.
Proof.
  intros Hin Hkeep Hx.
  induction l as [|y l IH]; intros s Hs; [destruct Hin|].
  simpl. unfold bindS.
  pose proof (Hkeep y s Hs) as Hs'.
  destruct (body y s) as [s' [[]|e]] eqn:E; [|exists e; reflexivity].
  destruct Hin as [->|Hin].
  - destruct (Hx s Hs) as [e He]. rewrite E in He. discriminate.
  - apply IH; assumption.
Qed.

(** What a loop raises, its body raised. *)
Lemma for_each_raised (P : exn -> Prop) (body : A -> St S unit) (l : list A) :
  (forall y s e, snd (body y s) = Raise e -> P e) ->
  forall s e, snd (for_each l body s) = Raise e -> P e.
Proof.
  intros Hbody.
  induction l as [|y l IH]; intros s e H; [discriminate|].
  simpl in H. unfold bindS in H.
  destruct (body y s) as [s' [[]|e']] eqn:E.
  - apply (IH s' e H).
  - simpl in H. injection H as <-. apply (Hbody y s). rewrite E. reflexivity.
Qed.

Lemma for_each_keeps (Inv : S -> Prop) (body : A -> St S unit) (l : list A) :
  (forall y s, Inv s -> Inv (fst (body y s))) ->
  forall s, Inv s -> Inv (fst (for_each l body s)).
Proof.
  intros Hkeep.
  induction l as [|y l IH]; intros s Hs; [exact Hs|].
  simpl. unfold bindS.
  pose proof (Hkeep y s Hs) as Hs'.
  destruct (body y s) as [s' [[]|e]]; [apply IH|]; exact Hs'.
Qed.

End Loops.

(** ** The parsing loop on well-formed tokens *)

Section Parsing.

Lemma written_row_length V doc : forall r,
  length (Corpus.written_row V doc r) = length r.
Proof.
  unfold Corpus.written_row.
  induction doc as [|t doc IH]; intros r; [reflexivity|].
  simpl. rewrite IH. apply length_insert.
Qed.

Lemma normalize_column V i :
  (0 < V)%nat -> 0 <= i <= Z.of_nat V ->
  Np.normalize_index V (i - 1) = Ok (Corpus.column V i).
Proof.
  intros HV Hi. unfold Np.normalize_index, Corpus.column.
  destruct (i - 1 <? 0) eqn:E.
  - apply Z.ltb_lt in E.
    destruct (_ && _) eqn:E'; [reflexivity|].
    apply andb_false_iff in E' as [E'|E']; lia.
  - apply Z.ltb_ge in E.
    destruct (_ && _) eqn:E'; [reflexivity|].
    apply andb_false_iff in E' as [E'|E']; lia.
Qed.

Lemma column_lt V i :
  (0 < V)%nat -> 0 <= i <= Z.of_nat V -> (Corpus.column V i < V)%nat.
Proof.
  intros HV Hi. unfold Corpus.column. destruct (i - 1 <? 0) eqn:E; lia.
Qed.

(** One store of a well-formed token. *)
Lemma assign_token (a : Np.ndarray2) row r t :
  a !! row = Some r -> (0 < length r)%nat ->
  Corpus.well_formed t -> Corpus.exact t ->
  0 <= Corpus.index t <= Z.of_nat (length r) ->
  CorpusParser.assign row (Corpus.render_token t) a =
  (<[row := <[Corpus.column (length r) (Corpus.index t) := Corpus.count t]> r]> a, Ok tt).
Proof.
  intros Hrow HV Hwf Hex Hidx.
  unfold CorpusParser.assign, bindS, lift.
  rewrite (split_token t Hwf). unfold getitem. simpl.
  destruct Hwf as [Ha Hb].
  rewrite (int_numeral _ Hb), (int_numeral _ Ha).
  unfold Np.setitem. rewrite Hrow.
  fold (Corpus.index t). fold (Corpus.count t).
  rewrite (normalize_column _ _ HV Hidx).
  rewrite value_of_int_exact; [reflexivity|].
  split; [apply value_nonneg, Hb | exact Hex].
Qed.

(** The inner loop over the tokens of one document. *)
Lemma assign_document V row doc : forall (a : Np.ndarray2) r,
  a !! row = Some r -> length r = V -> (0 < V)%nat ->
  Forall Corpus.well_formed doc -> Forall Corpus.exact doc ->
  Forall (fun t => 0 <= Corpus.index t <= Z.of_nat V) doc ->
  for_each (map Corpus.render_token doc) (CorpusParser.assign row) a =
  (<[row := Corpus.written_row V doc r]> a, Ok tt).
Proof.
  induction doc as [|t doc IH]; intros a r Hrow Hlen HV Hwf Hex Hidx.
  - change (Corpus.written_row V [] r) with r.
    rewrite list_insert_id by exact Hrow. reflexivity.
  - inversion Hwf; inversion Hex; inversion Hidx; subst.
    change (map Corpus.render_token (t :: doc))
      with (Corpus.render_token t :: map Corpus.render_token doc).
    simpl for_each. unfold bindS.
    rewrite (assign_token a row r t) by (assumption || lia).
    set (r' := <[Corpus.column (length r) (Corpus.index t) := Corpus.count t]> r).
    assert (Hrow' : <[row := r']> a !! row = Some r').
    { apply list_lookup_insert_eq. apply lookup_lt_Some in Hrow. exact Hrow. }
    rewrite (IH _ r' Hrow') by (assumption || (unfold r'; apply length_insert)).
    rewrite list_insert_insert_eq. reflexivity.
Qed.

(** The outer loop: the rows before [i] are done, the others still zero. *)
Lemma fill_rows V z (docs : list (list Corpus.token)) :
  length z = V -> (0 < V)%nat ->
  forall rest earlier done,
  docs = earlier ++ rest -> length done = length earlier ->
  Forall (Corpus.wrapping_document V) rest ->
  for_each (seq (length earlier) (length rest))
    (fun row =>
       let* line := lift (getitem (map Corpus.render_line docs) row) in
       for_each (split "," line) (CorpusParser.assign row))
    (done ++ replicate (length rest) z) =
  (done ++ map (fun doc => Corpus.written_row V doc z) rest, Ok tt).
Proof.
  intros Hz HV.
  induction rest as [|doc rest IH]; intros earlier done Hdocs Hlen Hvalid.
  - reflexivity.
  - inversion Hvalid as [|? ? [Hne [Hwf [Hex Hidx]]] Hrest]; subst.
    set (body := fun row : nat => _).
    assert (Hrow : (done ++ z :: replicate (length rest) z) !! length earlier = Some z).
    { rewrite <- Hlen. apply list_lookup_middle. reflexivity. }
    assert (Hbody : body (length earlier) (done ++ z :: replicate (length rest) z) =
                    (done ++ Corpus.written_row (length z) doc z :: replicate (length rest) z,
                     Ok tt)).
    { unfold body, bindS, lift, getitem.
      rewrite list_lookup_fmap, lookup_app_r, Nat.sub_diag by lia. simpl.
      rewrite (split_line doc Hne Hwf).
      rewrite (assign_document (length z) (length earlier) doc _ z Hrow)
        by (assumption || reflexivity).
      rewrite <- Hlen, insert_app_r_alt, Nat.sub_diag by lia. reflexivity. }
    change (for_each (seq (length earlier) (length (doc :: rest))) body
              (done ++ replicate (length (doc :: rest)) z))
      with (bindS (body (length earlier))
              (fun _ => for_each (seq (S (length earlier)) (length rest)) body)
              (done ++ z :: replicate (length rest) z)).
    unfold bindS at 1. rewrite Hbody.
    specialize (IH (earlier ++ [doc]) (done ++ [Corpus.written_row (length z) doc z])).
    rewrite !length_app, <- !(assoc_L app), !Nat.add_1_r in IH.
    apply IH; [reflexivity | simpl; lia | exact Hrest].
Qed.

(** The cell on documents whose indices lie in [0, V]: it completes, and
    each row holds the stores of its document. *)
Lemma bags_of_words_written V (docs : list (list Corpus.token)) :
  (0 < V)%nat -> Forall (Corpus.wrapping_document V) docs ->
  CorpusParser.bags_of_words (map Corpus.render_line docs) V =
  (map (fun doc => Corpus.written_row V doc (replicate V 0)) docs, Ok tt).
Proof.
  intros HV Hvalid.
  unfold CorpusParser.bags_of_words, CorpusParser.fill, Np.zeros.
  rewrite length_map.
  apply (fill_rows V (replicate V 0) docs (length_replicate _ _) HV docs [] []);
    [reflexivity | reflexivity | exact Hvalid].
Qed.

End Parsing.

(** ** What the rows hold *)

Section Rows.

Lemma written_row_app V before after r :
  Corpus.written_row V (before ++ after) r =
  Corpus.written_row V after (Corpus.written_row V before r).
Proof. unfold Corpus.written_row. apply fold_left_app. Qed.

(** A cell no store lands in keeps its content. *)
Lemma written_row_untouched V doc j : forall r,
  Forall (fun t => Corpus.column V (Corpus.index t) <> j) doc ->
  Corpus.written_row V doc r !! j = r !! j.
Proof.
  induction doc as [|t doc IH]; intros r H; [reflexivity|].
  inversion H as [|? ? Ht Hdoc]; subst.
  change (Corpus.written_row V (t :: doc) r)
    with (Corpus.written_row V doc (<[Corpus.column V (Corpus.index t) := Corpus.count t]> r)).
  rewrite (IH _ Hdoc). apply list_lookup_insert_ne. exact Ht.
Qed.

Lemma column_of_index V i j :
  1 <= i -> (Corpus.column V i = j <-> i = Z.of_nat j + 1).
Proof.
  intros Hi. unfold Corpus.column.
  destruct (i - 1 <? 0) eqn:E; [apply Z.ltb_lt in E; lia|]. lia.
Qed.

Lemma find_index_absent (doc : list Corpus.token) i :
  ~ In i (map Corpus.index doc) ->
  List.find (fun t => Corpus.index t =? i) doc = None.
Proof.
  induction doc as [|t doc IH]; intros H; [reflexivity|].
  simpl in *. destruct (Z.eqb_spec (Corpus.index t) i) as [Heq|Hne].
  - exfalso. apply H. left. exact Heq.
  - apply IH. intros Hin. apply H. right. exact Hin.
Qed.

(** With unique in-range indices, a cell holds the count of the token that
    names it, or what it held before. *)
Lemma written_row_lookup V doc j : forall r,
  length r = V -> (j < V)%nat ->
  Forall (fun t => 1 <= Corpus.index t <= Z.of_nat V) doc ->
  List.NoDup (map Corpus.index doc) ->
  Corpus.written_row V doc r !! j =
  match List.find (fun t => Corpus.index t =? Z.of_nat j + 1) doc with
  | Some t => Some (Corpus.count t)
  | None => r !! j
  end.
Proof.
  induction doc as [|t doc IH]; intros r Hlen Hj Hidx Hnd; [reflexivity|].
  inversion Hidx as [|? ? Ht Hdoc]; subst.
  inversion Hnd as [|? ? Hnotin Hnd']; subst.
  change (Corpus.written_row (length r) (t :: doc) r)
    with (Corpus.written_row (length r) doc
            (<[Corpus.column (length r) (Corpus.index t) := Corpus.count t]> r)).
  rewrite IH by (rewrite ?length_insert; assumption || reflexivity).
  simpl List.find.
  destruct (Z.eqb_spec (Corpus.index t) (Z.of_nat j + 1)) as [Heq|Hne].
  - rewrite find_index_absent by (rewrite <- Heq; exact Hnotin).
    assert (Hcol : Corpus.column (length r) (Corpus.index t) = j)
      by (apply column_of_index; lia).
    rewrite Hcol. apply list_lookup_insert_eq. exact Hj.
  - destruct (List.find _ doc); [reflexivity|].
    apply list_lookup_insert_ne. intros Hcol. apply Hne.
    apply (column_of_index (length r)); [lia|exact Hcol].
Qed.

Lemma written_row_dense V doc :
  Corpus.sparse_document V doc ->
  Corpus.written_row V doc (replicate V 0) = Corpus.dense_row V doc.
Proof.
  intros [_ [Hidx Hnd]]. apply list_eq. intros j.
  unfold Corpus.dense_row.
  destruct (Nat.lt_ge_cases j V) as [Hj|Hj].
  - rewrite (written_row_lookup V doc j) by (assumption || apply length_replicate).
    rewrite list_lookup_fmap, lookup_seq_lt by exact Hj. simpl.
    unfold Corpus.count_for.
    destruct (List.find _ doc); [reflexivity|].
    apply lookup_replicate_2. exact Hj.
  - rewrite !lookup_ge_None_2; [reflexivity| |].
    + rewrite length_map, length_seq. exact Hj.
    + rewrite written_row_length, length_replicate. exact Hj.
Qed.

End Rows.

(** ** CorpusParser: the claims *)

Ltac concrete :=
  repeat first
    [ progress (unfold Corpus.sparse_document, Corpus.wrapping_document,
                Corpus.well_formed, Corpus.numeral, Corpus.exact,
                Corpus.index, Corpus.count, Corpus.value)
    | match goal with
      | |- Forall _ _ => constructor
      | |- List.NoDup _ => constructor
      | |- _ /\ _ => split
      | |- _ <> _ => discriminate
      | |- ~ _ => simpl; intuition discriminate
      | |- _ = _ => reflexivity
      | |- (_ <= _)%Z => apply Z.leb_le; vm_compute; reflexivity
      | |- (_ < _)%nat => simpl; lia
      end ].

Section ParserClaims.

(** C2 (as amended).  For every corpus of valid sparse documents -- each
    line a non-empty comma-separated list of index:count tokens, the
    indices unique and within [1, vocabulary_size], the counts at most 2^53
    -- the parsing cell completes and leaves the matrix whose cell (i, j) is
    the count given for index j+1 in document i and 0 where none is given;
    the line "1:3,2:1" with vocabulary size 4 yields the row [3,1,0,0]. *)
Theorem bags_of_words_dense V (docs : list (list Corpus.token)) :
  Forall (fun doc => Corpus.sparse_document V doc /\ doc <> [] /\ Forall Corpus.exact doc) docs ->
  CorpusParser.bags_of_words (map Corpus.render_line docs) V = (Corpus.dense V docs, Ok tt) /\
  CorpusParser.bags_of_words ["1:3,2:1"%string] 4 = ([[3; 1; 0; 0]], Ok tt).
Proof.
  intros Hvalid. split; [|reflexivity].
  destruct V as [|V'].
  - destruct docs as [|doc docs]; [reflexivity|].
    inversion Hvalid as [|? ? [[_ [Hidx _]] [Hne _]] _]; subst.
    destruct doc as [|t doc]; [congruence|].
    inversion Hidx; subst. lia.
  - rewrite bags_of_words_written.
    + unfold Corpus.dense. f_equal. apply map_ext_Forall.
      eapply Forall_impl; [exact Hvalid|].
      intros doc [Hsparse _]. apply written_row_dense, Hsparse.
    + lia.
    + eapply Forall_impl; [exact Hvalid|].
      intros doc [[Hwf [Hidx _]] [Hne Hex]].
      repeat split; try assumption.
      eapply Forall_impl; [exact Hidx|]. simpl. lia.
Qed.

Lemma bags_of_words_dense_witness :
  Forall (fun doc => Corpus.sparse_document 4 doc /\ doc <> [] /\ Forall Corpus.exact doc)
    [[("1", "3"); ("2", "1")]; [("4", "7")]]%string /\
  CorpusParser.bags_of_words ["1:3,2:1"; "4:7"]%string 4 =
  ([[3; 1; 0; 0]; [0; 0; 0; 7]], Ok tt).
Proof.
  assert (H : Forall (fun doc => Corpus.sparse_document 4 doc /\ doc <> [] /\
                                 Forall Corpus.exact doc)
                [[("1", "3"); ("2", "1")]; [("4", "7")]]%string) by concrete.
  split; [exact H|].
  exact (proj1 (bags_of_words_dense 4 _ H)).
Defined.

(** C2 as stated fails: an empty line is a document without tokens, and
    the cell raises [IndexError] on it; a count above 2^53 is stored as the
    nearest double, not as the count given. *)
Lemma bags_of_words_dense_counterexample :
  (Corpus.sparse_document 4 [] /\
   CorpusParser.bags_of_words (map Corpus.render_line [[]]) 4 =
   ([[0; 0; 0; 0]], Raise IndexError)) /\
  (Corpus.sparse_document 4 [("1", "9007199254740993")]%string /\
   Corpus.dense 4 [[("1", "9007199254740993")]]%string = [[9007199254740993; 0; 0; 0]] /\
   CorpusParser.bags_of_words
     (map Corpus.render_line [[("1", "9007199254740993")]]%string) 4 =
   ([[9007199254740992; 0; 0; 0]], Ok tt)).
Proof. concrete. Qed.

(** C9.  A token with vocabulary index 0 is not rejected: [0 - 1] is the
    index -1, which NumPy resolves to the last column.  On lines whose
    tokens are otherwise well formed (indices up to the vocabulary size,
    counts at most 2^53) the cell completes, and the count of the index-0
    token is in the last column of its row unless a later token of the line
    (index 0 or vocabulary_size) overwrites it; "0:5" with vocabulary size 4
    gives the row [0,0,0,5]. *)
Theorem index_zero_wraps V (docs : list (list Corpus.token)) :
  (0 < V)%nat ->
  Forall (Corpus.wrapping_document V) docs ->
  Np.normalize_index V (0 - 1) = Ok (V - 1)%nat /\
  (exists M,
     CorpusParser.bags_of_words (map Corpus.render_line docs) V = (M, Ok tt) /\
     forall i before t after,
       docs !! i = Some (before ++ t :: after) ->
       Corpus.index t = 0 ->
       Forall (fun t' => Corpus.index t' <> 0 /\ Corpus.index t' <> Z.of_nat V) after ->
       exists r, M !! i = Some r /\ length r = V /\ r !! (V - 1)%nat = Some (Corpus.count t)) /\
  CorpusParser.bags_of_words ["0:5"%string] 4 = ([[0; 0; 0; 5]], Ok tt).
Proof.
  intros HV Hvalid. split; [|split; [|reflexivity]].
  - rewrite (normalize_column V 0) by lia. f_equal. unfold Corpus.column. simpl. lia.
  - eexists. split; [apply bags_of_words_written; assumption|].
    intros i before t after Hdoc Ht Hafter.
    eexists. split; [rewrite list_lookup_fmap, Hdoc; reflexivity|].
    split; [rewrite written_row_length; apply length_replicate|].
    rewrite written_row_app.
    change (Corpus.written_row V (t :: after) ?r)
      with (Corpus.written_row V after (<[Corpus.column V (Corpus.index t) := Corpus.count t]> r)).
    assert (Hcol : Corpus.column V 0 = (V - 1)%nat) by (unfold Corpus.column; simpl; lia).
    rewrite written_row_untouched.
    + rewrite Ht, Hcol. apply list_lookup_insert_eq.
      rewrite written_row_length, length_replicate. lia.
    + apply (Forall_lookup_1 _ _ _ _ Hvalid) in Hdoc as [_ [_ [_ Hidx]]].
      apply Forall_app in Hidx as [_ Hidx]. inversion Hidx as [|? ? _ Hidx']; subst.
      rewrite Forall_forall in Hafter, Hidx'. apply Forall_forall. intros t' Hin.
      specialize (Hafter t' Hin) as [Hne0 HneV]. specialize (Hidx' t' Hin).
      intros Hc. apply (column_of_index V) in Hc; lia.
Qed.

Lemma index_zero_wraps_witness :
  ((0 < 4)%nat /\ Forall (Corpus.wrapping_document 4) [[("2", "1"); ("0", "5")]]%string) /\
  exists M,
    CorpusParser.bags_of_words ["2:1,0:5"%string] 4 = (M, Ok tt) /\
    exists r, M !! 0%nat = Some r /\ length r = 4%nat /\ r !! 3%nat = Some 5.
Proof.
  assert (H : Forall (Corpus.wrapping_document 4) [[("2", "1"); ("0", "5")]]%string) by concrete.
  split; [split; [lia|exact H]|].
  destruct (index_zero_wraps 4 _ ltac:(lia) H) as [_ [[M [HM Hcell]] _]].
  exists M. split; [exact HM|].
  apply (Hcell 0%nat [("2", "1")]%string ("0", "5")%string []); [reflexivity|reflexivity|constructor].
Defined.

End ParserClaims.

(** ** Malformed tokens *)

Section Malformed.

Lemma int_raised s e : int s = Raise e -> e = ValueError.
Proof.
  unfold int.
  destruct (match skip_spaces s with
            | String "+"%char r => (1, r)
            | String "-"%char r => (-1, r)
            | _ => (1, skip_spaces s)
            end) as [sign s2].
  destruct (scan_digits 0 None s2) as [[v rest]|]; [|congruence].
  destruct (skip_spaces rest); congruence.
Qed.

Lemma getitem_raised {A} (l : list A) i e : getitem l i = Raise e -> e = IndexError.
Proof. unfold getitem. destruct (l !! i); congruence. Qed.

Lemma normalize_index_raised n k e : Np.normalize_index n k = Raise e -> e = IndexError.
Proof. unfold Np.normalize_index. destruct (_ && _); congruence. Qed.

Lemma value_of_int_raised n e : Float64.value_of_int n = Raise e -> e = OverflowError.
Proof.
  unfold Float64.value_of_int. destruct (Float64.round53 n 0) as [m ex].
  destruct (2 ^ 1024 <=? _); congruence.
Qed.

Lemma field_raised (fields : list string) i e :
  bind (getitem fields i) int = Raise e -> Corpus.parse_error e.
Proof.
  unfold bind. destruct (getitem fields i) as [f|e'] eqn:E.
  - intros H. apply int_raised in H. right. left. exact H.
  - intros H. injection H as <-. apply getitem_raised in E. left. exact E.
Qed.

Lemma setitem_raised row k v (a : Np.ndarray2) e :
  snd (Np.setitem row k v a) = Raise e -> Corpus.parse_error e.
Proof.
  unfold Np.setitem. destruct (a !! row) as [r|]; [|simpl; intros [= <-]; left; reflexivity].
  destruct (Np.normalize_index (length r) k) as [j|e'] eqn:E.
  - destruct (Float64.value_of_int v) as [x|e''] eqn:E'; simpl; [discriminate|].
    intros [= <-]. apply value_of_int_raised in E'. right. right. exact E'.
  - simpl. intros [= <-]. apply normalize_index_raised in E. left. exact E.
Qed.

(** The body of the inner loop raises nothing but these. *)
Lemma assign_raised row col (a : Np.ndarray2) e :
  snd (CorpusParser.assign row col a) = Raise e -> Corpus.parse_error e.
Proof.
  unfold CorpusParser.assign, bindS, lift.
  destruct (bind (getitem (split ":" col) 1) int) as [rhs|e1] eqn:E1.
  - destruct (bind (getitem (split ":" col) 0) int) as [idx|e0] eqn:E0.
    + apply setitem_raised.
    + simpl. intros [= <-]. apply (field_raised _ _ _ E0).
  - simpl. intros [= <-]. apply (field_raised _ _ _ E1).
Qed.

Lemma setitem_shaped V row k v (a : Np.ndarray2) :
  Corpus.shaped V a -> Corpus.shaped V (fst (Np.setitem row k v a)).
Proof.
  intros Ha. unfold Np.setitem.
  destruct (a !! row) as [r|] eqn:Er; [|exact Ha].
  destruct (Np.normalize_index (length r) k) as [j|]; [|exact Ha].
  destruct (Float64.value_of_int v) as [x|]; [|exact Ha].
  simpl. apply Forall_insert; [exact Ha|].
  rewrite length_insert. apply (Forall_lookup_1 _ _ _ _ Ha Er).
Qed.

Lemma assign_shaped V row col (a : Np.ndarray2) :
  Corpus.shaped V a -> Corpus.shaped V (fst (CorpusParser.assign row col a)).
Proof.
  intros Ha. unfold CorpusParser.assign, bindS, lift.
  destruct (bind (getitem (split ":" col) 1) int); [|exact Ha].
  destruct (bind (getitem (split ":" col) 0) int); [|exact Ha].
  apply setitem_shaped, Ha.
Qed.

(** The store of a malformed token raises. *)
Lemma assign_malformed V row col (a : Np.ndarray2) :
  Corpus.shaped V a -> Corpus.malformed V col ->
  exists e, snd (CorpusParser.assign row col a) = Raise e.
Proof.
  intros Ha Hbad. unfold CorpusParser.assign, bindS, lift.
  destruct (bind (getitem (split ":" col) 1) int) as [rhs|e1] eqn:E1;
    [|exists e1; reflexivity].
  destruct (bind (getitem (split ":" col) 0) int) as [idx|e0] eqn:E0;
    [|exists e0; reflexivity].
  destruct Hbad as [Hfree | i f Hi Hf Hint | f i Hf Hint Hrange].
  - rewrite (split_free _ _ Hfree) in E1. discriminate.
  - unfold getitem in E0, E1.
    destruct i as [|[|i]]; [| |lia].
    + rewrite Hf in E0. simpl in E0. congruence.
    + rewrite Hf in E1. simpl in E1. congruence.
  - unfold getitem in E0. rewrite Hf in E0. simpl in E0.
    rewrite Hint in E0. injection E0 as <-.
    unfold Np.setitem. destruct (a !! row) as [r|] eqn:Er; [|eexists; reflexivity].
    rewrite (Forall_lookup_1 _ _ _ _ Ha Er).
    assert (Hn : Np.normalize_index V (i - 1) = Raise IndexError).
    { unfold Np.normalize_index.
      destruct (i - 1 <? 0) eqn:E; [apply Z.ltb_lt in E|apply Z.ltb_ge in E];
        (destruct (_ && _) eqn:E'; [|reflexivity]);
        apply andb_true_iff in E' as [E2 E3]; lia. }
    rewrite Hn. eexists. reflexivity.
Qed.

End Malformed.

Section MalformedClaims.

Lemma row_shaped V (word_counts : list string) row (a : Np.ndarray2) :
  Corpus.shaped V a ->
  Corpus.shaped V
    (fst ((let* line := lift (getitem word_counts row) in
           for_each (split "," line) (CorpusParser.assign row)) a)).
Proof.
  intros Ha. unfold bindS, lift.
  destruct (getitem word_counts row) as [line|]; [|exact Ha].
  apply (for_each_keeps (Corpus.shaped V)); [|exact Ha].
  intros col s. apply assign_shaped.
Qed.

(** C4 (as amended).  Whenever a token of a line lacks the ':' separator,
    has an index or count field that [int] rejects, or has an index above
    vocabulary_size or below 1 - vocabulary_size, the parsing cell raises,
    and what it raises is IndexError, ValueError or OverflowError. *)
Theorem malformed_token_raises V (word_counts : list string) row line col :
  word_counts !! row = Some line ->
  In col (split "," line) ->
  Corpus.malformed V col ->
  exists e,
    snd (CorpusParser.bags_of_words word_counts V) = Raise e /\ Corpus.parse_error e.
Proof.
  intros Hline Hcol Hbad.
  unfold CorpusParser.bags_of_words, CorpusParser.fill.
  set (body := fun row : nat => _).
  set (a0 := Np.zeros (length word_counts) V).
  assert (Ha0 : Corpus.shaped V a0).
  { unfold a0, Np.zeros, Corpus.shaped. apply Forall_replicate, length_replicate. }
  assert (Hraise : exists e, snd (for_each (seq 0 (length word_counts)) body a0) = Raise e).
  { apply (for_each_raises (Corpus.shaped V) body row).
    - apply in_seq. apply lookup_lt_Some in Hline. lia.
    - intros y s. apply row_shaped.
    - intros s Hs. unfold body, bindS, lift, getitem. rewrite Hline.
      apply (for_each_raises (Corpus.shaped V) _ col); [exact Hcol| | |exact Hs].
      + intros y s'. apply assign_shaped.
      + intros s' Hs'. apply (assign_malformed V); assumption.
    - exact Ha0. }
  destruct Hraise as [e He]. exists e. split; [exact He|].
  revert He. apply for_each_raised. clear.
  intros y s e. unfold body, bindS, lift.
  destruct (getitem word_counts y) as [line|e'] eqn:E.
  - apply for_each_raised. intros col s' e''. apply assign_raised.
  - simpl. intros [= <-]. apply getitem_raised in E. left. exact E.
Qed.

Lemma malformed_token_raises_witness :
  (["1:3,abc"; "2:2"]%string !! 0%nat = Some "1:3,abc"%string /\
   In "abc"%string (split "," "1:3,abc") /\
   Corpus.malformed 4 "abc") /\
  exists e,
    snd (CorpusParser.bags_of_words ["1:3,abc"; "2:2"]%string 4) = Raise e /\
    Corpus.parse_error e.
Proof.
  assert (Hbad : Corpus.malformed 4 "abc") by (apply Corpus.missing_separator; reflexivity).
  assert (Hin : In "abc"%string (split "," "1:3,abc")) by (simpl; right; left; reflexivity).
  split; [split; [reflexivity|split; assumption]|].
  exact (malformed_token_raises 4 ["1:3,abc"; "2:2"]%string 0 "1:3,abc" "abc"
           eq_refl Hin Hbad).
Defined.

(** C4 as stated fails: the index 0 lies outside [1, 4], yet the cell
    completes and builds a matrix from the line; and where the cell does
    fail there is no FormatError, the exception is Python's own. *)
Lemma malformed_token_counterexample :
  (split ":" "0:5" = ["0"; "5"]%string /\ int "0" = Ok 0 /\ ~ 1 <= 0 <= 4 /\
   CorpusParser.bags_of_words ["0:5"%string] 4 = ([[0; 0; 0; 5]], Ok tt)) /\
  CorpusParser.bags_of_words ["1:3,abc"%string] 4 = ([[3; 0; 0; 0]], Raise IndexError).
Proof. repeat split; try reflexivity. lia. Qed.

End MalformedClaims.

(** ** DatasetSplitter *)

Section Splitter.

(** On the row counts the cell can meet, [int(0.95*n)] computed in binary64
    is the floor of 95 n / 100. *)
Lemma training_count_floor n :
  0 <= n <= 10000 -> DatasetSplitter.training_count n = Ok (95 * n / 100).
Proof.
  intros Hn.
  assert (H : forallb
                (fun k => match DatasetSplitter.training_count (Z.of_nat k) with
                          | Ok t => t =? 95 * Z.of_nat k / 100
                          | Raise _ => false
                          end)
                (seq 0 (Z.to_nat 10001)) = true) by (vm_compute; reflexivity).
  rewrite forallb_forall in H.
  specialize (H (Z.to_nat n)). rewrite Z2Nat.id in H by lia.
  destruct (DatasetSplitter.training_count n) as [t|e].
  - f_equal. apply Z.eqb_eq, H, in_seq. lia.
  - discriminate H. apply in_seq. lia.
Qed.

Lemma slice_bound_id len i : 0 <= i <= len -> slice_bound len i = i.
Proof.
  intros Hi. unfold slice_bound.
  destruct (i <? 0) eqn:E; [apply Z.ltb_lt in E; lia|]. lia.
Qed.

Lemma slice_take_drop {A} (l : list A) lo hi :
  0 <= lo <= hi -> hi <= Z.of_nat (length l) ->
  slice l lo hi = take (Z.to_nat (hi - lo)) (drop (Z.to_nat lo) l).
Proof.
  intros Hlo Hhi. unfold slice.
  rewrite !slice_bound_id by lia. reflexivity.
Qed.

(** The split cell completes, and its training matrix has
    [nbags_of_words_training] rows. *)
Lemma split_cell_training_rows (bags_of_words : Np.ndarray2) :
  exists s,
    DatasetSplitter.split_cell bags_of_words = Ok s /\
    Z.of_nat (length (DatasetSplitter.bags_of_words_training s)) =
    DatasetSplitter.nbags_of_words_training s.
Proof.
  unfold DatasetSplitter.split_cell, Np.shape0.
  set (n := Z.min (Z.of_nat (length bags_of_words)) 10000).
  assert (Hn : 0 <= n <= 10000) by lia.
  rewrite (training_count_floor n Hn). simpl bind.
  assert (Ht : 0 <= 95 * n / 100 <= n).
  { split; [apply Z.div_pos; lia|]. apply Z.div_le_upper_bound; lia. }
  eexists. split; [reflexivity|]. simpl.
  rewrite slice_take_drop by lia. rewrite length_take, length_drop. lia.
Qed.

(** C3.  For every matrix the split cell completes with
    train_count + test_count = min(10000, total_rows) and
    train_count = floor(0.95 * min(10000, total_rows)); the training rows
    are the first train_count rows and the test rows the ones that follow,
    up to the cap.  The cap 10000 and the fraction 0.95 are the cell's
    literals.  For 10,000 rows: train = 9500, test = 500. *)
Theorem split_counts (bags_of_words : Np.ndarray2) :
  exists s,
    DatasetSplitter.split_cell bags_of_words = Ok s /\
    let n := Z.min (Np.shape0 bags_of_words) 10000 in
    let train := DatasetSplitter.nbags_of_words_training s in
    let test := DatasetSplitter.nbags_of_words_test s in
    DatasetSplitter.nbags_of_words s = n /\
    train + test = n /\
    train = 95 * n / 100 /\
    DatasetSplitter.bags_of_words_training s = take (Z.to_nat train) bags_of_words /\
    DatasetSplitter.bags_of_words_test s =
      take (Z.to_nat test) (drop (Z.to_nat train) bags_of_words) /\
    Z.of_nat (length (DatasetSplitter.bags_of_words_training s)) = train /\
    Z.of_nat (length (DatasetSplitter.bags_of_words_test s)) = test /\
    (Np.shape0 bags_of_words = 10000 -> train = 9500 /\ test = 500).
Proof.
  unfold DatasetSplitter.split_cell, Np.shape0.
  set (n := Z.min (Z.of_nat (length bags_of_words)) 10000).
  assert (Hn : 0 <= n <= 10000) by lia.
  rewrite (training_count_floor n Hn). simpl bind.
  set (t := 95 * n / 100).
  assert (Ht : 0 <= t <= n).
  { unfold t. split; [apply Z.div_pos; lia|].
    apply Z.div_le_upper_bound; lia. }
  eexists. split; [reflexivity|]. simpl.
  rewrite !slice_take_drop by lia. simpl Z.to_nat. rewrite drop_0, Z.sub_0_r.
  repeat split; try lia.
  - rewrite length_take. lia.
  - rewrite length_take, length_drop. lia.
  - subst t. replace n with 10000 by lia. reflexivity.
  - subst t. replace n with 10000 by lia. reflexivity.
Qed.

Lemma split_counts_witness :
  Np.shape0 (Np.zeros (Z.to_nat 10000) 0) = 10000 /\
  exists s,
    DatasetSplitter.split_cell (Np.zeros (Z.to_nat 10000) 0) = Ok s /\
    DatasetSplitter.nbags_of_words_training s = 9500 /\
    DatasetSplitter.nbags_of_words_test s = 500.
Proof.
  assert (H : Np.shape0 (Np.zeros (Z.to_nat 10000) 0) = 10000) by (vm_compute; reflexivity).
  split; [exact H|].
  destruct (split_counts (Np.zeros (Z.to_nat 10000) 0)) as [s [Hs Hrest]].
  exists s. split; [exact Hs|].
  apply Hrest. exact H.
Defined.

End Splitter.

(** ** Traces of cells *)

Section Traces.

Context {R : Type}.

Lemma trace_then_call {A B} ev (op : R -> R * result A) (k : A -> cell R B) r :
  exists rest, trace (then_ (call ev op) k r) = ev :: rest.
Proof.
  unfold then_, call. simpl. destruct (snd (op r)); simpl; eexists; reflexivity.
Qed.

Lemma trace_then_first {A B C} (m : cell R A) (k : A -> cell R B) (k' : B -> cell R C) ev r :
  (exists rest, trace (then_ m k r) = ev :: rest) ->
  exists rest, trace (then_ (then_ m k) k' r) = ev :: rest.
Proof.
  intros [rest H]. unfold then_ at 1.
  destruct (outcome (then_ m k r)); simpl; rewrite H; eexists; reflexivity.
Qed.

Lemma Forall_trace_then {A B} (P : event -> Prop) (m : cell R A) (k : A -> cell R B) r :
  Forall P (trace (m r)) ->
  (forall a r', Forall P (trace (k a r'))) ->
  Forall P (trace (then_ m k r)).
Proof.
  intros Hm Hk. unfold then_.
  destruct (outcome (m r)); simpl; [|exact Hm].
  apply Forall_app. split; [exact Hm|apply Hk].
Qed.

Lemma Forall_trace_call {A} (P : event -> Prop) ev (op : R -> R * result A) r :
  P ev -> Forall P (trace (call ev op r)).
Proof. intros H. repeat constructor. exact H. Qed.

Lemma Forall_trace_emit (P : event -> Prop) ev (r : R) :
  P ev -> Forall P (trace (emit ev r)).
Proof. intros H. repeat constructor. exact H. Qed.

Lemma Forall_trace_pure {A} (P : event -> Prop) (a : A) (r : R) :
  Forall P (trace (pure a r)).
Proof. constructor. Qed.

Lemma Forall_trace_local {A} (P : event -> Prop) (x : result A) (r : R) :
  Forall P (trace (local_ x r)).
Proof. constructor. Qed.

Lemma Forall_trace_try (P : event -> Prop) (body : cell R unit) handler r :
  Forall P (trace (body r)) ->
  (forall message r', Forall P (trace (handler message r'))) ->
  Forall P (trace (try_except_RuntimeError body handler r)).
Proof.
  intros Hb Hh. unfold try_except_RuntimeError.
  destruct (outcome (body r)) as [|[]]; try exact Hb.
  simpl. apply Forall_app. split; [exact Hb|apply Hh].
Qed.

Lemma then_local_Ok {A B} (a : A) (k : A -> cell R B) r :
  then_ (local_ (Ok a)) k r = k a r.
Proof. unfold then_, local_. simpl. destruct (k a r). reflexivity. Qed.

Lemma then_local_Raise {A B} e (k : A -> cell R B) r :
  trace (then_ (local_ (Raise e)) k r) = [].
Proof. reflexivity. Qed.

Lemma trace_then {A B} (m : cell R A) (k : A -> cell R B) r :
  trace (then_ m k r) =
  trace (m r) ++
  match outcome (m r) with
  | Ok a => trace (k a (final (m r)))
  | Raise _ => []
  end.
Proof.
  unfold then_. destruct (outcome (m r)); cbn [trace]; [reflexivity|].
  symmetry. apply app_nil_r.
Qed.

Lemma outcome_then_call {A B} ev (op : R -> R * result A) (k : A -> cell R B) r r' a :
  op r = (r', Ok a) ->
  outcome (then_ (call ev op) k r) = outcome (k a r').
Proof. intros H. unfold then_, call. cbn [outcome final]. rewrite H. reflexivity. Qed.

Lemma outcome_then_local {A B} (x : result A) (k : A -> cell R B) r :
  outcome (then_ (local_ x) k r) =
  match x with
  | Ok a => outcome (k a r)
  | Raise e => Raise e
  end.
Proof. unfold then_, local_. cbn [outcome final]. destruct x; reflexivity. Qed.

End Traces.

Ltac trace_steps :=
  repeat first
    [ apply Forall_trace_then
    | apply Forall_trace_try
    | apply Forall_trace_call
    | apply Forall_trace_emit
    | apply Forall_trace_pure
    | apply Forall_trace_local
    | progress intros ].

(** ** The training section *)

Section Training.

Context {R : Type} (k : sdk R).

Lemma train_batch cred V s r :
  Forall (batch_is (DatasetSplitter.nbags_of_words_training s))
    (trace (Notebook.train k cred V s r)).
Proof.
  unfold Notebook.train, Notebook.upload_cell, Notebook.container_cell,
    Notebook.estimator_cell, Notebook.training_cell, Notebook.job_name_cell.
  trace_steps; try destruct a; trace_steps;
    try (intros hp' Hev; first [discriminate Hev | injection Hev as <-; reflexivity]).
Qed.

Lemma after_training_batch cred fname endpoint rows n r :
  Forall (batch_is n) (trace (Notebook.download_cell k cred fname r)) /\
  Forall (batch_is n) (trace (Notebook.deploy_cell k r)) /\
  Forall (batch_is n) (trace (Notebook.predict_cells k endpoint rows r)) /\
  Forall (batch_is n) (trace (Notebook.delete_endpoint_cell k endpoint r)).
Proof.
  unfold Notebook.download_cell, Notebook.deploy_cell, Notebook.predict_cells,
    Notebook.delete_endpoint_cell.
  repeat split; trace_steps; intros hp' Hev; discriminate Hev.
Qed.

End Training.

Section TrainingClaims.

Context {R : Type} (k : sdk R).

(** C10.  In every run of the pipeline, hyperparameters are only ever set
    with mini_batch_size equal to nbags_of_words_training, which is the
    number of rows of the training matrix that the run serialized and
    uploaded first: the batch size never exceeds the training row count. *)
Theorem mini_batch_size_is_training_rows cred nyt_data nyt_vocab r hp :
  In (SetHyperparameters hp) (trace (Notebook.pipeline k cred nyt_data nyt_vocab r)) ->
  exists s,
    DatasetSplitter.split_cell
      (fst (CorpusParser.bags_of_words (map Notebook.strip nyt_data) (length nyt_vocab))) = Ok s /\
    mini_batch_size hp = DatasetSplitter.nbags_of_words_training s /\
    mini_batch_size hp = Z.of_nat (length (DatasetSplitter.bags_of_words_training s)) /\
    exists rest,
      trace (Notebook.pipeline k cred nyt_data nyt_vocab r) =
      Serialize (DatasetSplitter.bags_of_words_training s) :: rest.
Proof.
  unfold Notebook.pipeline, Notebook.load_cell.
  set (bags := CorpusParser.bags_of_words _ _).
  destruct (snd bags) as [[]|e]; [|rewrite then_local_Raise; intros []].
  rewrite then_local_Ok.
  destruct (split_cell_training_rows (fst bags)) as [s [Hs Hrows]].
  rewrite Hs, then_local_Ok.
  match goal with
  | |- In _ (trace (then_ _ ?f r)) -> _ => set (rest := f)
  end.
  intros Hin. exists s. split; [reflexivity|].
  assert (Hbatch : mini_batch_size hp = DatasetSplitter.nbags_of_words_training s).
  { assert (H : Forall (batch_is (DatasetSplitter.nbags_of_words_training s))
                  (trace (then_ (Notebook.train k cred (length nyt_vocab) s) rest r))).
    { apply Forall_trace_then; [apply train_batch|].
      intros fname r1. unfold rest.
      pose proof (fun e rows r' =>
        after_training_batch k cred fname e rows
          (DatasetSplitter.nbags_of_words_training s) r') as Hafter.
      apply Forall_trace_then; [apply (Hafter EmptyString [] r1)|]. intros ? r2.
      apply Forall_trace_then; [apply (Hafter EmptyString [] r2)|]. intros e r3.
      apply Forall_trace_then; [apply (Hafter e _ r3)|]. intros ? r4.
      apply (Hafter e [] r4). }
    rewrite List.Forall_forall in H. apply (H _ Hin hp eq_refl). }
  split; [exact Hbatch|]. split.
  - rewrite Hbatch. symmetry. exact Hrows.
  - apply trace_then_first.
    unfold Notebook.train, Notebook.upload_cell.
    apply trace_then_first, trace_then_call.
Qed.

End TrainingClaims.

Lemma mini_batch_size_is_training_rows_witness :
  let run := Notebook.pipeline (Account.sagemaker (Ok tt) (LoadedList [Account.alpha3; Account.beta2x2]))
               Account.cred ["1:3,2:1"; "2:2"; "4:1"]%string ["a"; "b"; "c"; "d"]%string
               (Account.start ["model_algo-1"%string]) in
  let hp := {| num_topics := 10; feature_dim := 4; mini_batch_size := 2; alpha0 := (1, 0) |} in
  In (SetHyperparameters hp) (trace run) /\
  exists s, mini_batch_size hp = Z.of_nat (length (DatasetSplitter.bags_of_words_training s)) /\
            exists rest, trace run = Serialize (DatasetSplitter.bags_of_words_training s) :: rest.
Proof.
  intros run hp.
  assert (Hin : In (SetHyperparameters hp) (trace run)).
  { vm_compute. do 4 right. left. reflexivity. }
  split; [exact Hin|].
  destruct (mini_batch_size_is_training_rows _ _ _ _ _ hp Hin) as [s [_ [_ [Hlen Hfirst]]]].
  exists s. split; [exact Hlen|exact Hfirst].
Defined.

(** ** Failures of the remote side *)

Section FailureClaims.

Context {R : Type} (k : sdk R).

(** C5 (as amended).  Once the tarball is downloaded and extracted, the
    download cell takes the first directory entry whose name starts with
    "model_" -- IndexError when there is none, no complaint when there are
    several -- and returns the two arrays that file decodes to, whatever
    their shapes; what is loaded from a file that does not decode to a list
    of two arrays is rejected with ValueError or AttributeError. *)
Theorem download_cell_takes_first cred fname r job r1 r2 r3 r4 names :
  latest_training_job_name k r = (r1, Ok job) ->
  download_file k (Notebook.bucket cred)
    (path_join (Notebook.prefix cred) ["output"; job; "output"; "model.tar.gz"]%string)
    fname r1 = (r2, Ok tt) ->
  extractall k fname r2 = (r3, Ok tt) ->
  listdir k r3 = (r4, Ok names) ->
  outcome (Notebook.download_cell k cred fname r) =
    match Notebook.model_list names with
    | [] => Raise IndexError
    | model_fname :: _ => bind (snd (ndarray_load k model_fname r4)) Notebook.unpack
    end /\
  (forall alpha beta, Notebook.unpack (LoadedList [alpha; beta]) = Ok (alpha, beta)) /\
  (forall l,
     (forall alpha beta, l <> LoadedList [alpha; beta]) ->
     Notebook.unpack l = Raise ValueError \/ Notebook.unpack l = Raise AttributeError).
Proof.
  intros Hjob Hdl Hex Hls. split; [|split].
  - unfold Notebook.download_cell.
    rewrite (outcome_then_call _ _ _ _ _ _ Hjob).
    rewrite (outcome_then_call _ _ _ _ _ _ Hdl).
    rewrite (outcome_then_call _ _ _ _ _ _ Hex).
    rewrite (outcome_then_call _ _ _ _ _ _ Hls).
    rewrite outcome_then_local. unfold getitem.
    destruct (Notebook.model_list names) as [|model_fname rest]; [reflexivity|].
    cbn [lookup list_lookup].
    unfold then_, call, local_. cbn [outcome final].
    destruct (snd (ndarray_load k model_fname r4)); reflexivity.
  - reflexivity.
  - intros l Hl.
    destruct l as [[|a [|b [|c arrays]]]|[|a [|b [|c named]]]]; simpl;
      try (left; reflexivity); try (right; reflexivity).
    exfalso. apply (Hl a b). reflexivity.
Qed.

(** C7 (as amended).  The cell that releases the endpoint makes one
    [delete_endpoint] call and returns or raises what that call does; run a
    second time it does the same against the state the first run left, so
    it completes exactly when the provider accepts the deletion of an
    endpoint that is already gone. *)
Theorem delete_endpoint_cell_propagates endpoint r :
  let first := Notebook.delete_endpoint_cell k endpoint r in
  let second := Notebook.delete_endpoint_cell k endpoint (final first) in
  trace first = [DeleteEndpoint endpoint] /\
  outcome first = snd (delete_endpoint k endpoint r) /\
  final first = fst (delete_endpoint k endpoint r) /\
  trace second = [DeleteEndpoint endpoint] /\
  outcome second =
    snd (delete_endpoint k endpoint (fst (delete_endpoint k endpoint r))) /\
  forall e,
    outcome first = Raise e ->
    outcome (then_ (Notebook.delete_endpoint_cell k endpoint)
               (fun _ => Notebook.delete_endpoint_cell k endpoint) r) = Raise e.
Proof.
  cbn zeta. repeat split.
  intros e He. unfold then_. rewrite He. reflexivity.
Qed.

End FailureClaims.

Lemma download_cell_takes_first_witness :
  let k := Account.sagemaker (Ok tt) (LoadedList [Account.alpha3; Account.beta2x2]) in
  let r := Account.start ["lda.data"; "model_algo-1"]%string in
  (latest_training_job_name k r = (r, Ok "lda-job"%string) /\
   download_file k (Notebook.bucket Account.cred)
     (path_join (Notebook.prefix Account.cred) ["output"; "lda-job"; "output"; "model.tar.gz"]%string)
     "lda.data" r = (r, Ok tt) /\
   extractall k "lda.data" r = (r, Ok tt) /\
   listdir k r = (r, Ok ["lda.data"; "model_algo-1"]%string)) /\
  outcome (Notebook.download_cell k Account.cred "lda.data" r) =
    Ok (Account.alpha3, Account.beta2x2).
Proof.
  intros k r. split; [repeat split|].
  exact (proj1 (download_cell_takes_first k Account.cred "lda.data" r "lda-job" r r r r
                  ["lda.data"; "model_algo-1"]%string eq_refl eq_refl eq_refl eq_refl)).
Defined.

(** C5 as stated fails: with two parameter files in the directory, and
    arrays whose shapes fit neither each other nor a vocabulary of 4 words,
    the cell raises nothing and returns the arrays of the first file. *)
Lemma download_cell_counterexample :
  let k := Account.sagemaker (Ok tt) (LoadedList [Account.alpha3; Account.beta2x2]) in
  let r := Account.start ["model_algo-1"; "model_algo-2"]%string in
  Notebook.model_list (Account.directory r) = ["model_algo-1"; "model_algo-2"]%string /\
  shape Account.alpha3 = [3%nat] /\ shape Account.beta2x2 = [2%nat; 2%nat] /\
  outcome (Notebook.download_cell k Account.cred "lda.data" r) =
    Ok (Account.alpha3, Account.beta2x2) /\
  In (NdarrayLoad "model_algo-1")
    (trace (Notebook.download_cell k Account.cred "lda.data" r)).
Proof. repeat split. vm_compute. do 4 right. left. reflexivity. Qed.

Lemma delete_endpoint_cell_propagates_witness :
  let k := Account.sagemaker (Ok tt) (LoadedList []) in
  outcome (Notebook.delete_endpoint_cell k "lda-endpoint" (Account.start [])) =
    Raise Account.not_found /\
  outcome (then_ (Notebook.delete_endpoint_cell k "lda-endpoint")
             (fun _ => Notebook.delete_endpoint_cell k "lda-endpoint") (Account.start [])) =
    Raise Account.not_found.
Proof.
  intros k.
  assert (H : outcome (Notebook.delete_endpoint_cell k "lda-endpoint" (Account.start [])) =
              Raise Account.not_found) by reflexivity.
  split; [exact H|].
  destruct (delete_endpoint_cell_propagates k "lda-endpoint" (Account.start []))
    as [_ [_ [_ [_ [_ Hraise]]]]].
  exact (Hraise _ H).
Defined.

(** C7 as stated fails: against a provider that refuses to delete an
    endpoint it no longer has, the first release succeeds and the second
    raises. *)
Lemma delete_endpoint_twice_counterexample :
  let k := Account.sagemaker (Ok tt) (LoadedList []) in
  let first := Notebook.delete_endpoint_cell k "lda-endpoint" Account.deployed in
  let second := Notebook.delete_endpoint_cell k "lda-endpoint" (final first) in
  outcome first = Ok tt /\
  outcome second = Raise (OtherException "ClientError" "Could not find endpoint").
Proof. split; reflexivity. Qed.

(** * Further properties of the cells *)

(** ** The stored doubles *)

Section StoredDoubles.

Lemma pow2_double s : 0 < s -> 2 ^ s = 2 * 2 ^ (s - 1).
Proof.
  intros Hs. replace s with (Z.succ (s - 1)) at 1 by lia.
  apply Z.pow_succ_r. lia.
Qed.

(** Rounding to the nearest multiple of [2^s] moves a number by at most
    half of [2^s], and never below the multiple under it. *)
Lemma round_half_even_close m s :
  0 <= m -> 0 < s ->
  let q := Float64.round_half_even m s in
  2 * Z.abs (q * 2 ^ s - m) <= 2 ^ s /\ m / 2 ^ s <= q.
Proof.
  intros Hm Hs. cbv zeta. unfold Float64.round_half_even.
  pose proof (pow2_double s Hs) as Hdouble.
  assert (Hpos : 0 < 2 ^ (s - 1)) by (apply Z.pow_pos_nonneg; lia).
  pose proof (Z.div_mod m (2 ^ s) ltac:(lia)) as Hdiv.
  pose proof (Z.mod_pos_bound m (2 ^ s) ltac:(lia)) as Hmod.
  set (P := 2 ^ s) in *. set (h := 2 ^ (s - 1)) in *.
  set (q := m / P) in *. set (r := m mod P) in *.
  destruct (r <? h) eqn:E1; [apply Z.ltb_lt in E1; split; lia|].
  apply Z.ltb_ge in E1.
  destruct (h <? r) eqn:E2; [apply Z.ltb_lt in E2; split; lia|].
  apply Z.ltb_ge in E2.
  destruct (Z.even q); split; lia.
Qed.

Lemma round53_shift n :
  0 < Z.log2 (Z.abs n) + 1 - 53 ->
  2 ^ 52 * 2 ^ (Z.log2 (Z.abs n) + 1 - 53) <= Z.abs n.
Proof.
  intros Hs.
  assert (Hn : 0 < Z.abs n).
  { destruct (Z.eq_dec (Z.abs n) 0) as [E|E]; [rewrite E in Hs; simpl in Hs; lia|lia]. }
  rewrite <- Z.pow_add_r by lia.
  replace (52 + (Z.log2 (Z.abs n) + 1 - 53)) with (Z.log2 (Z.abs n)) by lia.
  apply Z.log2_spec. exact Hn.
Qed.

(** The value a store leaves, in terms of the rounding. *)
Lemma value_of_int_rounded n v :
  Float64.value_of_int n = Ok v ->
  let s := Z.log2 (Z.abs n) + 1 - 53 in
  (s <= 0 /\ v = n) \/
  (0 < s /\ v = Z.sgn n * Float64.round_half_even (Z.abs n) s * 2 ^ s).
Proof.
  unfold Float64.value_of_int, Float64.round53. cbv zeta.
  destruct (Z.log2 (Z.abs n) + 1 - 53 <=? 0) eqn:E.
  - apply Z.leb_le in E. rewrite Z.pow_0_r, Z.mul_1_r.
    destruct (2 ^ 1024 <=? Z.abs n); [discriminate|].
    intros [= <-]. left. split; [exact E|reflexivity].
  - apply Z.leb_gt in E. rewrite Z.add_0_l.
    destruct (2 ^ 1024 <=? _); [discriminate|].
    intros [= <-]. right. split; [exact E|reflexivity].
Qed.

(** A converted count is within a relative error of 2^-53 of the count. *)
Lemma value_of_int_close n v :
  Float64.value_of_int n = Ok v -> 2 ^ 53 * Z.abs (v - n) <= Z.abs n.
Proof.
  intros H. apply value_of_int_rounded in H. cbv zeta in H.
  destruct H as [[_ ->]|[Hs ->]].
  - rewrite Z.sub_diag. simpl Z.abs at 1. lia.
  - pose proof (round53_shift n Hs) as Hshift.
    assert (Hn : 0 <= Z.abs n) by lia.
    destruct (round_half_even_close (Z.abs n) _ Hn Hs) as [Hclose _].
    set (q := Float64.round_half_even (Z.abs n) _) in *.
    set (P := 2 ^ (Z.log2 (Z.abs n) + 1 - 53)) in *.
    assert (Habs : Z.abs (Z.sgn n * q * P - n) = Z.abs (q * P - Z.abs n)).
    { destruct n as [|p|p]; simpl Z.sgn; simpl Z.abs at 3; [f_equal; lia|f_equal; lia|].
      rewrite <- Z.abs_opp. f_equal. lia. }
    rewrite Habs. lia.
Qed.

(** A count of magnitude 2^1024 or more has no double. *)
Lemma value_of_int_overflow n :
  2 ^ 1024 <= Z.abs n -> Float64.value_of_int n = Raise OverflowError.
Proof.
  intros Hbig.
  assert (Hlog : 1024 <= Z.log2 (Z.abs n)).
  { rewrite <- (Z.log2_pow2 1024) by lia. apply Z.log2_le_mono. exact Hbig. }
  assert (Hs : 0 < Z.log2 (Z.abs n) + 1 - 53) by lia.
  unfold Float64.value_of_int, Float64.round53.
  destruct (Z.log2 (Z.abs n) + 1 - 53 <=? 0) eqn:E; [apply Z.leb_le in E; lia|].
  rewrite Z.add_0_l.
  pose proof (round53_shift n Hs) as Hshift.
  assert (Hn : 0 <= Z.abs n) by lia.
  destruct (round_half_even_close (Z.abs n) _ Hn Hs) as [_ Hq].
  assert (HP : 0 < 2 ^ (Z.log2 (Z.abs n) + 1 - 53)) by (apply Z.pow_pos_nonneg; lia).
  assert (Hq52 : 2 ^ 52 <= Z.abs n / 2 ^ (Z.log2 (Z.abs n) + 1 - 53)).
  { apply Z.div_le_lower_bound; [exact HP|]. lia. }
  assert (Hpow : 2 ^ 1024 <= 2 ^ 52 * 2 ^ (Z.log2 (Z.abs n) + 1 - 53)).
  { rewrite <- Z.pow_add_r by lia. apply Z.pow_le_mono_r; lia. }
  set (q := Float64.round_half_even (Z.abs n) _) in *.
  set (P := 2 ^ (Z.log2 (Z.abs n) + 1 - 53)) in *.
  set (big := 2 ^ 1024) in *.
  assert (Hv : big <= Z.abs (Z.sgn n * q * P)).
  { assert (Hqn : 0 <= q) by (apply Z.le_trans with (Z.abs n / P); [apply Z.div_pos; lia|exact Hq]).
    assert (Habs : Z.abs (Z.sgn n * q * P) = q * P).
    { destruct n as [|p|p].
      - unfold big in Hbig. simpl Z.abs in Hbig. exfalso.
        assert (0 < 2 ^ 1024) by (apply Z.pow_pos_nonneg; lia). lia.
      - simpl Z.sgn. rewrite Z.mul_1_l. apply Z.abs_eq. nia.
      - simpl Z.sgn. rewrite <- Z.abs_opp. replace (- (-1 * q * P)) with (q * P) by lia.
        apply Z.abs_eq. nia. }
    rewrite Habs. apply Z.le_trans with (2 ^ 52 * P); [exact Hpow|].
    apply Z.mul_le_mono_nonneg_r; lia. }
  apply Z.leb_le in Hv. rewrite Hv. reflexivity.
Qed.

End StoredDoubles.

(** ** Stores of the parsing loop *)

Section Stores.

(** What a completed store did. *)
Lemma assign_completed row col (a a' : Np.ndarray2) :
  CorpusParser.assign row col a = (a', Ok tt) ->
  exists r c i j x,
    a !! row = Some r /\
    bind (getitem (split ":" col) 1) int = Ok c /\
    bind (getitem (split ":" col) 0) int = Ok i /\
    Np.normalize_index (length r) (i - 1) = Ok j /\
    Float64.value_of_int c = Ok x /\
    a' = <[row := <[j := x]> r]> a.
Proof.
  unfold CorpusParser.assign, bindS, lift.
  destruct (bind (getitem (split ":" col) 1) int) as [c|]; [|discriminate].
  destruct (bind (getitem (split ":" col) 0) int) as [i|]; [|discriminate].
  unfold Np.setitem.
  destruct (a !! row) as [r|]; [|discriminate].
  destruct (Np.normalize_index (length r) (i - 1)) as [j|] eqn:Ej; [|discriminate].
  destruct (Float64.value_of_int c) as [x|] eqn:Ex; [|discriminate].
  intros [= <-]. exists r, c, i, j, x. repeat split; assumption || reflexivity.
Qed.

Lemma normalize_index_lt n k j : Np.normalize_index n k = Ok j -> (j < n)%nat.
Proof.
  unfold Np.normalize_index.
  destruct (_ && _) eqn:E; [|discriminate].
  intros [= <-]. apply andb_true_iff in E as [E1 E2]. lia.
Qed.

(** X1.  A store that completes changes one cell of its row and nothing
    else, and the double it leaves there is within a relative error of
    2^-53 of the count the token gives. *)
Theorem store_is_near row col (a a' : Np.ndarray2) :
  CorpusParser.assign row col a = (a', Ok tt) ->
  exists r j c x,
    a !! row = Some r /\ (j < length r)%nat /\
    bind (getitem (split ":" col) 1) int = Ok c /\
    a' = <[row := <[j := x]> r]> a /\
    2 ^ 53 * Z.abs (x - c) <= Z.abs c.
Proof.
  intros H. apply assign_completed in H as (r & c & i & j & x & Hr & Hc & _ & Hj & Hx & ->).
  exists r, j, c, x. repeat split; try assumption || reflexivity.
  - apply (normalize_index_lt _ _ _ Hj).
  - apply value_of_int_close, Hx.
Qed.

Lemma store_is_near_witness :
  CorpusParser.assign 0 "1:9007199254740993" [[0; 0]] =
    ([[9007199254740992; 0]], Ok tt) /\
  exists r j c x,
    [[0; 0]] !! 0%nat = Some r /\ (j < length r)%nat /\
    bind (getitem (split ":" "1:9007199254740993") 1) int = Ok c /\
    [[9007199254740992; 0]] = <[0%nat := <[j := x]> r]> [[0; 0]] /\
    2 ^ 53 * Z.abs (x - c) <= Z.abs c.
Proof.
  assert (H : CorpusParser.assign 0 "1:9007199254740993" [[0; 0]] =
              ([[9007199254740992; 0]], Ok tt)) by reflexivity.
  split; [exact H|]. exact (store_is_near _ _ _ _ H).
Defined.

(** X2.  A token whose count is 2^1024 or more has no double to be stored
    as: with an index the row accepts, the store raises OverflowError and
    leaves the matrix as it was. *)
Theorem huge_count_overflows row (t : Corpus.token) (a : Np.ndarray2) r :
  a !! row = Some r -> (0 < length r)%nat ->
  Corpus.well_formed t ->
  0 <= Corpus.index t <= Z.of_nat (length r) ->
  2 ^ 1024 <= Corpus.count t ->
  CorpusParser.assign row (Corpus.render_token t) a = (a, Raise OverflowError).
Proof.
  intros Hrow HV Hwf Hidx Hbig.
  unfold CorpusParser.assign, bindS, lift.
  rewrite (split_token t Hwf). unfold getitem. simpl.
  destruct Hwf as [Ha Hb].
  rewrite (int_numeral _ Hb), (int_numeral _ Ha).
  unfold Np.setitem. rewrite Hrow.
  fold (Corpus.index t). fold (Corpus.count t).
  rewrite (normalize_column _ _ HV Hidx).
  rewrite value_of_int_overflow; [reflexivity|].
  rewrite Z.abs_eq; [exact Hbig|]. apply value_nonneg, Hb.
Qed.

Lemma huge_count_overflows_witness :
  let t := ("2"%string, Lines.power_of_ten 309) in
  ([[0; 0]] !! 0%nat = Some [0; 0] /\ (0 < length [0; 0])%nat /\
   Corpus.well_formed t /\ 0 <= Corpus.index t <= Z.of_nat (length [0; 0]) /\
   2 ^ 1024 <= Corpus.count t) /\
  CorpusParser.assign 0 (Corpus.render_token t) [[0; 0]] = ([[0; 0]], Raise OverflowError).
Proof.
  intros t.
  assert (Hwf : Corpus.well_formed t).
  { split; split; (discriminate || (vm_compute; reflexivity)). }
  assert (Hidx : 0 <= Corpus.index t <= Z.of_nat (length [0; 0])).
  { split; apply Z.leb_le; vm_compute; reflexivity. }
  assert (Hbig : 2 ^ 1024 <= Corpus.count t).
  { apply Z.leb_le. vm_compute. reflexivity. }
  assert (HV : (0 < length [0; 0])%nat) by (simpl; lia).
  split; [exact (conj eq_refl (conj HV (conj Hwf (conj Hidx Hbig))))|].
  exact (huge_count_overflows 0 t [[0; 0]] [0; 0] eq_refl HV Hwf Hidx Hbig).
Defined.

Lemma string_append_assoc (a b c : string) :
  String.append (String.append a b) c = String.append a (String.append b c).
Proof. induction a as [|x a IH]; simpl; [reflexivity|]. rewrite IH. reflexivity. Qed.

(** X3.  Only the first two ':'-separated fields of a token are read:
    whatever follows a further ':' changes nothing about the store. *)
Theorem further_fields_are_ignored row (t : Corpus.token) (more : string) (a : Np.ndarray2) :
  Corpus.well_formed t ->
  CorpusParser.assign row (String.append (Corpus.render_token t) (String ":" more)) a =
  CorpusParser.assign row (Corpus.render_token t) a.
Proof.
  intros Hwf. unfold CorpusParser.assign.
  assert (Hsplit : split ":" (String.append (Corpus.render_token t) (String ":" more)) =
                   fst t :: snd t :: split ":" more).
  { destruct Hwf as [[_ Ha] [_ Hb]]. unfold Corpus.render_token.
    rewrite string_append_assoc.
    change (String.append (String ":" (snd t)) (String ":" more))
      with (String ":" (String.append (snd t) (String ":" more))).
    rewrite split_append by (apply all_digits_free; [reflexivity|exact Ha]).
    f_equal.
    rewrite split_append by (apply all_digits_free; [reflexivity|exact Hb]).
    reflexivity. }
  rewrite Hsplit, (split_token t Hwf). reflexivity.
Qed.

Lemma further_fields_are_ignored_witness :
  Corpus.well_formed ("1", "3")%string /\
  CorpusParser.assign 0 "1:3:x:-7" [[0; 0]] = ([[3; 0]], Ok tt).
Proof.
  assert (Hwf : Corpus.well_formed ("1", "3")%string) by concrete.
  split; [exact Hwf|].
  exact (eq_trans (further_fields_are_ignored 0 ("1", "3")%string "x:-7" [[0; 0]] Hwf) eq_refl).
Defined.

(** X4.  An index from 1 - V to 0, for a row of V cells, is not rejected:
    the store lands V + index - 1 cells into the row, counted from its
    start, that is, it wraps around from the end. *)
Theorem nonpositive_index_wraps row (f0 f1 : string) i c x (a : Np.ndarray2) r :
  a !! row = Some r ->
  Corpus.free_of ":" f0 = true -> Corpus.free_of ":" f1 = true ->
  int f0 = Ok i -> int f1 = Ok c -> Float64.value_of_int c = Ok x ->
  1 - Z.of_nat (length r) <= i <= 0 ->
  CorpusParser.assign row (String.append f0 (String ":" f1)) a =
  (<[row := <[Z.to_nat (Z.of_nat (length r) + i - 1) := x]> r]> a, Ok tt).
Proof.
  intros Hrow H0 H1 Hi Hc Hx Hrange.
  unfold CorpusParser.assign, bindS, lift.
  rewrite (split_append _ _ _ H0), (split_free _ _ H1).
  unfold getitem. simpl. rewrite Hc, Hi.
  unfold Np.setitem. rewrite Hrow.
  unfold Np.normalize_index.
  destruct (i - 1 <? 0) eqn:E; [|apply Z.ltb_ge in E; lia].
  destruct (_ && _) eqn:E'.
  - rewrite Hx. do 4 f_equal. lia.
  - apply andb_false_iff in E' as [E'|E']; lia.
Qed.

Lemma nonpositive_index_wraps_witness :
  ([[0; 0; 0; 0]] !! 0%nat = Some [0; 0; 0; 0] /\
   Corpus.free_of ":" "-1" = true /\ Corpus.free_of ":" "5" = true /\
   int "-1" = Ok (-1) /\ int "5" = Ok 5 /\ Float64.value_of_int 5 = Ok 5 /\
   1 - Z.of_nat (length [0; 0; 0; 0]) <= -1 <= 0) /\
  CorpusParser.assign 0 "-1:5" [[0; 0; 0; 0]] = ([[0; 0; 5; 0]], Ok tt).
Proof.
  assert (Hrange : 1 - Z.of_nat (length [0; 0; 0; 0]) <= -1 <= 0) by (simpl; lia).
  split; [repeat split; try reflexivity; apply Hrange|].
  exact (nonpositive_index_wraps 0 "-1" "5" (-1) 5 5 [[0; 0; 0; 0]] [0; 0; 0; 0]
           eq_refl eq_refl eq_refl eq_refl eq_refl eq_refl Hrange).
Defined.

End Stores.

(** ** The matrix as a whole *)

Section Matrix.

Lemma setitem_length row k v (a : Np.ndarray2) :
  length (fst (Np.setitem row k v a)) = length a.
Proof.
  unfold Np.setitem.
  destruct (a !! row) as [r|]; [|reflexivity].
  destruct (Np.normalize_index (length r) k); [|reflexivity].
  destruct (Float64.value_of_int v); [|reflexivity].
  apply length_insert.
Qed.

Lemma assign_length row col (a : Np.ndarray2) :
  length (fst (CorpusParser.assign row col a)) = length a.
Proof.
  unfold CorpusParser.assign, bindS, lift.
  destruct (bind (getitem (split ":" col) 1) int); [|reflexivity].
  destruct (bind (getitem (split ":" col) 0) int); [|reflexivity].
  apply setitem_length.
Qed.

(** X5.  Whether the parsing cell completes or raises, the matrix it
    leaves has one row per line and vocabulary_size cells in every row. *)
Theorem bags_of_words_shape (word_counts : list string) V :
  length (fst (CorpusParser.bags_of_words word_counts V)) = length word_counts /\
  Forall (fun r => length r = V) (fst (CorpusParser.bags_of_words word_counts V)).
Proof.
  unfold CorpusParser.bags_of_words, CorpusParser.fill.
  set (Inv := fun a : Np.ndarray2 => length a = length word_counts /\ Corpus.shaped V a).
  apply (for_each_keeps Inv).
  - intros row a [Hlen Hshape]. unfold bindS, lift.
    destruct (getitem word_counts row) as [line|]; [|split; assumption].
    apply (for_each_keeps Inv); [|split; assumption].
    intros col a' [Hlen' Hshape']. split.
    + rewrite assign_length. exact Hlen'.
    + apply assign_shaped, Hshape'.
  - split.
    + unfold Np.zeros. apply length_replicate.
    + unfold Np.zeros, Corpus.shaped. apply Forall_replicate, length_replicate.
Qed.

Lemma find_app_last {A} (f : A -> bool) (l : list A) (x : A) :
  List.find f (rev (l ++ [x])) = if f x then Some x else List.find f (rev l).
Proof. rewrite rev_app_distr. reflexivity. Qed.

(** With in-range indices that may repeat, a cell holds the count of the
    last token that names it, or what it held before. *)
Lemma written_row_last V doc j : forall r,
  length r = V -> (j < V)%nat ->
  Forall (fun t => 1 <= Corpus.index t <= Z.of_nat V) doc ->
  Corpus.written_row V doc r !! j =
  match List.find (fun t => Corpus.index t =? Z.of_nat j + 1) (rev doc) with
  | Some t => Some (Corpus.count t)
  | None => r !! j
  end.
Proof.
  induction doc as [|t doc IH] using rev_ind; intros r Hlen Hj Hidx; [reflexivity|].
  apply Forall_app in Hidx as [Hdoc Ht]. inversion Ht as [|? ? Hrange _]; subst.
  rewrite written_row_app, find_app_last.
  change (Corpus.written_row (length r) [t] ?r0)
    with (<[Corpus.column (length r) (Corpus.index t) := Corpus.count t]> r0).
  destruct (Z.eqb_spec (Corpus.index t) (Z.of_nat j + 1)) as [Heq|Hne].
  - assert (Hcol : Corpus.column (length r) (Corpus.index t) = j)
      by (apply column_of_index; lia).
    rewrite Hcol. apply list_lookup_insert_eq.
    rewrite written_row_length. exact Hj.
  - rewrite list_lookup_insert_ne.
    + apply IH; assumption || reflexivity.
    + intros Hcol. apply Hne. apply (column_of_index (length r)); [lia|exact Hcol].
Qed.

(** X6.  When a line names a vocabulary position more than once, the
    last of its tokens wins: on lines of well-formed tokens with indices in
    [1, vocabulary_size] and counts up to 2^53, the cell completes and cell
    (i, j) holds the count of the last token of line i with index j+1, 0 when
    there is none. *)
Theorem last_token_wins V (docs : list (list Corpus.token)) :
  Forall (Lines.repeating_document V) docs ->
  exists M,
    CorpusParser.bags_of_words (map Corpus.render_line docs) V = (M, Ok tt) /\
    forall i doc j,
      docs !! i = Some doc -> (j < V)%nat ->
      exists r, M !! i = Some r /\ r !! j = Some (Lines.last_count_for doc j).
Proof.
  intros Hvalid.
  destruct V as [|V'].
  - destruct docs as [|doc docs].
    + exists []. split; [reflexivity|]. intros i doc j Hdoc. discriminate Hdoc.
    + inversion Hvalid as [|? ? [Hne [_ [_ Hidx]]] _]; subst.
      destruct doc as [|t doc]; [congruence|]. inversion Hidx; subst. lia.
  - eexists. split.
    + apply bags_of_words_written; [lia|].
      eapply Forall_impl; [exact Hvalid|].
      intros doc (Hne & Hwf & Hex & Hidx). repeat split; try assumption.
      eapply Forall_impl; [exact Hidx|]. simpl. lia.
    + intros i doc j Hdoc Hj.
      eexists. split; [rewrite list_lookup_fmap, Hdoc; reflexivity|].
      apply (Forall_lookup_1 _ _ _ _ Hvalid) in Hdoc as (_ & _ & _ & Hidx).
      rewrite (written_row_last (S V') doc j) by (assumption || apply length_replicate).
      unfold Lines.last_count_for.
      destruct (List.find _ (rev doc)); [reflexivity|].
      apply lookup_replicate_2. exact Hj.
Qed.

Lemma last_token_wins_witness :
  Forall (Lines.repeating_document 4) [[("2", "1"); ("3", "9"); ("2", "7")]]%string /\
  exists M,
    CorpusParser.bags_of_words ["2:1,3:9,2:7"%string] 4 = (M, Ok tt) /\
    exists r, M !! 0%nat = Some r /\ r !! 1%nat = Some 7.
Proof.
  assert (H : Forall (Lines.repeating_document 4)
                [[("2", "1"); ("3", "9"); ("2", "7")]]%string).
  { unfold Lines.repeating_document. concrete. }
  split; [exact H|].
  destruct (last_token_wins 4 _ H) as [M [HM Hcell]].
  exists M. split; [exact HM|].
  apply (Hcell 0%nat [("2", "1"); ("3", "9"); ("2", "7")]%string 1%nat); [reflexivity|lia].
Defined.

End Matrix.

(** ** Lines as the file has them *)

Section RawLines.

Lemma lstrip_spaces lead s :
  Lines.all_space lead = true ->
  Notebook.lstrip (String.append lead s) = Notebook.lstrip s.
Proof.
  unfold Lines.all_space.
  induction lead as [|c lead IH]; simpl; intros H; [reflexivity|].
  apply andb_true_iff in H as [Hc Hl]. rewrite Hc. apply IH, Hl.
Qed.

Lemma rstrip_spaces trail :
  Lines.all_space trail = true -> Notebook.rstrip trail = EmptyString.
Proof.
  unfold Lines.all_space.
  induction trail as [|c trail IH]; simpl; intros H; [reflexivity|].
  apply andb_true_iff in H as [Hc Hl]. rewrite (IH Hl), Hc. reflexivity.
Qed.

Lemma rstrip_append_spaces s trail :
  Lines.all_space trail = true ->
  Notebook.rstrip (String.append s trail) = Notebook.rstrip s.
Proof.
  intros H. induction s as [|c s IH]; simpl; [apply rstrip_spaces, H|].
  rewrite IH. reflexivity.
Qed.

(** Strings that end in a character other than white space. *)
Lemma rstrip_append_kept a b :
  b <> EmptyString -> Notebook.rstrip b = b ->
  Notebook.rstrip (String.append a b) = String.append a b.
Proof.
  intros Hne Hb. induction a as [|c a IH]; simpl; [exact Hb|].
  rewrite IH. destruct (String.append a b) eqn:E; [|reflexivity].
  destruct a; [simpl in E; congruence|discriminate E].
Qed.

Lemma digit_not_space c : is_digit c = true -> Notebook.isspace c = false.
Proof.
  intros H. destruct (Notebook.isspace c) eqn:E; [|reflexivity].
  unfold is_digit, Notebook.isspace in *. lia.
Qed.

Lemma rstrip_numeral s : Corpus.all_digits s = true -> Notebook.rstrip s = s.
Proof.
  unfold Corpus.all_digits.
  induction s as [|c s IH]; simpl; intros H; [reflexivity|].
  apply andb_true_iff in H as [Hc Hs].
  rewrite (IH Hs), (digit_not_space c Hc), andb_false_r. reflexivity.
Qed.

Lemma rstrip_token (t : Corpus.token) :
  Corpus.well_formed t ->
  Corpus.render_token t <> EmptyString /\
  Notebook.rstrip (Corpus.render_token t) = Corpus.render_token t.
Proof.
  intros [[Hane Ha] [Hbne Hb]]. unfold Corpus.render_token. split.
  - destruct (fst t); [congruence|discriminate].
  - change (String ":" (snd t)) with (String.append ":" (snd t)).
    rewrite <- string_append_assoc.
    apply rstrip_append_kept; [exact Hbne|apply rstrip_numeral, Hb].
Qed.

Lemma rstrip_line (doc : list Corpus.token) :
  doc <> [] -> Forall Corpus.well_formed doc ->
  Corpus.render_line doc <> EmptyString /\
  Notebook.rstrip (Corpus.render_line doc) = Corpus.render_line doc.
Proof.
  unfold Corpus.render_line.
  induction doc as [|t doc IH]; intros Hne Hwf; [congruence|].
  inversion Hwf as [|? ? Ht Hdoc]; subst.
  destruct doc as [|t' doc'].
  - simpl. apply rstrip_token, Ht.
  - destruct (IH ltac:(congruence) Hdoc) as [IHne IHr].
    change (Corpus.join "," (map Corpus.render_token (t :: t' :: doc')))
      with (String.append (Corpus.render_token t)
              (String "," (Corpus.join "," (map Corpus.render_token (t' :: doc'))))).
    split.
    + destruct (Corpus.render_token t); discriminate.
    + change (String "," ?x) with (String.append "," x).
      rewrite <- string_append_assoc.
      apply rstrip_append_kept; assumption.
Qed.

Lemma lstrip_line (doc : list Corpus.token) :
  doc <> [] -> Forall Corpus.well_formed doc ->
  Notebook.lstrip (Corpus.render_line doc) = Corpus.render_line doc.
Proof.
  intros Hne Hwf. destruct doc as [|t doc]; [congruence|].
  inversion Hwf as [|? ? [[Hane Ha] _] _]; subst.
  assert (Hhead : exists c rest, Corpus.render_line (t :: doc) = String c rest /\
                                 is_digit c = true).
  { unfold Corpus.render_line, Corpus.render_token.
    destruct (fst t) as [|c a] eqn:E; [congruence|].
    unfold Corpus.all_digits in Ha. simpl in Ha.
    apply andb_true_iff in Ha as [Hc _].
    destruct doc; simpl; rewrite E; simpl; eexists _, _; split; reflexivity || exact Hc. }
  destruct Hhead as (c & rest & -> & Hc).
  simpl. rewrite (digit_not_space c Hc). reflexivity.
Qed.

Lemma strip_raw (p : Lines.padded) :
  Lines.all_space (Lines.lead p) = true -> Lines.all_space (Lines.trail p) = true ->
  Lines.document p <> [] -> Forall Corpus.well_formed (Lines.document p) ->
  Notebook.strip (Lines.raw p) = Corpus.render_line (Lines.document p).
Proof.
  intros Hlead Htrail Hne Hwf. unfold Notebook.strip, Lines.raw.
  rewrite (lstrip_spaces _ _ Hlead).
  assert (Hl : Notebook.lstrip
                 (String.append (Corpus.render_line (Lines.document p)) (Lines.trail p)) =
               String.append (Corpus.render_line (Lines.document p)) (Lines.trail p)).
  { pose proof (lstrip_line _ Hne Hwf) as H.
    destruct (Corpus.render_line (Lines.document p)) as [|c rest] eqn:E.
    - destruct (rstrip_line _ Hne Hwf) as [Hne' _]. congruence.
    - simpl in *. destruct (Notebook.isspace c); [|reflexivity].
      exfalso. clear -H. 
      assert (Hlen : String.length (Notebook.lstrip rest) = S (String.length rest))
        by (rewrite H; reflexivity).
      assert (Hle : forall s, (String.length (Notebook.lstrip s) <= String.length s)%nat).
      { induction s as [|x s IHs]; simpl; [lia|]. destruct (Notebook.isspace x); simpl; lia. }
      specialize (Hle rest). lia. }
  rewrite Hl, (rstrip_append_spaces _ _ Htrail).
  apply rstrip_line; assumption.
Qed.

(** Stripping and parsing lines that hold valid documents. *)
Lemma strip_and_parse (nyt_vocab : list string) (lines : list Lines.padded) :
  Forall (Lines.valid (length nyt_vocab)) lines ->
  CorpusParser.bags_of_words (map Notebook.strip (map Lines.raw lines)) (length nyt_vocab) =
  (Corpus.dense (length nyt_vocab) (map Lines.document lines), Ok tt).
Proof.
  intros Hvalid.
  assert (Hstrip : map Notebook.strip (map Lines.raw lines) =
                   map Corpus.render_line (map Lines.document lines)).
  { rewrite !map_map. apply map_ext_Forall.
    eapply Forall_impl; [exact Hvalid|].
    intros p (Hlead & Htrail & [Hwf _] & Hne & _). apply strip_raw; assumption. }
  rewrite Hstrip.
  set (V := length nyt_vocab) in *.
  set (docs := map Lines.document lines).
  assert (Hdocs : Forall (fun doc => Corpus.sparse_document V doc /\ doc <> [] /\
                                     Forall Corpus.exact doc) docs).
  { unfold docs. apply Forall_fmap. eapply Forall_impl; [exact Hvalid|].
    intros p (_ & _ & Hs & Hne & Hex). simpl. repeat split; assumption || apply Hs. }
  destruct V as [|V'].
  - destruct docs as [|doc docs']; [reflexivity|].
    inversion Hdocs as [|? ? [[_ [Hidx _]] [Hne _]] _]; subst.
    destruct doc as [|t doc]; [congruence|]. inversion Hidx; subst. lia.
  - rewrite bags_of_words_written.
    + unfold Corpus.dense. f_equal. apply map_ext_Forall.
      eapply Forall_impl; [exact Hdocs|].
      intros doc [Hsparse _]. apply written_row_dense, Hsparse.
    + lia.
    + eapply Forall_impl; [exact Hdocs|].
      intros doc [[Hwf [Hidx _]] [Hne Hex]]. repeat split; try assumption.
      eapply Forall_impl; [exact Hidx|]. simpl. lia.
Qed.

(** X7.  The white space around a line, the newline that [readlines] keeps
    among it, never reaches the parser: for valid sparse documents (at least
    one token each, counts up to 2^53) written with any white space before
    and after, the data preparation cell followed by the parsing cell gives
    the dense matrix of the documents. *)
Theorem raw_lines_parse (nyt_vocab : list string) (lines : list Lines.padded) :
  Forall (fun p =>
            Lines.all_space (Lines.lead p) = true /\
            Lines.all_space (Lines.trail p) = true /\
            Corpus.sparse_document (length nyt_vocab) (Lines.document p) /\
            Lines.document p <> [] /\
            Forall Corpus.exact (Lines.document p)) lines ->
  let '(word_counts, vocabulary_size) := Notebook.load_cell (map Lines.raw lines) nyt_vocab in
  CorpusParser.bags_of_words word_counts vocabulary_size =
  (Corpus.dense (length nyt_vocab) (map Lines.document lines), Ok tt).
Proof.
  intros Hvalid. unfold Notebook.load_cell.
  assert (Hstrip : map Notebook.strip (map Lines.raw lines) =
                   map Corpus.render_line (map Lines.document lines)).
  { rewrite !map_map. apply map_ext_Forall.
    eapply Forall_impl; [exact Hvalid|].
    intros p (Hlead & Htrail & [Hwf _] & Hne & _). apply strip_raw; assumption. }
  rewrite Hstrip.
  set (V := length nyt_vocab) in *.
  set (docs := map Lines.document lines).
  assert (Hdocs : Forall (fun doc => Corpus.sparse_document V doc /\ doc <> [] /\
                                     Forall Corpus.exact doc) docs).
  { unfold docs. apply Forall_fmap. eapply Forall_impl; [exact Hvalid|].
    intros p (_ & _ & Hs & Hne & Hex). simpl. repeat split; assumption || apply Hs. }
  destruct V as [|V'].
  - destruct docs as [|doc docs']; [reflexivity|].
    inversion Hdocs as [|? ? [[_ [Hidx _]] [Hne _]] _]; subst.
    destruct doc as [|t doc]; [congruence|]. inversion Hidx; subst. lia.
  - rewrite bags_of_words_written.
    + unfold Corpus.dense. f_equal. apply map_ext_Forall.
      eapply Forall_impl; [exact Hdocs|].
      intros doc [Hsparse _]. apply written_row_dense, Hsparse.
    + lia.
    + eapply Forall_impl; [exact Hdocs|].
      intros doc [[Hwf [Hidx _]] [Hne Hex]]. repeat split; try assumption.
      eapply Forall_impl; [exact Hidx|]. simpl. lia.
Qed.

End RawLines.

Lemma raw_lines_parse_witness :
  let newline := String "010"%char EmptyString in
  let lines :=
    [ {| Lines.lead := " "; Lines.document := [("1", "3"); ("2", "1")]%string;
         Lines.trail := newline |};
      {| Lines.lead := ""; Lines.document := [("4", "7")]%string;
         Lines.trail := newline |} ] in
  Forall (fun p =>
            Lines.all_space (Lines.lead p) = true /\
            Lines.all_space (Lines.trail p) = true /\
            Corpus.sparse_document 4 (Lines.document p) /\
            Lines.document p <> [] /\
            Forall Corpus.exact (Lines.document p)) lines /\
  map Lines.raw lines = [String.append " 1:3,2:1" newline; String.append "4:7" newline] /\
  CorpusParser.bags_of_words
    (map Notebook.strip [String.append " 1:3,2:1" newline; String.append "4:7" newline]) 4 =
  ([[3; 1; 0; 0]; [0; 0; 0; 7]], Ok tt).
Proof.
  intros newline lines.
  assert (H : Forall (fun p =>
            Lines.all_space (Lines.lead p) = true /\
            Lines.all_space (Lines.trail p) = true /\
            Corpus.sparse_document 4 (Lines.document p) /\
            Lines.document p <> [] /\
            Forall Corpus.exact (Lines.document p)) lines) by (unfold lines; concrete).
  split; [exact H|]. split; [reflexivity|].
  exact (raw_lines_parse ["a"; "b"; "c"; "d"]%string lines H).
Defined.

(** ** The two halves of the split *)

Section Halves.

(** The split cell, in closed form. *)
Lemma split_cell_value (bags_of_words : Np.ndarray2) :
  let n := Z.min (Np.shape0 bags_of_words) 10000 in
  let t := 95 * n / 100 in
  DatasetSplitter.split_cell bags_of_words =
  Ok {| DatasetSplitter.nbags_of_words := n;
        DatasetSplitter.ntopics := 10;
        DatasetSplitter.nbags_of_words_training := t;
        DatasetSplitter.nbags_of_words_test := n - t;
        DatasetSplitter.bags_of_words_training := take (Z.to_nat t) bags_of_words;
        DatasetSplitter.bags_of_words_test :=
          take (Z.to_nat (n - t)) (drop (Z.to_nat t) bags_of_words) |}.
Proof.
  cbv zeta. unfold DatasetSplitter.split_cell, Np.shape0.
  set (n := Z.min (Z.of_nat (length bags_of_words)) 10000).
  assert (Hn : 0 <= n <= 10000) by lia.
  rewrite (training_count_floor n Hn). simpl bind.
  assert (Ht : 0 <= 95 * n / 100 <= n).
  { split; [apply Z.div_pos; lia|]. apply Z.div_le_upper_bound; lia. }
  rewrite !slice_take_drop by lia. simpl Z.to_nat. rewrite drop_0, Z.sub_0_r.
  reflexivity.
Qed.

(** X8.  The split loses and repeats nothing below the cap: the training
    rows followed by the test rows are exactly the first
    min(10000, total_rows) rows of the matrix, in order; rows past the cap
    are in neither half. *)
Theorem split_is_a_partition (bags_of_words : Np.ndarray2) :
  exists s,
    DatasetSplitter.split_cell bags_of_words = Ok s /\
    DatasetSplitter.bags_of_words_training s ++ DatasetSplitter.bags_of_words_test s =
    take (Z.to_nat (Z.min (Np.shape0 bags_of_words) 10000)) bags_of_words.
Proof.
  eexists. split; [apply split_cell_value|]. cbn [DatasetSplitter.bags_of_words_training
    DatasetSplitter.bags_of_words_test].
  set (n := Z.min (Np.shape0 bags_of_words) 10000).
  set (t := 95 * n / 100).
  assert (Hn : 0 <= n) by (unfold n, Np.shape0; lia).
  assert (Ht : 0 <= t <= n).
  { unfold t. split; [apply Z.div_pos; lia|]. apply Z.div_le_upper_bound; lia. }
  replace (Z.to_nat n) with (Z.to_nat t + Z.to_nat (n - t))%nat by lia.
  apply take_take_drop.
Qed.

Lemma floor_95_percent n :
  0 <= n -> (1 <= n -> 95 * n / 100 < n) /\ (95 * n / 100 = 0 <-> n <= 1).
Proof.
  intros Hn. split.
  - intros H1. apply Z.div_lt_upper_bound; lia.
  - split.
    + intros Hz. destruct (Z.le_gt_cases n 1) as [Hle|Hgt]; [exact Hle|].
      assert (1 <= 95 * n / 100) by (apply Z.div_le_lower_bound; lia). lia.
    + intros Hle. apply Z.div_small. lia.
Qed.

(** X9.  The held-out half is never empty for a matrix with rows, and the
    training half is empty exactly when the matrix has at most one row: a
    one-document corpus is all test and no training. *)
Theorem split_small_corpora (bags_of_words : Np.ndarray2) :
  exists s,
    DatasetSplitter.split_cell bags_of_words = Ok s /\
    (bags_of_words <> [] -> DatasetSplitter.bags_of_words_test s <> []) /\
    (DatasetSplitter.bags_of_words_training s = [] <-> (length bags_of_words <= 1)%nat).
Proof.
  eexists. split; [apply split_cell_value|]. cbn [DatasetSplitter.bags_of_words_training
    DatasetSplitter.bags_of_words_test].
  set (n := Z.min (Np.shape0 bags_of_words) 10000).
  set (t := 95 * n / 100).
  assert (Hn : 0 <= n) by (unfold n, Np.shape0; lia).
  assert (Ht : 0 <= t <= n).
  { unfold t. split; [apply Z.div_pos; lia|]. apply Z.div_le_upper_bound; lia. }
  split.
  - intros Hne Hempty.
    apply (f_equal length) in Hempty. rewrite length_take, length_drop in Hempty.
    simpl in Hempty.
    assert (Hlen : (0 < length bags_of_words)%nat)
      by (destruct bags_of_words; [congruence|simpl; lia]).
    assert (Hlt : t < n).
    { apply (floor_95_percent n Hn). unfold n, Np.shape0. lia. }
    unfold n, Np.shape0 in *. lia.
  - split.
    + intros Hempty. apply (f_equal length) in Hempty. rewrite length_take in Hempty.
      simpl in Hempty.
      assert (Hzero : t = 0 \/ length bags_of_words = 0%nat) by lia.
      destruct Hzero as [Hzero|Hzero]; [|lia].
      apply (floor_95_percent n Hn) in Hzero. unfold n, Np.shape0 in Hzero. lia.
    + intros Hlen.
      assert (Hzero : t = 0).
      { apply (floor_95_percent n Hn). unfold n, Np.shape0. lia. }
      rewrite Hzero. reflexivity.
Qed.

End Halves.

(** ** Runs of the pipeline *)

Section RunSteps.

Context {R : Type}.

Lemma then_assoc {A B C} (m : cell R A) (k : A -> cell R B) (k' : B -> cell R C) r :
  then_ (then_ m k) k' r = then_ m (fun a => then_ (k a) k') r.
Proof.
  unfold then_. destruct (outcome (m r)) as [a|e]; cbn [outcome final trace]; [|reflexivity].
  destruct (outcome (k a (final (m r)))); cbn [outcome final trace];
    rewrite ?app_assoc; reflexivity.
Qed.

Lemma then_pure {A B} (a : A) (k : A -> cell R B) r : then_ (pure a) k r = k a r.
Proof. unfold then_, pure. cbn [outcome final trace]. destruct (k a r). reflexivity. Qed.

Lemma trace_then_call_cons {A B} ev (op : R -> R * result A) (k : A -> cell R B) r :
  trace (then_ (call ev op) k r) =
  ev :: match snd (op r) with
        | Ok a => trace (k a (fst (op r)))
        | Raise _ => []
        end.
Proof. unfold then_, call. cbn [outcome final trace]. destruct (snd (op r)); reflexivity. Qed.

Lemma Forall_trace_then_local {A B} (P : event -> Prop) (x : result A) (k : A -> cell R B) r :
  (forall a, x = Ok a -> Forall P (trace (k a r))) ->
  Forall P (trace (then_ (local_ x) k r)).
Proof.
  intros H. destruct x as [a|e]; [|constructor].
  rewrite then_local_Ok. apply H. reflexivity.
Qed.

Lemma deleted_last_then {A B} (m : cell R A) (k : A -> cell R B) r :
  Forall Runs.not_delete (trace (m r)) ->
  (forall a r', Runs.deleted_last (k a r')) ->
  Runs.deleted_last (then_ m k r).
Proof.
  intros Hm Hk. unfold Runs.deleted_last, then_.
  destruct (outcome (m r)) as [a|e]; cbn [outcome final trace].
  - destruct (Hk a (final (m r))) as [pre [Hpre [[Ht Hraise]|[ep Ht]]]].
    + exists (trace (m r) ++ pre). split; [apply Forall_app; split; assumption|].
      left. rewrite Ht. split; [reflexivity|exact Hraise].
    + exists (trace (m r) ++ pre). split; [apply Forall_app; split; assumption|].
      right. exists ep. rewrite Ht. apply app_assoc.
  - exists (trace (m r)). split; [exact Hm|]. left. split; reflexivity.
Qed.

Lemma count_app f (t1 t2 : list event) :
  Runs.count f (t1 ++ t2) = (Runs.count f t1 + Runs.count f t2)%nat.
Proof. unfold Runs.count. rewrite List.filter_app, length_app. reflexivity. Qed.

Lemma at_most_then {A B} f a b (m : cell R A) (k : A -> cell R B) :
  Runs.at_most f a m -> (forall x, Runs.at_most f b (k x)) ->
  Runs.at_most f (a + b) (then_ m k).
Proof.
  intros Hm Hk r. unfold then_.
  specialize (Hm r).
  destruct (outcome (m r)) as [x|e]; cbn [trace]; [|lia].
  rewrite count_app. specialize (Hk x (final (m r))). lia.
Qed.

Lemma at_most_call_hit {A} f ev (op : R -> R * result A) :
  Runs.at_most f 1 (call ev op).
Proof. intros r. unfold call, Runs.count. cbn [trace List.filter]. destruct (f ev); simpl; lia. Qed.

Lemma at_most_call_miss {A} f ev (op : R -> R * result A) :
  f ev = false -> Runs.at_most f 0 (call ev op).
Proof. intros H r. unfold call, Runs.count. cbn [trace List.filter]. rewrite H. simpl. lia. Qed.

Lemma at_most_emit_miss f ev : f ev = false -> Runs.at_most (R := R) f 0 (emit ev).
Proof. intros H r. unfold emit, Runs.count. cbn [trace List.filter]. rewrite H. simpl. lia. Qed.

Lemma at_most_pure {A} f (a : A) : Runs.at_most (R := R) f 0 (pure a).
Proof. intros r. reflexivity. Qed.

Lemma at_most_local {A} f (x : result A) : Runs.at_most (R := R) f 0 (local_ x).
Proof. intros r. reflexivity. Qed.

Lemma at_most_try f a b (body : cell R unit) handler :
  Runs.at_most f a body -> (forall message, Runs.at_most f b (handler message)) ->
  Runs.at_most f (a + b) (try_except_RuntimeError body handler).
Proof.
  intros Hb Hh r. unfold try_except_RuntimeError.
  specialize (Hb r).
  destruct (outcome (body r)) as [|[]]; try lia.
  cbn [trace]. rewrite count_app. specialize (Hh message (final (body r))). lia.
Qed.

Lemma at_most_weaken {A} f a b (m : cell R A) :
  Runs.at_most f a m -> (a <= b)%nat -> Runs.at_most f b m.
Proof. intros H Hab r. specialize (H r). lia. Qed.

End RunSteps.

Ltac count_steps :=
  repeat match goal with
    | |- forall _, Runs.at_most _ _ _ => intro
    | |- Runs.at_most _ _ (match ?p with (_, _) => _ end) => destruct p
    | |- Runs.at_most _ _ (then_ _ _) => eapply at_most_then
    | |- Runs.at_most _ _ (try_except_RuntimeError _ _) => eapply at_most_try
    | |- Runs.at_most _ _ (call _ _) =>
        first [eapply at_most_call_miss; reflexivity | eapply at_most_call_hit]
    | |- Runs.at_most _ _ (emit _) => eapply at_most_emit_miss; reflexivity
    | |- Runs.at_most _ _ (pure _) => eapply at_most_pure
    | |- Runs.at_most _ _ (local_ _) => eapply at_most_local
    end.

Section PipelineRuns.

Context {R : Type} (k : sdk R).

(** The parsing cell raises on a malformed token. *)
Lemma bags_of_words_malformed V (word_counts : list string) row line col :
  word_counts !! row = Some line ->
  In col (split "," line) ->
  Corpus.malformed V col ->
  exists e,
    snd (CorpusParser.bags_of_words word_counts V) = Raise e /\ Corpus.parse_error e.
Proof.
  intros Hline Hcol Hbad.
  unfold CorpusParser.bags_of_words, CorpusParser.fill.
  set (body := fun row : nat => _).
  set (a0 := Np.zeros (length word_counts) V).
  assert (Ha0 : Corpus.shaped V a0).
  { unfold a0, Np.zeros, Corpus.shaped. apply Forall_replicate, length_replicate. }
  assert (Hraise : exists e, snd (for_each (seq 0 (length word_counts)) body a0) = Raise e).
  { apply (for_each_raises (Corpus.shaped V) body row).
    - apply in_seq. apply lookup_lt_Some in Hline. lia.
    - intros y s. apply row_shaped.
    - intros s Hs. unfold body, bindS, lift, getitem. rewrite Hline.
      apply (for_each_raises (Corpus.shaped V) _ col); [exact Hcol| | |exact Hs].
      + intros y s'. apply assign_shaped.
      + intros s' Hs'. apply (assign_malformed V); assumption.
    - exact Ha0. }
  destruct Hraise as [e He]. exists e. split; [exact He|].
  revert He. apply for_each_raised. clear.
  intros y s e. unfold body, bindS, lift.
  destruct (getitem word_counts y) as [line|e'] eqn:E.
  - apply for_each_raised. intros col s' e''. apply assign_raised.
  - simpl. intros [= <-]. apply getitem_raised in E. left. exact E.
Qed.

Lemma bags_of_words_length (word_counts : list string) V :
  length (fst (CorpusParser.bags_of_words word_counts V)) = length word_counts.
Proof.
  unfold CorpusParser.bags_of_words, CorpusParser.fill.
  apply (for_each_keeps (fun a : Np.ndarray2 => length a = length word_counts)).
  - intros row a Hlen. unfold bindS, lift.
    destruct (getitem word_counts row) as [line|]; [|exact Hlen].
    apply (for_each_keeps (fun a : Np.ndarray2 => length a = length word_counts));
      [|exact Hlen].
    intros col a' Hlen'. rewrite assign_length. exact Hlen'.
  - unfold Np.zeros. apply length_replicate.
Qed.

(** The pipeline once parsing and splitting have gone through. *)
Lemma pipeline_after_split cred nyt_data nyt_vocab r s :
  snd (CorpusParser.bags_of_words (map Notebook.strip nyt_data) (length nyt_vocab)) = Ok tt ->
  DatasetSplitter.split_cell
    (fst (CorpusParser.bags_of_words (map Notebook.strip nyt_data) (length nyt_vocab))) = Ok s ->
  Notebook.pipeline k cred nyt_data nyt_vocab r =
  then_ (Notebook.train k cred (length nyt_vocab) s)
    (fun fname =>
       then_ (Notebook.download_cell k cred fname) (fun _ =>
       then_ (Notebook.deploy_cell k) (fun endpoint =>
       then_ (Notebook.predict_cells k endpoint (DatasetSplitter.bags_of_words_test s))
         (fun _ => Notebook.delete_endpoint_cell k endpoint)))) r.
Proof.
  intros Hparse Hsplit. unfold Notebook.pipeline, Notebook.load_cell.
  rewrite Hparse, then_local_Ok, Hsplit, then_local_Ok. reflexivity.
Qed.

(** The pipeline when parsing or splitting raises. *)
Lemma pipeline_before_split cred nyt_data nyt_vocab r e :
  snd (CorpusParser.bags_of_words (map Notebook.strip nyt_data) (length nyt_vocab)) = Raise e ->
  Notebook.pipeline k cred nyt_data nyt_vocab r =
  {| final := r; trace := []; outcome := Raise e |}.
Proof.
  intros Hparse. unfold Notebook.pipeline, Notebook.load_cell.
  rewrite Hparse. reflexivity.
Qed.

(** X10.  A malformed token anywhere in the data file stops the run in
    the parsing cell: the pipeline raises Python's IndexError, ValueError or
    OverflowError and nothing has left the notebook -- no upload, no
    training job, no endpoint. *)
Theorem malformed_corpus_reaches_nothing cred nyt_data nyt_vocab r row line col :
  map Notebook.strip nyt_data !! row = Some line ->
  In col (split "," line) ->
  Corpus.malformed (length nyt_vocab) col ->
  trace (Notebook.pipeline k cred nyt_data nyt_vocab r) = [] /\
  final (Notebook.pipeline k cred nyt_data nyt_vocab r) = r /\
  exists e,
    outcome (Notebook.pipeline k cred nyt_data nyt_vocab r) = Raise e /\
    Corpus.parse_error e.
Proof.
  intros Hline Hcol Hbad.
  destruct (bags_of_words_malformed _ _ _ _ _ Hline Hcol Hbad) as [e [He Hkind]].
  rewrite (pipeline_before_split _ _ _ _ _ He).
  split; [reflexivity|]. split; [reflexivity|]. exists e. split; [reflexivity|exact Hkind].
Qed.

Lemma cells_do_not_delete cred V s fname endpoint rows r :
  Forall Runs.not_delete (trace (Notebook.train k cred V s r)) /\
  Forall Runs.not_delete (trace (Notebook.download_cell k cred fname r)) /\
  Forall Runs.not_delete (trace (Notebook.deploy_cell k r)) /\
  Forall Runs.not_delete (trace (Notebook.predict_cells k endpoint rows r)).
Proof.
  unfold Notebook.train, Notebook.upload_cell, Notebook.container_cell,
    Notebook.estimator_cell, Notebook.training_cell, Notebook.job_name_cell,
    Notebook.download_cell, Notebook.deploy_cell, Notebook.predict_cells.
  repeat split; trace_steps; try destruct a; trace_steps;
    intros ep Hev; discriminate Hev.
Qed.

(** X12.  The endpoint is deleted by the last cell only: a run that
    deletes an endpoint does so as its final step, and a run in which a cell
    raises before that -- a query against the freshly deployed endpoint,
    say -- ends without any deletion. *)
Theorem endpoint_is_deleted_last cred nyt_data nyt_vocab r :
  Runs.deleted_last (Notebook.pipeline k cred nyt_data nyt_vocab r).
Proof.
  destruct (snd (CorpusParser.bags_of_words (map Notebook.strip nyt_data) (length nyt_vocab)))
    as [[]|e] eqn:Hparse.
  - destruct (split_cell_training_rows
                (fst (CorpusParser.bags_of_words (map Notebook.strip nyt_data)
                        (length nyt_vocab)))) as [s [Hsplit _]].
    rewrite (pipeline_after_split _ _ _ _ _ Hparse Hsplit).
    pose proof (fun fname ep rows r' =>
      cells_do_not_delete cred (length nyt_vocab) s fname ep rows r') as Hcells.
    apply deleted_last_then; [apply (Hcells EmptyString EmptyString [] r)|]. intros fname r1.
    apply deleted_last_then; [apply (Hcells fname EmptyString [] r1)|]. intros ? r2.
    apply deleted_last_then; [apply (Hcells fname EmptyString [] r2)|]. intros ep r3.
    apply deleted_last_then; [apply (Hcells fname ep _ r3)|]. intros ? r4.
    exists []. split; [constructor|]. right. exists ep. reflexivity.
  - rewrite (pipeline_before_split _ _ _ _ _ Hparse).
    exists []. split; [constructor|]. left. split; reflexivity.
Qed.

Lemma train_fits_once cred V s : Runs.at_most Runs.is_fit 1 (Notebook.train k cred V s).
Proof.
  unfold Notebook.train, Notebook.upload_cell, Notebook.container_cell,
    Notebook.estimator_cell, Notebook.training_cell, Notebook.job_name_cell.
  eapply at_most_weaken; [count_steps|]. simpl. lia.
Qed.

Lemma train_deploys_never cred V s : Runs.at_most Runs.is_deploy 0 (Notebook.train k cred V s).
Proof.
  unfold Notebook.train, Notebook.upload_cell, Notebook.container_cell,
    Notebook.estimator_cell, Notebook.training_cell, Notebook.job_name_cell.
  eapply at_most_weaken; [count_steps|]. simpl. lia.
Qed.

Lemma after_training_counts cred fname rows :
  Runs.at_most Runs.is_fit 0
    (then_ (Notebook.download_cell k cred fname) (fun _ =>
     then_ (Notebook.deploy_cell k) (fun endpoint =>
     then_ (Notebook.predict_cells k endpoint rows)
       (fun _ => Notebook.delete_endpoint_cell k endpoint)))) /\
  Runs.at_most Runs.is_deploy 1
    (then_ (Notebook.download_cell k cred fname) (fun _ =>
     then_ (Notebook.deploy_cell k) (fun endpoint =>
     then_ (Notebook.predict_cells k endpoint rows)
       (fun _ => Notebook.delete_endpoint_cell k endpoint)))).
Proof.
  unfold Notebook.download_cell, Notebook.deploy_cell, Notebook.predict_cells,
    Notebook.delete_endpoint_cell.
  split; [eapply at_most_weaken; [count_steps|]
         |eapply at_most_weaken; [count_steps|]]; simpl; lia.
Qed.

(** X13.  Nothing is retried: whatever the provider answers, a run of the
    pipeline calls fit at most once and deploy at most once. *)
Theorem nothing_is_retried cred nyt_data nyt_vocab r :
  (Runs.count Runs.is_fit (trace (Notebook.pipeline k cred nyt_data nyt_vocab r)) <= 1)%nat /\
  (Runs.count Runs.is_deploy (trace (Notebook.pipeline k cred nyt_data nyt_vocab r)) <= 1)%nat.
Proof.
  destruct (snd (CorpusParser.bags_of_words (map Notebook.strip nyt_data) (length nyt_vocab)))
    as [[]|e] eqn:Hparse.
  - destruct (split_cell_training_rows
                (fst (CorpusParser.bags_of_words (map Notebook.strip nyt_data)
                        (length nyt_vocab)))) as [s [Hsplit _]].
    rewrite (pipeline_after_split _ _ _ _ _ Hparse Hsplit).
    split.
    + apply (at_most_then Runs.is_fit 1 0); [apply train_fits_once|].
      intros fname. apply after_training_counts.
    + apply (at_most_then Runs.is_deploy 0 1); [apply train_deploys_never|].
      intros fname. apply after_training_counts.
  - rewrite (pipeline_before_split _ _ _ _ _ Hparse). split; cbv [trace Runs.count List.filter length]; lia.
Qed.

End PipelineRuns.

Lemma malformed_corpus_reaches_nothing_witness :
  let newline := String "010"%char EmptyString in
  let k := Account.sagemaker (Ok tt) (LoadedList [Account.alpha3; Account.beta2x2]) in
  let nyt_data := [String.append "1:3,2:1" newline; String.append "2:x" newline] in
  let nyt_vocab := ["a"; "b"; "c"; "d"]%string in
  let run := Notebook.pipeline k Account.cred nyt_data nyt_vocab (Account.start []) in
  (map Notebook.strip nyt_data !! 1%nat = Some "2:x"%string /\
   In "2:x"%string (split "," "2:x") /\
   Corpus.malformed (length nyt_vocab) "2:x") /\
  trace run = [] /\ final run = Account.start [] /\ outcome run = Raise ValueError.
Proof.
  intros newline k nyt_data nyt_vocab run.
  assert (Hline : map Notebook.strip nyt_data !! 1%nat = Some "2:x"%string) by reflexivity.
  assert (Hin : In "2:x"%string (split "," "2:x")) by (left; reflexivity).
  assert (Hbad : Corpus.malformed (length nyt_vocab) "2:x").
  { apply (Corpus.non_integer_field _ _ 1 "x"); [lia|reflexivity|reflexivity]. }
  split; [split; [exact Hline|split; assumption]|].
  destruct (malformed_corpus_reaches_nothing k Account.cred nyt_data nyt_vocab
              (Account.start []) 1 "2:x" "2:x" Hline Hin Hbad) as [Ht [Hf _]].
  split; [exact Ht|]. split; [exact Hf|]. reflexivity.
Defined.

(** ** What leaves the notebook *)

Section Sent.

Context {R : Type} (k : sdk R).

Lemma slice_first {A} (l : list A) (n : nat) : slice l 0 (Z.of_nat n) = take n l.
Proof.
  unfold slice, slice_bound. change (0 <? 0) with false. cbv iota.
  destruct (Z.of_nat n <? 0) eqn:E; [apply Z.ltb_lt in E; lia|].
  replace (Z.max 0 (Z.min (Z.of_nat (length l)) 0)) with 0 by lia.
  rewrite Z.sub_0_r. simpl Z.to_nat. rewrite drop_0.
  destruct (Nat.le_gt_cases n (length l)) as [Hle|Hgt].
  - f_equal. lia.
  - rewrite !take_ge by lia. reflexivity.
Qed.

Lemma outcome_then_inv {A B} (m : cell R A) (f : A -> cell R B) r b :
  outcome (then_ m f r) = Ok b ->
  exists a, outcome (m r) = Ok a /\ outcome (f a (final (m r))) = Ok b.
Proof.
  unfold then_. destruct (outcome (m r)) as [a|e]; cbn [outcome]; [|discriminate].
  intros H. exists a. split; [reflexivity|exact H].
Qed.

Lemma Forall_trace_then_outcome {A B} (P : event -> Prop) (m : cell R A) (f : A -> cell R B) r :
  Forall P (trace (m r)) ->
  (forall a, outcome (m r) = Ok a -> Forall P (trace (f a (final (m r))))) ->
  Forall P (trace (then_ m f r)).
Proof.
  intros Hm Hf. rewrite trace_then. apply Forall_app. split; [exact Hm|].
  destruct (outcome (m r)) as [a|e]; [apply Hf; reflexivity|constructor].
Qed.

(** The training section hands on the name under which the training data
    went out. *)
Lemma train_returns_fname cred V s r fname :
  outcome (Notebook.train k cred V s r) = Ok fname -> fname = "lda.data"%string.
Proof.
  unfold Notebook.train. intros H.
  apply outcome_then_inv in H as [[fname' uri] [Hup H]].
  unfold Notebook.upload_cell in Hup.
  apply outcome_then_inv in Hup as [buf [_ Hup]].
  apply outcome_then_inv in Hup as [[] [_ Hup]].
  injection Hup as <- _.
  apply outcome_then_inv in H as [c [_ H]].
  apply outcome_then_inv in H as [[] [_ H]].
  apply outcome_then_inv in H as [[] [_ H]].
  apply outcome_then_inv in H as [[] [_ H]].
  injection H as <-. reflexivity.
Qed.

(** X14.  Only the split halves leave the notebook, each to its own
    service: in every run the rows given to the record serializer are the
    training rows, the first floor(0.95 n) rows of the matrix for
    n = min(10000, rows), and the rows given to the endpoint are the test
    rows that follow them up to n, or the first three of these. *)
Theorem rows_sent_are_the_split_halves cred nyt_data nyt_vocab r :
  let bags_of_words :=
    fst (CorpusParser.bags_of_words (map Notebook.strip nyt_data) (length nyt_vocab)) in
  let n := Z.min (Np.shape0 bags_of_words) 10000 in
  let t := 95 * n / 100 in
  Forall (Runs.rows_sent (take (Z.to_nat t) bags_of_words)
            (take (Z.to_nat (n - t)) (drop (Z.to_nat t) bags_of_words)))
    (trace (Notebook.pipeline k cred nyt_data nyt_vocab r)).
Proof.
  cbv zeta.
  destruct (snd (CorpusParser.bags_of_words (map Notebook.strip nyt_data) (length nyt_vocab)))
    as [[]|e] eqn:Hparse.
  - pose proof (split_cell_value
                  (fst (CorpusParser.bags_of_words (map Notebook.strip nyt_data)
                          (length nyt_vocab)))) as Hsplit.
    cbv zeta in Hsplit.
    rewrite (pipeline_after_split _ _ _ _ _ _ Hparse Hsplit).
    cbn [DatasetSplitter.bags_of_words_test].
    unfold Notebook.train, Notebook.upload_cell, Notebook.container_cell,
      Notebook.estimator_cell, Notebook.training_cell, Notebook.job_name_cell,
      Notebook.download_cell, Notebook.deploy_cell, Notebook.predict_cells,
      Notebook.delete_endpoint_cell.
    cbn [DatasetSplitter.bags_of_words_training].
    trace_steps;
      try match goal with p : (string * string)%type |- _ => destruct p end;
      trace_steps;
      first [exact I | reflexivity | left; apply (slice_first _ 3) | right; reflexivity].
  - rewrite (pipeline_before_split _ _ _ _ _ _ Hparse). constructor.
Qed.

Lemma download_fetches cred r :
  Forall (Runs.fetches cred) (trace (Notebook.download_cell k cred "lda.data" r)).
Proof.
  unfold Notebook.download_cell.
  apply Forall_trace_then; [apply Forall_trace_call; exact I|]. intros job_name r1.
  apply Forall_trace_then.
  { apply Forall_trace_call. split; [reflexivity|]. split; [reflexivity|].
    exists job_name. reflexivity. }
  intros _ r2.
  apply Forall_trace_then; [apply Forall_trace_call; reflexivity|]. intros _ r3.
  apply Forall_trace_then; [apply Forall_trace_call; exact I|]. intros names r4.
  apply Forall_trace_then_local. intros model_fname Hfirst.
  apply Forall_trace_then; [|intros; apply Forall_trace_local].
  apply Forall_trace_call.
  unfold getitem in Hfirst.
  destruct (Notebook.model_list names !! 0%nat) as [x|] eqn:E; [|discriminate].
  injection Hfirst as <-.
  apply list_elem_of_lookup_2, list_elem_of_In in E.
  unfold Notebook.model_list in E. apply List.filter_In in E. apply E.
Qed.

(** X15.  The model tarball takes the data file's name: in every run the
    download cell fetches model.tar.gz of some job from under the prefix in
    the configured bucket, saves and unpacks it as lda.data -- the variable
    fname still holds the name chosen for the training data -- and decodes
    parameters only from directory entries whose names start with model_. *)
Theorem tarball_is_saved_as_the_data_file cred nyt_data nyt_vocab r :
  Forall (Runs.fetches cred) (trace (Notebook.pipeline k cred nyt_data nyt_vocab r)).
Proof.
  destruct (snd (CorpusParser.bags_of_words (map Notebook.strip nyt_data) (length nyt_vocab)))
    as [[]|e] eqn:Hparse.
  - destruct (split_cell_training_rows
                (fst (CorpusParser.bags_of_words (map Notebook.strip nyt_data)
                        (length nyt_vocab)))) as [s [Hsplit _]].
    rewrite (pipeline_after_split _ _ _ _ _ _ Hparse Hsplit).
    apply Forall_trace_then_outcome.
    + unfold Notebook.train, Notebook.upload_cell, Notebook.container_cell,
        Notebook.estimator_cell, Notebook.training_cell, Notebook.job_name_cell.
      trace_steps;
        try match goal with p : (string * string)%type |- _ => destruct p end;
        trace_steps; exact I.
    + intros fname Hfname. apply train_returns_fname in Hfname. subst fname.
      apply Forall_trace_then; [apply download_fetches|]. intros _ r1.
      unfold Notebook.deploy_cell, Notebook.predict_cells, Notebook.delete_endpoint_cell.
      trace_steps; exact I.
  - rewrite (pipeline_before_split _ _ _ _ _ _ Hparse). constructor.
Qed.

Lemma then_call_raises {A B} ev (op : R -> R * result A) (f : A -> cell R B) r :
  is_Ok (snd (op r)) = false ->
  trace (then_ (call ev op) f r) = [ev] /\
  is_Ok (outcome (then_ (call ev op) f r)) = false.
Proof.
  intros H. unfold then_, call. cbn [outcome trace final].
  destruct (snd (op r)); [discriminate H|]. split; reflexivity.
Qed.

Lemma abandoned_then {A B} (m : cell R A) (f : A -> cell R B) r :
  Forall Runs.not_delete (trace (m r)) ->
  (forall a r', Runs.abandoned (f a r')) ->
  Runs.abandoned (then_ m f r).
Proof.
  intros Hm Hf. unfold Runs.abandoned, then_.
  destruct (outcome (m r)) as [a|e]; cbn [outcome trace].
  - destruct (Hf a (final (m r))) as [Ht Ho].
    split; [apply Forall_app; split; assumption|exact Ho].
  - split; [exact Hm|reflexivity].
Qed.

(** X16.  No cell releases the endpoint on the way out: when the endpoint
    answers no query, every run raises -- in the parsing cell, in a remote
    call, or at the first query -- and deletes nothing, so that an endpoint
    the run has deployed is left running. *)
Theorem failed_query_leaves_endpoint cred nyt_data nyt_vocab r :
  (forall endpoint rows r', is_Ok (snd (predict k endpoint rows r')) = false) ->
  Forall Runs.not_delete (trace (Notebook.pipeline k cred nyt_data nyt_vocab r)) /\
  is_Ok (outcome (Notebook.pipeline k cred nyt_data nyt_vocab r)) = false.
Proof.
  intros Hpredict. fold (Runs.abandoned (Notebook.pipeline k cred nyt_data nyt_vocab r)).
  destruct (snd (CorpusParser.bags_of_words (map Notebook.strip nyt_data) (length nyt_vocab)))
    as [[]|e] eqn:Hparse.
  - destruct (split_cell_training_rows
                (fst (CorpusParser.bags_of_words (map Notebook.strip nyt_data)
                        (length nyt_vocab)))) as [s [Hsplit _]].
    rewrite (pipeline_after_split _ _ _ _ _ _ Hparse Hsplit).
    pose proof (fun fname ep rows r' =>
      cells_do_not_delete k cred (length nyt_vocab) s fname ep rows r') as Hcells.
    apply abandoned_then; [apply (Hcells EmptyString EmptyString [] r)|]. intros fname r1.
    apply abandoned_then; [apply (Hcells fname EmptyString [] r1)|]. intros ? r2.
    apply abandoned_then; [apply (Hcells fname EmptyString [] r2)|]. intros ep r3.
    unfold Notebook.predict_cells. rewrite then_assoc.
    destruct (then_call_raises
                (Predict ep (slice (DatasetSplitter.bags_of_words_test s) 0 3))
                (predict k ep (slice (DatasetSplitter.bags_of_words_test s) 0 3))
                (fun a => then_ (call (Predict ep (DatasetSplitter.bags_of_words_test s))
                                   (predict k ep (DatasetSplitter.bags_of_words_test s)))
                            (fun _ => Notebook.delete_endpoint_cell k ep))
                r3 (Hpredict _ _ _)) as [Ht Ho].
    split; [rewrite Ht|exact Ho].
    repeat constructor. intros ep' Hev. discriminate Hev.
  - rewrite (pipeline_before_split _ _ _ _ _ _ Hparse).
    split; [constructor|reflexivity].
Qed.

End Sent.

Lemma failed_query_leaves_endpoint_witness :
  let newline := String "010"%char EmptyString in
  let nyt_data := [String.append "1:3,2:1" newline; String.append "2:2" newline] in
  let run := Notebook.pipeline Outage.sagemaker Account.cred nyt_data
               ["a"; "b"; "c"; "d"]%string (Account.start ["model_algo-1"%string]) in
  (forall endpoint rows r',
     is_Ok (snd (predict Outage.sagemaker endpoint rows r')) = false) /\
  In Deploy (trace run) /\
  Account.endpoints (final run) = ["lda-endpoint"%string] /\
  Forall Runs.not_delete (trace run) /\
  outcome run = Raise Outage.model_error.
Proof.
  intros newline nyt_data run.
  assert (H : forall endpoint rows r',
             is_Ok (snd (predict Outage.sagemaker endpoint rows r')) = false)
    by (intros; reflexivity).
  split; [exact H|].
  split; [vm_compute; do 12 right; left; reflexivity|].
  split; [reflexivity|].
  split; [|reflexivity].
  exact (proj1 (failed_query_leaves_endpoint Outage.sagemaker Account.cred nyt_data
                  ["a"; "b"; "c"; "d"]%string (Account.start ["model_algo-1"%string]) H)).
Defined.

(** ** The order of the training section *)

Section TrainingOrder.

Context {R : Type} (k : sdk R).

Lemma upload_cell_run cred rows r :
  let key := path_join (Notebook.prefix cred) ["train"; "lda.data"]%string in
  let uri := String.append "s3://" (String.append (Notebook.bucket cred) (String.append "/" key)) in
  (outcome (Notebook.upload_cell k cred rows r) = Ok ("lda.data"%string, uri) /\
   trace (Notebook.upload_cell k cred rows r) =
     [Serialize rows; Upload (Notebook.bucket cred) key]) \/
  ((exists e, outcome (Notebook.upload_cell k cred rows r) = Raise e) /\
   Forall (fun ev => Runs.is_fit ev = false) (trace (Notebook.upload_cell k cred rows r))).
Proof.
  unfold Notebook.upload_cell, then_, call, pure. cbn [outcome final trace].
  destruct (snd (numpy_to_record_serializer k rows r)) as [buf|e]; cbn [outcome final trace].
  - destruct (snd (upload_fileobj k _ _ buf _)) as [[]|e]; cbn [outcome final trace].
    + left. split; reflexivity.
    + right. split; [exists e; reflexivity|repeat constructor].
  - right. split; [exists e; reflexivity|repeat constructor].
Qed.

Lemma estimator_cell_run cred container ntopics V n r :
  let output_path :=
    String.append "s3://" (String.append (Notebook.bucket cred)
      (String.append "/" (String.append (Notebook.prefix cred) "/output"))) in
  let hp := {| num_topics := ntopics; feature_dim := Z.of_nat V;
               mini_batch_size := n; alpha0 := (1, 0) |} in
  (outcome (Notebook.estimator_cell k cred container ntopics V n r) = Ok tt /\
   trace (Notebook.estimator_cell k cred container ntopics V n r) =
     [NewEstimator container (Notebook.role cred) output_path; SetHyperparameters hp]) \/
  ((exists e, outcome (Notebook.estimator_cell k cred container ntopics V n r) = Raise e) /\
   Forall (fun ev => Runs.is_fit ev = false)
     (trace (Notebook.estimator_cell k cred container ntopics V n r))).
Proof.
  unfold Notebook.estimator_cell, then_, call. cbn [outcome final trace].
  destruct (snd (new_estimator k _ _ _ r)) as [[]|e]; cbn [outcome final trace].
  - destruct (snd (set_hyperparameters k _ _)) as [[]|e]; cbn [outcome final trace].
    + left. split; reflexivity.
    + right. split; [exists e; reflexivity|repeat constructor].
  - right. split; [exists e; reflexivity|repeat constructor].
Qed.

Lemma training_cell_run uri r :
  (outcome (Notebook.training_cell k uri r) = Ok tt /\
   (trace (Notebook.training_cell k uri r) = [Fit uri] \/
    exists message, trace (Notebook.training_cell k uri r) = [Fit uri; Printed message])) \/
  ((exists e, outcome (Notebook.training_cell k uri r) = Raise e) /\
   trace (Notebook.training_cell k uri r) = [Fit uri]).
Proof.
  unfold Notebook.training_cell, try_except_RuntimeError, call, emit.
  cbn [outcome final trace].
  destruct (snd (fit k uri r)) as [[]|[]] eqn:E; cbn [outcome final trace]; rewrite ?E;
    try (right; split; [eexists; reflexivity|reflexivity]).
  - left. split; [reflexivity|left; reflexivity].
  - left. split; [reflexivity|right; eexists; reflexivity].
Qed.

Lemma job_name_cell_trace r : trace (Notebook.job_name_cell k r) = [JobName].
Proof.
  unfold Notebook.job_name_cell. rewrite trace_then_call_cons.
  destruct (snd (latest_training_job_name k r)); reflexivity.
Qed.

Lemma no_fit_in (t : list event) uri :
  Forall (fun ev => Runs.is_fit ev = false) t -> In (Fit uri) t -> False.
Proof.
  intros H Hin. rewrite List.Forall_forall in H. specialize (H _ Hin). discriminate H.
Qed.

(** X17.  A training job is only started on data that has been put
    where it is told to read: when the training section calls fit, it has
    before that, in this order and with nothing in between, serialized the
    training rows, uploaded them to prefix/train/lda.data in the bucket,
    asked for the container image, created the estimator with the role and
    the output path s3://bucket/prefix/output, and set the hyperparameters
    (the split's topic count and training row count, the vocabulary size,
    alpha0 = 1.0); fit is given the S3 URI of the uploaded object; and after
    fit come at most the printed message of a RuntimeError and the request
    for the job's name. *)
Theorem fit_reads_the_upload cred V s r uri :
  In (Fit uri) (trace (Notebook.train k cred V s r)) ->
  exists container rest,
    trace (Notebook.train k cred V s r) =
      Runs.training_events cred (DatasetSplitter.bags_of_words_training s) container
        {| num_topics := DatasetSplitter.ntopics s;
           feature_dim := Z.of_nat V;
           mini_batch_size := DatasetSplitter.nbags_of_words_training s;
           alpha0 := (1, 0) |} ++ rest /\
    Runs.after_fit rest /\
    uri = String.append "s3://" (String.append (Notebook.bucket cred)
            (String.append "/" (path_join (Notebook.prefix cred) ["train"; "lda.data"]%string))).
Proof.
  unfold Notebook.train. rewrite trace_then.
  destruct (upload_cell_run cred (DatasetSplitter.bags_of_words_training s) r)
    as [[Ho Ht]|[[e Ho] Hno]]; rewrite Ho.
  2:{ rewrite app_nil_r. intros Hin. destruct (no_fit_in _ _ Hno Hin). }
  rewrite Ht. cbv zeta.
  set (r1 := final (Notebook.upload_cell k cred (DatasetSplitter.bags_of_words_training s) r)).
  unfold Notebook.container_cell. rewrite trace_then_call_cons.
  destruct (snd (get_image_uri k r1)) as [container|e].
  2:{ intros Hin. exfalso. revert Hin. apply no_fit_in. repeat constructor. }
  set (r2 := fst (get_image_uri k r1)).
  rewrite trace_then.
  destruct (estimator_cell_run cred container (DatasetSplitter.ntopics s) V
              (DatasetSplitter.nbags_of_words_training s) r2)
    as [[Ho2 Ht2]|[[e Ho2] Hno2]]; rewrite Ho2.
  2:{ intros Hin. exfalso. revert Hin. apply no_fit_in.
      rewrite app_nil_r. repeat constructor. exact Hno2. }
  rewrite Ht2. cbv zeta.
  set (r3 := final (Notebook.estimator_cell k cred container (DatasetSplitter.ntopics s) V
                      (DatasetSplitter.nbags_of_words_training s) r2)).
  rewrite trace_then.
  set (uri0 := String.append "s3://" (String.append (Notebook.bucket cred)
                 (String.append "/" (path_join (Notebook.prefix cred) _)))).
  intros Hin. exists container.
  assert (Hrest : exists rest,
            trace (Notebook.training_cell k uri0 r3) ++
            match outcome (Notebook.training_cell k uri0 r3) with
            | Ok a => trace (then_ (Notebook.job_name_cell k) (fun _ => pure "lda.data"%string)
                               (final (Notebook.training_cell k uri0 r3)))
            | Raise _ => []
            end = Fit uri0 :: rest /\ Runs.after_fit rest).
  { assert (Hjob : forall r', trace (then_ (Notebook.job_name_cell k)
                                       (fun _ => pure "lda.data"%string) r') = [JobName]).
    { intros r'. rewrite trace_then, job_name_cell_trace.
      destruct (outcome (Notebook.job_name_cell k r')); reflexivity. }
    destruct (training_cell_run uri0 r3) as [[Ho3 [Ht3|[message Ht3]]]|[[e Ho3] Ht3]];
      rewrite Ho3, Ht3, ?Hjob; eexists; (split; [reflexivity|]).
    - right. left. reflexivity.
    - right. right. exists message. reflexivity.
    - left. reflexivity. }
  destruct Hrest as [rest [Hrest Hafter]].
  rewrite Hrest in Hin |- *. exists rest. split; [reflexivity|]. split; [exact Hafter|].
  cbn [app In] in Hin.
  destruct Hin as [Hin|[Hin|[Hin|[Hin|[Hin|[Hin|Hin]]]]]]; try discriminate Hin.
  - injection Hin as <-. reflexivity.
  - exfalso. destruct Hafter as [->|[->|[message ->]]]; cbn [In] in Hin;
      intuition discriminate.
Qed.

End TrainingOrder.

Lemma fit_reads_the_upload_witness :
  let k := Account.sagemaker (Ok tt) (LoadedList []) in
  let uri := "s3://companyname-topic-modeling-test/sagemaker/lda-model/train/lda.data"%string in
  let run := Notebook.train k Account.cred 4 Account.oversized (Account.start []) in
  In (Fit uri) (trace run) /\
  exists container rest,
    trace run =
      [Serialize [[3; 1; 0; 0]];
       Upload "companyname-topic-modeling-test" "sagemaker/lda-model/train/lda.data";
       GetImageUri;
       NewEstimator container "arn:aws:iam::123456789012:role/sagemaker-topic-modeling"
         "s3://companyname-topic-modeling-test/sagemaker/lda-model/output";
       SetHyperparameters {| num_topics := 10; feature_dim := 4;
                             mini_batch_size := 2; alpha0 := (1, 0) |};
       Fit uri] ++ rest /\
    Runs.after_fit rest.
Proof.
  intros k uri run.
  assert (Hin : In (Fit uri) (trace run)).
  { vm_compute. do 5 right. left. reflexivity. }
  split; [exact Hin|].
  destruct (fit_reads_the_upload k Account.cred 4 Account.oversized (Account.start []) uri Hin)
    as [container [rest [Ht [Hafter _]]]].
  exists container, rest. split; [exact Ht|exact Hafter].
Defined.

(** ** A training job that fails *)

Section FailedTraining.

Context {R : Type} (k : sdk R).

Variable e : exn.

Hypothesis not_caught : is_RuntimeError e = false.

Hypothesis job_fails : forall train r, snd (fit k train r) = Raise e.

(** The handler of the training cell does not apply: the cell raises what
    [fit] raised. *)
Lemma training_cell_raises s3_train_data r :
  Notebook.training_cell k s3_train_data r =
  {| final := fst (fit k s3_train_data r);
     trace := [Fit s3_train_data];
     outcome := Raise e |}.
Proof.
  unfold Notebook.training_cell, try_except_RuntimeError, call.
  cbn [outcome final trace]. rewrite job_fails.
  destruct e; try reflexivity. discriminate not_caught.
Qed.

Lemma failed_at_fit_then {A B} (m : cell R A) (f : A -> cell R B) r :
  Forall Runs.early (trace (m r)) ->
  (forall a r', Runs.failed_at_fit e (f a r')) ->
  Runs.failed_at_fit e (then_ m f r).
Proof.
  intros Hm Hf. unfold Runs.failed_at_fit, then_.
  destruct (outcome (m r)) as [a|e0]; cbn [outcome trace].
  - destruct (Hf a (final (m r))) as [Hraise [pre [Hpre Hcase]]].
    split; [exact Hraise|].
    exists (trace (m r) ++ pre). split; [apply Forall_app; split; assumption|].
    destruct Hcase as [Ht|[uri [Ht Ho]]].
    + left. rewrite Ht. reflexivity.
    + right. exists uri. rewrite Ht. split; [apply app_assoc|exact Ho].
  - split; [reflexivity|]. exists (trace (m r)). split; [exact Hm|]. left. reflexivity.
Qed.

Lemma failed_at_fit_first {A B} (m : cell R A) (f : A -> cell R B) r :
  Runs.failed_at_fit e (m r) -> Runs.failed_at_fit e (then_ m f r).
Proof.
  intros [Hraise [pre [Hpre Hcase]]]. unfold Runs.failed_at_fit, then_.
  destruct (outcome (m r)) as [a|e0]; [discriminate Hraise|]. cbn [outcome trace].
  split; [reflexivity|]. exists pre. split; [exact Hpre|].
  destruct Hcase as [Ht|[uri [Ht Ho]]]; [left; exact Ht|].
  right. exists uri. split; [exact Ht|]. injection Ho as ->. reflexivity.
Qed.

Lemma train_fails cred V s r : Runs.failed_at_fit e (Notebook.train k cred V s r).
Proof.
  unfold Notebook.train.
  apply failed_at_fit_then.
  { unfold Notebook.upload_cell. trace_steps; exact I. }
  intros [fname s3_train_data] r1.
  apply failed_at_fit_then.
  { unfold Notebook.container_cell. trace_steps; exact I. }
  intros container r2.
  apply failed_at_fit_then.
  { unfold Notebook.estimator_cell. trace_steps; exact I. }
  intros _ r3.
  apply failed_at_fit_first. rewrite training_cell_raises.
  split; [reflexivity|]. exists []. split; [constructor|].
  right. exists s3_train_data. split; reflexivity.
Qed.


End FailedTraining.


(** ** Object keys *)

Section Keys.

Context {R : Type} (k : sdk R).

Lemma endswith_slash_cons c s :
  s <> EmptyString -> endswith_slash (String c s) = endswith_slash s.
Proof.
  intros Hne. unfold endswith_slash.
  destruct s as [|c' s']; [congruence|].
  cbn [String.length]. rewrite !Nat.sub_succ, !Nat.sub_0_r. reflexivity.
Qed.

Lemma append_nonempty a b : b <> EmptyString -> String.append a b <> EmptyString.
Proof. intros Hb. destruct a; [exact Hb|discriminate]. Qed.

Lemma endswith_slash_append a b :
  b <> EmptyString -> endswith_slash (String.append a b) = endswith_slash b.
Proof.
  intros Hb. induction a as [|c a IH]; [reflexivity|].
  cbn [String.append]. rewrite endswith_slash_cons by (apply append_nonempty, Hb).
  exact IH.
Qed.

(** [os.path.join] of a segment onto a path that does not end in a slash. *)
Lemma path_join2_plain path b :
  path <> EmptyString -> endswith_slash path = false -> startswith "/" b = false ->
  path_join2 path b = String.append path (String "/"%char b).
Proof.
  intros Hne Hend Hb. unfold path_join2. rewrite Hb, Hend.
  destruct path; [congruence|reflexivity].
Qed.

Lemma model_object_key prefix job_name :
  prefix <> EmptyString -> endswith_slash prefix = false ->
  Runs.plain_segment job_name ->
  path_join prefix ["output"; job_name; "output"; "model.tar.gz"]%string =
  String.append prefix
    (String.append "/output/" (String.append job_name "/output/model.tar.gz")).
Proof.
  intros Hne Hend (Hjne & Hjstart & Hjend).
  unfold path_join. cbn [fold_left].
  rewrite (path_join2_plain prefix "output" Hne Hend eq_refl).
  rewrite (path_join2_plain _ job_name);
    [|apply append_nonempty; discriminate
     |rewrite endswith_slash_append by discriminate; reflexivity
     |exact Hjstart].
  assert (Hj : String "/"%char job_name <> EmptyString) by discriminate.
  rewrite (path_join2_plain _ "output");
    [|apply append_nonempty, Hj
     |rewrite endswith_slash_append by exact Hj;
      rewrite endswith_slash_cons by exact Hjne; exact Hjend
     |reflexivity].
  rewrite (path_join2_plain _ "model.tar.gz");
    [|apply append_nonempty; discriminate
     |rewrite endswith_slash_append by discriminate; reflexivity
     |reflexivity].
  rewrite !string_append_assoc. reflexivity.
Qed.

(** X18.  The model is fetched from where the estimator was told to put
    its output: for a prefix that is not empty and does not end in a slash,
    and a job name that is not empty and neither starts nor ends with a
    slash, the object the download cell asks for, in the bucket of the
    credentials, is <output_path>/<job name>/output/model.tar.gz, where
    output_path is the S3 URI the estimator cell passes to the estimator. *)
Theorem model_is_fetched_from_output_path
    cred container ntopics V n fname r0 r r' job_name :
  Notebook.prefix cred <> EmptyString ->
  endswith_slash (Notebook.prefix cred) = false ->
  latest_training_job_name k r = (r', Ok job_name) ->
  Runs.plain_segment job_name ->
  exists output_path key rest0 rest,
    trace (Notebook.estimator_cell k cred container ntopics V n r0) =
      NewEstimator container (Notebook.role cred) output_path :: rest0 /\
    trace (Notebook.download_cell k cred fname r) =
      JobName :: Download (Notebook.bucket cred) key fname :: rest /\
    String.append "s3://" (String.append (Notebook.bucket cred) (String.append "/" key)) =
    String.append output_path
      (String.append "/" (String.append job_name "/output/model.tar.gz")).
Proof.
  intros Hne Hend Hjob Hplain.
  unfold Notebook.estimator_cell, Notebook.download_cell.
  rewrite !trace_then_call_cons, Hjob. cbn [fst snd].
  rewrite trace_then_call_cons.
  eexists _, _, _, _. split; [reflexivity|]. split; [reflexivity|].
  rewrite (model_object_key _ _ Hne Hend Hplain).
  rewrite !string_append_assoc. reflexivity.
Qed.

End Keys.

Lemma model_is_fetched_from_output_path_witness :
  let k := Account.sagemaker (Ok tt) (LoadedList [Account.alpha3; Account.beta2x2]) in
  let r := Account.start ["model_algo-1"%string] in
  (Notebook.prefix Account.cred <> EmptyString /\
   endswith_slash (Notebook.prefix Account.cred) = false /\
   latest_training_job_name k r = (r, Ok "lda-job"%string) /\
   Runs.plain_segment "lda-job") /\
  exists output_path key rest0 rest,
    trace (Notebook.estimator_cell k Account.cred "lda:1" 10 4 2 r) =
      NewEstimator "lda:1" (Notebook.role Account.cred) output_path :: rest0 /\
    trace (Notebook.download_cell k Account.cred "lda.data" r) =
      JobName :: Download (Notebook.bucket Account.cred) key "lda.data" :: rest /\
    String.append "s3://" (String.append (Notebook.bucket Account.cred) (String.append "/" key)) =
    String.append output_path "/lda-job/output/model.tar.gz".
Proof.
  intros k r.
  assert (Hne : Notebook.prefix Account.cred <> EmptyString) by discriminate.
  assert (Hplain : Runs.plain_segment "lda-job").
  { split; [discriminate|]. split; reflexivity. }
  split; [split; [exact Hne|]; split; [reflexivity|]; split; [reflexivity|exact Hplain]|].
  exact (model_is_fetched_from_output_path k Account.cred "lda:1" 10 4 2 "lda.data" r r r
           "lda-job" Hne eq_refl eq_refl Hplain).
Defined.

(** ** The inspection cells *)

Section Inspection.

Lemma parsed_matrix_shaped (word_counts : list string) V :
  Corpus.shaped V (fst (CorpusParser.bags_of_words word_counts V)).
Proof.
  unfold CorpusParser.bags_of_words, CorpusParser.fill.
  apply (for_each_keeps (Corpus.shaped V)).
  - intros row a Hshape. unfold bindS, lift.
    destruct (getitem word_counts row) as [line|]; [|exact Hshape].
    apply (for_each_keeps (Corpus.shaped V)); [|exact Hshape].
    intros col a'. apply assign_shaped.
  - unfold Np.zeros, Corpus.shaped. apply Forall_replicate, length_replicate.
Qed.

(** The loop of the frequency cell from position [start] on, in a matrix
    with a document 3. *)
Lemma frequency_loop (word : list string) (bags_of_words : Np.ndarray2) document n :
  bags_of_words !! 3%nat = Some document -> length document = length word ->
  forall start printed, (start <= length word)%nat ->
  for_each (seq start n) (fun i =>
    let* w := lift (getitem word i) in
    let* document := lift (getitem bags_of_words 3) in
    let* n := lift (getitem document i) in
    fun printed => (printed ++ [(w, n)], Ok tt)) printed =
  (printed ++ zip (take n (drop start word)) (take n (drop start document)),
   if (start + n <=? length word)%nat then Ok tt else Raise IndexError).
Proof.
  intros Hdoc Hlen.
  induction n as [|n IH]; intros start printed Hstart.
  - simpl. rewrite app_nil_r.
    destruct (Nat.leb_spec (start + 0) (length word)); [reflexivity|lia].
  - cbn [seq for_each]. unfold bindS at 1.
    unfold bindS at 1, lift at 1, getitem at 1.
    destruct (word !! start) as [w|] eqn:Hw.
    + unfold bindS at 1, lift at 1, getitem at 1. rewrite Hdoc.
      unfold bindS at 1, lift at 1, getitem at 1.
      assert (Hlt : (start < length document)%nat).
      { rewrite Hlen. apply lookup_lt_Some in Hw. exact Hw. }
      destruct (lookup_lt_is_Some_2 document start Hlt) as [c Hc]. rewrite Hc.
      rewrite IH by (apply lookup_lt_Some in Hw; lia).
      rewrite (drop_S word w start Hw), (drop_S document c start Hc).
      cbn [take zip zip_with]. rewrite <- app_assoc. cbn [app]. f_equal.
      replace (S start + n)%nat with (start + S n)%nat by lia. reflexivity.
    + apply lookup_ge_None in Hw.
      rewrite drop_ge by lia. rewrite take_nil. cbn [zip zip_with]. rewrite app_nil_r.
      destruct (Nat.leb_spec (start + S n) (length word)); [lia|reflexivity].
Qed.

(** X19.  The frequency cell needs four documents and ten words: run on
    the matrix the parsing cell has left for [word_counts] and a vocabulary
    [word], it completes exactly when there are at least four lines and at
    least ten words, and raises IndexError otherwise; what it has printed
    by then are the first words with their counts in document 3, none at
    all when there is no document 3. *)
Theorem frequency_cell_needs_four_documents (word_counts word : list string) :
  let bags_of_words := fst (CorpusParser.bags_of_words word_counts (length word)) in
  Notebook.frequency_cell word bags_of_words [] =
  (match bags_of_words !! 3%nat with
   | Some document => zip (take 10 word) (take 10 document)
   | None => []
   end,
   if ((4 <=? length word_counts)%nat && (10 <=? length word)%nat)%bool
   then Ok tt else Raise IndexError).
Proof.
  cbv zeta.
  pose proof (bags_of_words_length word_counts (length word)) as Hrows.
  pose proof (parsed_matrix_shaped word_counts (length word)) as Hshape.
  set (bags := fst (CorpusParser.bags_of_words word_counts (length word))) in *.
  destruct (bags !! 3%nat) as [document|] eqn:Hdoc.
  - assert (Hlen : length document = length word).
    { unfold Corpus.shaped in Hshape. rewrite Forall_lookup in Hshape.
      apply (Hshape _ _ Hdoc). }
    unfold Notebook.frequency_cell.
    rewrite (frequency_loop word bags document 10 Hdoc Hlen 0 []) by lia.
    rewrite !drop_0. cbn [app]. f_equal.
    apply lookup_lt_Some in Hdoc. rewrite Hrows in Hdoc.
    destruct (Nat.leb_spec 4 (length word_counts)); [|lia].
    reflexivity.
  - apply lookup_ge_None in Hdoc. rewrite Hrows in Hdoc.
    destruct (Nat.leb_spec 4 (length word_counts)); [lia|].
    unfold Notebook.frequency_cell. cbn [seq for_each]. unfold bindS at 1.
    unfold bindS at 1, lift at 1, getitem at 1.
    destruct (word !! 0%nat); [|reflexivity].
    unfold bindS at 1, lift at 1, getitem at 1.
    assert (Hnone : bags !! 3%nat = None) by (apply lookup_ge_None; lia).
    rewrite Hnone. reflexivity.
Qed.

Lemma rev_lookup {A} (l : list A) i :
  (i < length l)%nat -> rev l !! i = l !! (length l - S i)%nat.
Proof. intros Hi. rewrite rev_alt. apply (reverse_lookup l i Hi). Qed.

(** Walking down from the end of a list. *)
Lemma walk_down {A} (l : list A) n :
  (n <= length l)%nat ->
  omap (fun i => l !! Z.to_nat (Z.of_nat (length l) - 1 - Z.of_nat i)) (seq 0 n) =
  take n (rev l).
Proof.
  induction n as [|n IH]; intros Hn; [reflexivity|].
  rewrite seq_S, omap_app, IH by lia. cbn [omap list_omap Nat.add].
  replace (Z.to_nat (Z.of_nat (length l) - 1 - Z.of_nat n)) with (length l - S n)%nat by lia.
  rewrite <- rev_lookup by lia.
  destruct (lookup_lt_is_Some_2 (rev l) n) as [x Hx]; [rewrite length_rev; lia|].
  rewrite Hx. symmetry. apply take_S_r, Hx.
Qed.

(** X20.  The topic cell lists ten words, not eleven, best first: the
    positions it prints, idx[:-11:-1], are the last ten entries of idx in
    reverse order, and all of idx reversed when it has fewer than ten. *)
Theorem top_indices_are_the_last_ten (idx : list nat) :
  Notebook.top_indices idx = take 10 (rev idx) /\
  length (Notebook.top_indices idx) = Nat.min 10 (length idx).
Proof.
  assert (H : Notebook.top_indices idx = take 10 (rev idx)).
  { unfold Notebook.top_indices, Notebook.slice_backwards.
    change (-11 <? 0) with true. cbv iota.
    set (len := Z.of_nat (length idx)).
    set (stop := Z.max (-1) (-11 + len)).
    assert (Hn : Z.to_nat (if stop <? len - 1 then len - 1 - stop else 0) =
                 Nat.min 10 (length idx)).
    { destruct (Z.ltb_spec stop (len - 1)); unfold stop, len in *; lia. }
    rewrite Hn. unfold len. rewrite walk_down by lia.
    destruct (Nat.le_gt_cases 10 (length idx)) as [Hle|Hgt].
    - rewrite Nat.min_l by lia. reflexivity.
    - rewrite Nat.min_r by lia. rewrite !take_ge by (rewrite length_rev; lia). reflexivity. }
  split; [exact H|].
  rewrite H, length_take, length_rev. reflexivity.
Qed.

End Inspection.

(** ** From the data file to the services *)

Section EndToEnd.

Context {R : Type} (k : sdk R).

(** The split of the dense matrix of a list of documents. *)
Lemma split_dense V (docs : list (list Corpus.token)) :
  let n := Z.min (Z.of_nat (length docs)) 10000 in
  let t := 95 * n / 100 in
  exists s,
    DatasetSplitter.split_cell (Corpus.dense V docs) = Ok s /\
    DatasetSplitter.bags_of_words_training s = Corpus.dense V (take (Z.to_nat t) docs) /\
    DatasetSplitter.bags_of_words_test s =
      Corpus.dense V (take (Z.to_nat (n - t)) (drop (Z.to_nat t) docs)).
Proof.
  cbv zeta. eexists. split; [apply split_cell_value|].
  cbn [DatasetSplitter.bags_of_words_training DatasetSplitter.bags_of_words_test].
  unfold Np.shape0, Corpus.dense. rewrite length_map.
  split; [symmetry; apply fmap_take|].
  rewrite <- fmap_drop. symmetry. apply fmap_take.
Qed.

(** X21.  Loading, parsing, splitting and sending compose: for a data file
    whose lines hold valid sparse documents (white space around them or
    not), whatever a run gives to the record serializer is the dense rows of
    the first floor(0.95 n) documents of the file, n = min(10000, lines), in
    the order of the file, and whatever it gives to the endpoint is the
    dense rows of the documents that follow them up to n, or the first
    three of these rows. *)
Theorem valid_corpus_uploads_dense_rows cred (nyt_vocab : list string)
    (lines : list Lines.padded) r :
  Forall (Lines.valid (length nyt_vocab)) lines ->
  let docs := map Lines.document lines in
  let n := Z.min (Z.of_nat (length lines)) 10000 in
  let t := 95 * n / 100 in
  Forall (Runs.rows_sent
            (Corpus.dense (length nyt_vocab) (take (Z.to_nat t) docs))
            (Corpus.dense (length nyt_vocab)
               (take (Z.to_nat (n - t)) (drop (Z.to_nat t) docs))))
    (trace (Notebook.pipeline k cred (map Lines.raw lines) nyt_vocab r)).
Proof.
  intros Hvalid. cbv zeta.
  pose proof (strip_and_parse nyt_vocab lines Hvalid) as Hparse.
  destruct (split_dense (length nyt_vocab) (map Lines.document lines))
    as [s (Hsplit & Htrain & Htest)].
  rewrite length_map in Htrain, Htest.
  rewrite (pipeline_after_split k cred _ _ r s);
    [|rewrite Hparse; reflexivity|rewrite Hparse; exact Hsplit].
  rewrite <- Htrain, <- Htest.
  unfold Notebook.train, Notebook.upload_cell, Notebook.container_cell,
    Notebook.estimator_cell, Notebook.training_cell, Notebook.job_name_cell,
    Notebook.download_cell, Notebook.deploy_cell, Notebook.predict_cells,
    Notebook.delete_endpoint_cell.
  trace_steps;
    try match goal with p : (string * string)%type |- _ => destruct p end;
    trace_steps;
    first [exact I | reflexivity | left; apply (slice_first _ 3) | right; reflexivity].
Qed.

End EndToEnd.

Lemma valid_corpus_uploads_dense_rows_witness :
  let k := Account.sagemaker (Ok tt) (LoadedList [Account.alpha3; Account.beta2x2]) in
  let lines :=
    [ {| Lines.lead := " "; Lines.document := [("1", "3"); ("2", "1")]%string;
         Lines.trail := Account.newline |};
      {| Lines.lead := ""; Lines.document := [("2", "2"); ("10", "4")]%string;
         Lines.trail := Account.newline |};
      {| Lines.lead := ""; Lines.document := [("4", "1")]%string;
         Lines.trail := Account.newline |};
      {| Lines.lead := ""; Lines.document := [("7", "5"); ("1", "1")]%string;
         Lines.trail := Account.newline |} ] in
  let run := Notebook.pipeline k Account.cred (map Lines.raw lines) Account.nyt_vocab
               (Account.start ["model_algo-1"%string]) in
  Forall (Lines.valid (length Account.nyt_vocab)) lines /\
  Forall (Runs.rows_sent
            [[3; 1; 0; 0; 0; 0; 0; 0; 0; 0]; [0; 2; 0; 0; 0; 0; 0; 0; 0; 4];
             [0; 0; 0; 1; 0; 0; 0; 0; 0; 0]]
            [[1; 0; 0; 0; 0; 0; 5; 0; 0; 0]])
    (trace run) /\
  In (Serialize [[3; 1; 0; 0; 0; 0; 0; 0; 0; 0]; [0; 2; 0; 0; 0; 0; 0; 0; 0; 4];
                 [0; 0; 0; 1; 0; 0; 0; 0; 0; 0]]) (trace run) /\
  In (Predict "lda-endpoint" [[1; 0; 0; 0; 0; 0; 5; 0; 0; 0]]) (trace run).
Proof.
  intros k lines run.
  assert (H : Forall (Lines.valid (length Account.nyt_vocab)) lines).
  { unfold lines, Lines.valid. concrete. }
  split; [exact H|].
  split; [exact (valid_corpus_uploads_dense_rows k Account.cred Account.nyt_vocab lines
                   (Account.start ["model_algo-1"%string]) H)|].
  split; vm_compute; [left; reflexivity|do 13 right; left; reflexivity].
Defined.

(** ** The vocabulary *)

Section Vocabulary.

Lemma lstrip_is s : Notebook.lstrip s = Notebook.lstrip_by Notebook.isspace s.
Proof. induction s as [|c s IH]; simpl; [reflexivity|]. rewrite IH. reflexivity. Qed.

Lemma rstrip_is s : Notebook.rstrip s = Notebook.rstrip_by Notebook.isspace s.
Proof. induction s as [|c s IH]; simpl; [reflexivity|]. rewrite IH. reflexivity. Qed.

Lemma strip_is s :
  Notebook.strip s =
  Notebook.rstrip_by Notebook.isspace (Notebook.lstrip_by Notebook.isspace s).
Proof. unfold Notebook.strip. rewrite rstrip_is, lstrip_is. reflexivity. Qed.

Section By.

Variables p q : ascii -> bool.

Lemma lstrip_by_all a s :
  forallb p (list_ascii_of_string a) = true ->
  Notebook.lstrip_by p (String.append a s) = Notebook.lstrip_by p s.
Proof.
  induction a as [|c a IH]; simpl; intros H; [reflexivity|].
  apply andb_true_iff in H as [Hc Ha]. rewrite Hc. apply IH, Ha.
Qed.

Lemma lstrip_by_head s c :
  Lines.first_char s = Some c -> p c = false -> Notebook.lstrip_by p s = s.
Proof.
  destruct s as [|c' s]; simpl; [discriminate|].
  intros [= ->] Hc. rewrite Hc. reflexivity.
Qed.

Lemma rstrip_by_all a :
  forallb p (list_ascii_of_string a) = true -> Notebook.rstrip_by p a = EmptyString.
Proof.
  induction a as [|c a IH]; simpl; intros H; [reflexivity|].
  apply andb_true_iff in H as [Hc Ha]. rewrite (IH Ha), Hc. reflexivity.
Qed.

Lemma rstrip_by_append_all s a :
  forallb p (list_ascii_of_string a) = true ->
  Notebook.rstrip_by p (String.append s a) = Notebook.rstrip_by p s.
Proof.
  intros H. induction s as [|c s IH]; simpl; [apply rstrip_by_all, H|].
  rewrite IH. reflexivity.
Qed.

Lemma rstrip_by_last s c :
  Lines.last_char s = Some c -> p c = false -> Notebook.rstrip_by p s = s.
Proof.
  induction s as [|c' s IH]; [discriminate|].
  intros Hlast Hc. cbn [Notebook.rstrip_by]. cbv zeta.
  destruct s as [|c'' s'].
  - simpl in Hlast. injection Hlast as ->. simpl. rewrite Hc. reflexivity.
  - rewrite (IH Hlast Hc). reflexivity.
Qed.

(** Stripping a smaller set of characters after a larger one. *)
Lemma rstrip_by_again s :
  (forall c, q c = true -> p c = true) ->
  Notebook.rstrip_by q (Notebook.rstrip_by p s) = Notebook.rstrip_by p s.
Proof.
  intros Hsub. induction s as [|c s IH]; [reflexivity|].
  cbn [Notebook.rstrip_by]. cbv zeta.
  destruct (String.eqb (Notebook.rstrip_by p s) "" && p c)%bool eqn:E; [reflexivity|].
  cbn [Notebook.rstrip_by]. cbv zeta. rewrite IH.
  destruct (q c) eqn:Hq; [|rewrite andb_false_r; reflexivity].
  rewrite (Hsub c Hq), andb_true_r in E. rewrite E. reflexivity.
Qed.

Lemma lstrip_by_starts s :
  Notebook.lstrip_by p s = EmptyString \/
  exists c t, Notebook.lstrip_by p s = String c t /\ p c = false.
Proof.
  induction s as [|c s IH]; [left; reflexivity|].
  simpl. destruct (p c) eqn:Hc; [exact IH|].
  right. exists c, s. split; [reflexivity|exact Hc].
Qed.

Lemma lstrip_by_again s :
  (forall c, q c = true -> p c = true) ->
  Notebook.lstrip_by q (Notebook.rstrip_by p (Notebook.lstrip_by p s)) =
  Notebook.rstrip_by p (Notebook.lstrip_by p s).
Proof.
  intros Hsub.
  destruct (lstrip_by_starts s) as [->|(c & t & -> & Hc)]; [reflexivity|].
  cbn [Notebook.rstrip_by]. cbv zeta. rewrite Hc, andb_false_r.
  cbn [Notebook.lstrip_by].
  destruct (q c) eqn:Hq; [|reflexivity].
  rewrite (Hsub c Hq) in Hc. discriminate Hc.
Qed.

End By.

Lemma newline_is_space c :
  Notebook.among (String "010"%char EmptyString) c = true -> Notebook.isspace c = true.
Proof.
  unfold Notebook.among. simpl. rewrite orb_false_r.
  intros H. apply Ascii.eqb_eq in H. subst c. reflexivity.
Qed.

Lemma strip_newline_again x :
  Notebook.strip_chars (String "010"%char EmptyString) (Notebook.strip x) = Notebook.strip x.
Proof.
  unfold Notebook.strip_chars. rewrite strip_is.
  rewrite (lstrip_by_again Notebook.isspace _ x newline_is_space).
  apply rstrip_by_again, newline_is_space.
Qed.

(** X22.  The middle call of x.strip().strip('\n').strip("'") never
    removes anything, strip() having taken the newline with the rest of the
    white space: an entry of the vocabulary is its line without the white
    space and then without the apostrophes at its ends. *)
Theorem newline_strip_is_redundant (x : string) :
  Notebook.vocabulary_entry x = Notebook.strip_chars "'" (Notebook.strip x).
Proof.
  unfold Notebook.vocabulary_entry. f_equal.
  unfold Notebook.strip_chars. rewrite strip_is.
  rewrite (lstrip_by_again Notebook.isspace _ x newline_is_space).
  apply rstrip_by_again, newline_is_space.
Qed.

Lemma first_char_append a b c :
  Lines.first_char a = Some c -> Lines.first_char (String.append a b) = Some c.
Proof. destruct a; [discriminate|]. intros H. exact H. Qed.

Lemma last_char_append a b :
  b <> EmptyString -> Lines.last_char (String.append a b) = Lines.last_char b.
Proof.
  intros Hb. induction a as [|c a IH]; [reflexivity|].
  cbn [String.append Lines.last_char].
  destruct (String.append a b) as [|c' t] eqn:E; [|exact IH].
  destruct a; [simpl in E; congruence|discriminate E].
Qed.

Lemma string_append_nil s : String.append s EmptyString = s.
Proof. induction s as [|c s IH]; simpl; [reflexivity|]. rewrite IH. reflexivity. Qed.

Lemma forallb_first (f : ascii -> bool) s c :
  forallb f (list_ascii_of_string s) = true -> Lines.first_char s = Some c -> f c = true.
Proof.
  destruct s as [|c' s]; [discriminate|]. simpl.
  intros H [= <-]. apply andb_true_iff in H. apply H.
Qed.

Lemma forallb_last (f : ascii -> bool) s c :
  forallb f (list_ascii_of_string s) = true -> Lines.last_char s = Some c -> f c = true.
Proof.
  induction s as [|c' s IH]; [discriminate|].
  simpl. intros H Hlast. apply andb_true_iff in H as [Hc Hs].
  destruct s as [|c'' s']; [injection Hlast as <-; exact Hc|].
  apply (IH Hs Hlast).
Qed.

Lemma last_char_some s : s <> EmptyString -> exists c, Lines.last_char s = Some c.
Proof.
  induction s as [|c s IH]; [congruence|]. intros _.
  destruct s as [|c' s']; [exists c; reflexivity|].
  apply IH. discriminate.
Qed.

Lemma quote_is_no_space c : Notebook.among "'" c = true -> Notebook.isspace c = false.
Proof.
  unfold Notebook.among. simpl. rewrite orb_false_r.
  intros H. apply Ascii.eqb_eq in H. subst c. reflexivity.
Qed.

Lemma kept_is c :
  Lines.kept c = true -> Notebook.isspace c = false /\ Notebook.among "'" c = false.
Proof.
  unfold Lines.kept. intros H. apply andb_true_iff in H as [Hs Hq].
  split; apply negb_true_iff; assumption.
Qed.

Lemma plain_word_nonempty w : Lines.plain_word w -> w <> EmptyString.
Proof. intros [[c [H _]] _]. destruct w; [discriminate H|discriminate]. Qed.

(** A word between apostrophes begins and ends with a character that is no
    white space. *)
Lemma quoted_edges opening w closing :
  Lines.all_quotes opening = true -> Lines.all_quotes closing = true ->
  Lines.plain_word w ->
  (exists c, Lines.first_char (String.append opening (String.append w closing)) = Some c /\
             Notebook.isspace c = false) /\
  (exists c, Lines.last_char (String.append opening (String.append w closing)) = Some c /\
             Notebook.isspace c = false).
Proof.
  intros Hopen Hclose Hplain.
  pose proof (plain_word_nonempty w Hplain) as Hw.
  destruct Hplain as [[c1 [Hfirst Hk1]] [c2 [Hlast [Hk2 _]]]].
  split.
  - destruct opening as [|o opening'].
    + exists c1. split; [apply (first_char_append w closing c1 Hfirst)|apply kept_is, Hk1].
    + exists o. split; [reflexivity|].
      apply quote_is_no_space. apply (forallb_first _ _ o Hopen). reflexivity.
  - assert (Hne : String.append w closing <> EmptyString)
      by (destruct w; [congruence|discriminate]).
    rewrite (last_char_append _ _ Hne).
    destruct closing as [|o closing'].
    + rewrite string_append_nil. exists c2. split; [exact Hlast|apply kept_is, Hk2].
    + rewrite last_char_append by discriminate.
      destruct (last_char_some (String o closing')) as [c Hc]; [discriminate|].
      exists c. split; [exact Hc|].
      apply quote_is_no_space. apply (forallb_last _ _ c Hclose Hc).
Qed.

(** The strip chain on one line that holds a plain word. *)
Lemma entry_is_unwrapped (e : Lines.entry) :
  Lines.wrapped e -> Notebook.vocabulary_entry (Lines.entry_line e) = Lines.the_word e.
Proof.
  destruct e as [before opening w closing after]. unfold Lines.wrapped.
  cbn [Lines.before Lines.after Lines.opening Lines.closing Lines.the_word].
  intros (Hbefore & Hafter & Hopen & Hclose & Hplain).
  unfold Notebook.vocabulary_entry. rewrite strip_newline_again.
  assert (Hstrip : Notebook.strip (Lines.entry_line
                     {| Lines.before := before; Lines.opening := opening;
                        Lines.the_word := w; Lines.closing := closing;
                        Lines.after := after |}) =
                   String.append opening (String.append w closing)).
  { rewrite strip_is. unfold Lines.entry_line. cbn [Lines.before Lines.after
      Lines.opening Lines.closing Lines.the_word].
    rewrite (lstrip_by_all _ _ _ Hbefore).
    destruct (quoted_edges opening w closing Hopen Hclose Hplain)
      as [[c1 [Hfirst Hs1]] [c2 [Hlast Hs2]]].
    replace (String.append opening (String.append w (String.append closing after)))
      with (String.append (String.append opening (String.append w closing)) after)
      by (rewrite !string_append_assoc; reflexivity).
    rewrite (lstrip_by_head _ _ c1 (first_char_append _ after _ Hfirst) Hs1).
    rewrite (rstrip_by_append_all _ _ _ Hafter).
    apply (rstrip_by_last _ _ c2 Hlast Hs2). }
  rewrite Hstrip. unfold Notebook.strip_chars.
  rewrite (lstrip_by_all _ _ _ Hopen).
  destruct Hplain as [[c1 [Hfirst Hk1]] [c2 [Hlast [Hk2 _]]]].
  rewrite (lstrip_by_head _ _ c1 (first_char_append _ closing _ Hfirst)
             (proj2 (kept_is c1 Hk1))).
  rewrite (rstrip_by_append_all _ _ _ Hclose).
  apply (rstrip_by_last _ _ c2 Hlast (proj2 (kept_is c2 Hk2))).
Qed.

(** X23.  Words come out of the vocabulary file without their wrapping:
    when every line holds a word whose first and last characters are neither
    white space nor apostrophes and which does not end in a NUL character,
    written with any number of apostrophes on either side and any white
    space (the newline among it) around these, the items of the array word
    are the words themselves, line by line.  (A NUL character at the end of
    a word would be lost in the array.) *)
Theorem quoted_word_is_unwrapped (entries : list Lines.entry) :
  Forall Lines.wrapped entries ->
  Notebook.word (map Lines.entry_line entries) = map Lines.the_word entries.
Proof.
  intros Hall. unfold Notebook.word. rewrite map_map.
  apply map_ext_Forall. eapply Forall_impl; [exact Hall|].
  intros e He. cbv beta. rewrite (entry_is_unwrapped e He).
  destruct He as (_ & _ & _ & _ & _ & [c [Hlast [_ Hnul]]]).
  unfold Notebook.unicode_item. apply (rstrip_by_last _ _ c Hlast Hnul).
Qed.

End Vocabulary.

Lemma quoted_word_is_unwrapped_witness :
  let entries :=
    [ {| Lines.before := " "; Lines.opening := "'"; Lines.the_word := "don't";
         Lines.closing := "'"; Lines.after := Account.newline |};
      {| Lines.before := ""; Lines.opening := ""; Lines.the_word := "music";
         Lines.closing := ""; Lines.after := Account.newline |} ] in
  Forall Lines.wrapped entries /\
  map Lines.entry_line entries =
    [String.append " 'don't'" Account.newline; String.append "music" Account.newline] /\
  Notebook.word
    [String.append " 'don't'" Account.newline; String.append "music" Account.newline] =
  ["don't"; "music"]%string.
Proof.
  intros entries.
  assert (H : Forall Lines.wrapped entries).
  { repeat constructor; eexists; repeat split; reflexivity. }
  split; [exact H|]. split; [reflexivity|].
  exact (quoted_word_is_unwrapped entries H).
Defined.
